(** * The application pipeline engine of job-search-maestro

    A shallow embedding of the parts of [job_search_orchestrator.py],
    [pipeline_tracker.py] and [application_generator.py] that maintain the
    per-company pipeline, derive next actions, aggregate metrics, score
    case stories, order the skills and report keyword matches, followed by
    the properties of the specification stated over them and by further
    properties of the same code.

    Conventions of the embedding.
    - A Python [str] is a [string] (its UTF-8 bytes); [lower], [isdigit] and
      the substring test act on ASCII, which is exact on ASCII text.
    - A JSON document is a [pyobj]; a Python [dict] is an association list
      in insertion order with unique keys ([dict_set] updates in place or
      appends, as [d[k] = v] does).
    - The persisted pipeline has its two outer levels typed as
      [load_pipeline] and [research_company] build them (a mapping of
      company records, each a mapping); everything inside a record is an
      untyped [pyobj], so missing and ill-typed fields are part of the model.
    - A Python exception is a [Raise e] in the [result] monad.
    - A Python [float] is an exact rational: the modelled paths only add
      halves and divide small counters. *)

From Stdlib Require Import List String Ascii ZArith QArith Bool Lia Lqa.
From Stdlib Require Import Sorted Permutation Qround DecimalString OrderedTypeEx.
Import ListNotations.

Local Open Scope string_scope.
Local Open Scope Z_scope.

(** ** Python objects *)

Set Warnings "-register-all".

Inductive pyobj : Type :=
| VNone
| VBool (b : bool)
| VInt (z : Z)
| VFloat (q : Q)
| VStr (s : string)
| VList (l : list pyobj)
| VDict (d : list (string * pyobj)).

Definition dict : Type := list (string * pyobj).

(** [bool(x)] *)
Definition truthy (x : pyobj) : bool :=
  match x with
  | VNone => false
  | VBool b => b
  | VInt z => negb (z =? 0)
  | VFloat q => negb (Qeq_bool q 0)
  | VStr s => negb (s =? "")%string
  | VList l => match l with [] => false | _ => true end
  | VDict d => match d with [] => false | _ => true end
  end.

(** [x == "literal"] for a string literal: only a [str] can be equal to it. *)
Definition eq_str (x : pyobj) (s : string) : bool :=
  match x with
  | VStr s' => (s' =? s)%string
  | _ => false
  end.

(** *** Dictionaries in insertion order *)

Fixpoint dict_get {V : Type} (d : list (string * V)) (k : string) : option V :=
  match d with
  | [] => None
  | (k', v) :: d' => if (k' =? k)%string then Some v else dict_get d' k
  end.

(** [k in d] *)
Definition dict_has {V : Type} (d : list (string * V)) (k : string) : bool :=
  match dict_get d k with Some _ => true | None => false end.

(** [d[k] = v] *)
Fixpoint dict_set {V : Type} (d : list (string * V)) (k : string) (v : V)
  : list (string * V) :=
  match d with
  | [] => [(k, v)]
  | (k', v') :: d' =>
      if (k' =? k)%string then (k', v) :: d' else (k', v') :: dict_set d' k v
  end.

(** [d.update(e)] *)
Definition dict_update {V : Type} (d e : list (string * V)) : list (string * V) :=
  fold_left (fun acc kv => dict_set acc (fst kv) (snd kv)) e d.

(** [d.get(k, default)] on a known dict *)
Definition get_default (d : dict) (k : string) (default : pyobj) : pyobj :=
  match dict_get d k with Some v => v | None => default end.

(** [d.get(k)]: the default is [None] *)
Definition get_none (d : dict) (k : string) : pyobj := get_default d k VNone.

(** *** Exceptions *)

Inductive exn : Type :=
| ValueError | TypeError | AttributeError | KeyError | ZeroDivisionError.

Inductive result (A : Type) : Type :=
| Ok (a : A)
| Raise (e : exn).
Arguments Ok {A} a.
Arguments Raise {A} e.

Definition bind {A B : Type} (m : result A) (k : A -> result B) : result B :=
  match m with
  | Ok a => k a
  | Raise e => Raise e
  end.

Declare Scope py_scope.
Delimit Scope py_scope with py.
Notation "x <- m ;; k" := (bind m (fun x => k))
  (at level 100, m at next level, right associativity) : py_scope.
Notation "' p <- m ;; k" := (bind m (fun p => k))
  (at level 100, p pattern, m at next level, right associativity) : py_scope.
Local Open Scope py_scope.

(** A [for] loop that threads an accumulator and stops at the first
    exception. *)
Fixpoint foldM {A B : Type} (f : A -> B -> result A) (l : list B) (a : A)
  : result A :=
  match l with
  | [] => Ok a
  | b :: l' => a' <- f a b ;; foldM f l' a'
  end.

(** A comprehension whose body may raise. *)
Fixpoint mapM {A B : Type} (f : A -> result B) (l : list A) : result (list B) :=
  match l with
  | [] => Ok []
  | a :: l' => b <- f a ;; bs <- mapM f l' ;; Ok (b :: bs)
  end.

(** [try: e  except: return d] with a bare [except]. *)
Definition try_except {A : Type} (m : result A) (d : A) : A :=
  match m with Ok a => a | Raise _ => d end.

(** *** Dynamic operations *)

(** [x.get(k, default)]: only a dict has [get]. *)
Definition py_get (x : pyobj) (k : string) (default : pyobj) : result pyobj :=
  match x with
  | VDict d => Ok (get_default d k default)
  | _ => Raise AttributeError
  end.

(** [for e in x]: lists yield their elements, strings their characters,
    dicts their keys; nothing else is iterable. *)
Definition py_iter (x : pyobj) : result (list pyobj) :=
  match x with
  | VList l => Ok l
  | VStr s => Ok (map (fun c => VStr (String c "")) (list_ascii_of_string s))
  | VDict d => Ok (map (fun kv => VStr (fst kv)) d)
  | _ => Raise TypeError
  end.

(** [len(x)] *)
Definition py_len (x : pyobj) : result Z :=
  match x with
  | VList l => Ok (Z.of_nat (List.length l))
  | VStr s => Ok (Z.of_nat (String.length s))
  | VDict d => Ok (Z.of_nat (List.length d))
  | _ => Raise TypeError
  end.

(** Numbers: [bool] and [int] are integers, [float] a rational. *)
Inductive number : Type :=
| NInt (z : Z)
| NFloat (q : Q).

Definition to_number (x : pyobj) : result number :=
  match x with
  | VBool b => Ok (NInt (if b then 1 else 0))
  | VInt z => Ok (NInt z)
  | VFloat q => Ok (NFloat q)
  | _ => Raise TypeError
  end.

Definition of_number (n : number) : pyobj :=
  match n with NInt z => VInt z | NFloat q => VFloat q end.

Definition number_Q (n : number) : Q :=
  match n with NInt z => inject_Z z | NFloat q => q end.

Definition number_add (a b : number) : number :=
  match a, b with
  | NInt x, NInt y => NInt (x + y)
  | _, _ => NFloat (number_Q a + number_Q b)
  end.

(** [a + b] where [a] is already a number, as in [sum] and [+= 1]. *)
Definition py_add (a : number) (b : pyobj) : result number :=
  nb <- to_number b ;; Ok (number_add a nb).

(** [sum(l)]: starts from the integer 0. *)
Definition py_sum (l : list pyobj) : result number :=
  foldM py_add l (NInt 0).

(** [a < b] and [a >= b] on numbers; any other operand raises. *)
Definition py_lt (a b : pyobj) : result bool :=
  na <- to_number a ;; nb <- to_number b ;;
  Ok (match Qcompare (number_Q na) (number_Q nb) with Lt => true | _ => false end).

Definition py_ge (a b : pyobj) : result bool :=
  r <- py_lt a b ;; Ok (negb r).

(** *** Comparison of arbitrary values

    [py_lt] above is the comparison with a number; [rich_eq] and [rich_lt]
    are [==] and [<] on any two values. *)

(** Lists are equal when they have the same length and equal elements. *)
Definition list_eq {A : Type} (eq : A -> A -> bool) : list A -> list A -> bool :=
  fix go (l m : list A) {struct l} : bool :=
    match l, m with
    | [], [] => true
    | a :: l', b :: m' => eq a b && go l' m'
    | _, _ => false
    end.

(** Lists are ordered by the first elements that are not equal; when there
    are none, the shorter list is the smaller. *)
Definition list_lt {A : Type} (eq : A -> A -> bool) (lt : A -> A -> result bool)
  : list A -> list A -> result bool :=
  fix go (l m : list A) {struct l} : result bool :=
    match l, m with
    | [], [] => Ok false
    | [], _ :: _ => Ok true
    | _ :: _, [] => Ok false
    | a :: l', b :: m' => if eq a b then go l' m' else lt a b
    end.

(** Dicts are equal when they have as many keys and every key of the first
    has an equal value in the second. *)
Definition dict_eq {V : Type} (eq : V -> V -> bool) (d e : list (string * V))
  : bool :=
  (List.length d =? List.length e)%nat &&
  forallb (fun kv : string * V =>
             match dict_get e (fst kv) with
             | Some w => eq (snd kv) w
             | None => false
             end) d.

(** [x == y]: numbers are equal by value whatever their type, strings by
    content, lists element by element, dicts when they have as many keys
    and every key of the first has an equal value in the second; values of
    different kinds are not equal. *)
Fixpoint rich_eq (x y : pyobj) {struct x} : bool :=
  match x, y with
  | VNone, VNone => true
  | VStr s, VStr t => (s =? t)%string
  | VList l, VList m => list_eq rich_eq l m
  | VDict d, VDict e => dict_eq rich_eq d e
  | _, _ =>
      match to_number x, to_number y with
      | Ok a, Ok b => Qeq_bool (number_Q a) (number_Q b)
      | _, _ => false
      end
  end.

(** [x < y]: numbers by value, strings in the order of their characters,
    lists by the first elements that are not equal; any other pair of
    operands raises [TypeError]. *)
Fixpoint rich_lt (x y : pyobj) {struct x} : result bool :=
  match x, y with
  | VStr s, VStr t => Ok (String.ltb s t)
  | VList l, VList m => list_lt rich_eq rich_lt l m
  | _, _ => py_lt x y
  end.

(** [x > y] *)
Definition rich_gt (x y : pyobj) : result bool := rich_lt y x.

(** *** Strings *)

Definition lower_ascii (c : ascii) : ascii :=
  let n := nat_of_ascii c in
  if (Nat.leb 65 n && Nat.leb n 90)%bool then ascii_of_nat (n + 32) else c.

(** [s.lower()] *)
Fixpoint lower (s : string) : string :=
  match s with
  | EmptyString => EmptyString
  | String c s' => String (lower_ascii c) (lower s')
  end.

(** [s.replace(c, r)] for a one-character pattern [c]. *)
Fixpoint replace (c : ascii) (r : string) (s : string) : string :=
  match s with
  | EmptyString => EmptyString
  | String a s' =>
      if Ascii.eqb a c then r ++ replace c r s' else String a (replace c r s')
  end.

(** [c.isdigit()] *)
Definition isdigit (c : ascii) : bool :=
  let n := nat_of_ascii c in (Nat.leb 48 n && Nat.leb n 57)%bool.

(** [any(char.isdigit() for char in s)] *)
Fixpoint any_digit (s : string) : bool :=
  match s with
  | EmptyString => false
  | String c s' => isdigit c || any_digit s'
  end.

(** [k in s] for strings: [k] occurs as a substring of [s]. *)
Fixpoint contains (k s : string) : bool :=
  String.prefix k s ||
  match s with
  | EmptyString => false
  | String _ s' => contains k s'
  end.

(** ** The record store and its mutation path ([job_search_orchestrator.py]) *)

(** The persisted document: [{"companies": {...}, "stats": {...},
    "next_actions": [...]}]. *)
Record Pipeline : Type := mkPipeline {
  companies : list (string * dict);
  stats : dict;
  next_actions : list pyobj
}.

(** [config["quality_gates"]["min_priority_score"]], the one setting the
    modelled code reads. *)
Record Config : Type := mkConfig {
  min_priority_score : pyobj
}.

(** The orchestrator object: its configuration, the in-memory pipeline, the
    document last written to [data/application_pipeline.json] ([None] while
    the file does not exist) and the research-note files written so far
    (the directory of each, under [Applications/]). *)
Record JobSearchOrchestrator : Type := mkOrchestrator {
  config : Config;
  pipeline : Pipeline;
  pipeline_file : option Pipeline;
  research_notes : list string
}.

(** What the excluded collaborators hand back during one research call. *)
Record Collaborators : Type := mkCollaborators {
  now_isoformat : string;        (* [datetime.now().isoformat()] *)
  qualification_answers : dict;  (* the result of [_quick_qualification_check] *)
  ai_research : dict             (* the result of [_conduct_ai_research] *)
}.

Module Orchestrator.

(** [load_pipeline] when the file is missing. *)
Definition default_pipeline : Pipeline :=
  {| companies := [];
     stats := [("total_researched", VInt 0); ("total_applied", VInt 0);
               ("response_rate", VFloat 0); ("interviews_scheduled", VInt 0);
               ("offers_received", VInt 0)];
     next_actions := [] |}.

Definition load_pipeline (file : option Pipeline) : Pipeline :=
  match file with
  | Some p => p
  | None => default_pipeline
  end.

Definition with_pipeline (self : JobSearchOrchestrator) (p : Pipeline)
  : JobSearchOrchestrator :=
  {| config := config self; pipeline := p;
     pipeline_file := pipeline_file self;
     research_notes := research_notes self |}.

(** [self.pipeline['companies'][company_key] = company_data] *)
Definition set_company (self : JobSearchOrchestrator) (company_key : string)
  (company_data : dict) : JobSearchOrchestrator :=
  with_pipeline self
    {| companies := dict_set (companies (pipeline self)) company_key company_data;
       stats := stats (pipeline self);
       next_actions := next_actions (pipeline self) |}.

Definition save_pipeline (self : JobSearchOrchestrator) : JobSearchOrchestrator :=
  {| config := config self; pipeline := pipeline self;
     pipeline_file := Some (pipeline self);
     research_notes := research_notes self |}.

Definition _update_pipeline_status (self : JobSearchOrchestrator)
  (company_name field : string) (value : pyobj) : JobSearchOrchestrator :=
  let company_key := lower company_name in
  match dict_get (companies (pipeline self)) company_key with
  | Some company =>
      let company := dict_set company field value in
      (* Update status based on progress *)
      let company :=
        if (field =? "application_generated")%string && truthy value then
          dict_set company "status" (VStr "applied")
        else if (field =? "emails_sent")%string && truthy value then
          dict_set company "status" (VStr "outreach_sent")
        else company in
      save_pipeline (set_company self company_key company)
  | None => self
  end.

Definition _load_company_data (self : JobSearchOrchestrator)
  (company_name : string) : dict :=
  let company_key := lower company_name in
  match dict_get (companies (pipeline self)) company_key with
  | Some company => company
  | None => []
  end.

(** [_analyze_network_opportunities] *)
Definition network_data : pyobj :=
  VDict [("first_degree_connections", VList []);
         ("second_degree_connections", VList []);
         ("alumni_connections", VList []);
         ("industry_connections", VList []);
         ("warm_intro_paths", VList []);
         ("recommended_outreach", VList [])].

(** The four sub-scores: taken from [scores] (missing ones default to 8)
    when [scores] is given and truthy, asked interactively otherwise. *)
Definition priority_scores_of (scores : pyobj) (w : Collaborators) : result dict :=
  if truthy scores then
    role_appeal <- py_get scores "role_appeal" (VInt 8) ;;
    company_fit <- py_get scores "company_fit" (VInt 8) ;;
    growth_potential <- py_get scores "growth_potential" (VInt 8) ;;
    likelihood <- py_get scores "likelihood" (VInt 8) ;;
    let priority_scores :=
      [("role_appeal", role_appeal); ("company_fit", company_fit);
       ("growth_potential", growth_potential); ("likelihood", likelihood)] in
    _ <- py_sum (map snd priority_scores) ;;
    Ok priority_scores
  else Ok (qualification_answers w).

(** [self.pipeline["stats"]["total_researched"] += 1] *)
Definition bump_total_researched (self : JobSearchOrchestrator)
  : result JobSearchOrchestrator :=
  match dict_get (stats (pipeline self)) "total_researched" with
  | None => Raise KeyError
  | Some n =>
      n <- to_number n ;;
      Ok (with_pipeline self
            {| companies := companies (pipeline self);
               stats := dict_set (stats (pipeline self)) "total_researched"
                          (of_number (number_add n (NInt 1)));
               next_actions := next_actions (pipeline self) |})
  end.

(** [_generate_research_summary]: writes the notes of the company into the
    directory named after it.  The text of the notes, and what formatting it
    could raise, is not modelled. *)
Definition _generate_research_summary (self : JobSearchOrchestrator)
  (company_data : dict) : result JobSearchOrchestrator :=
  match dict_get company_data "name" with
  | None => Raise KeyError
  | Some (VStr name) =>
      let company_key := replace " " "_" (lower name) in
      Ok {| config := config self; pipeline := pipeline self;
            pipeline_file := pipeline_file self;
            research_notes := company_key :: research_notes self |}
  | Some _ => Raise AttributeError
  end.

(** [research_company]: the value returned (or the exception raised) and the
    orchestrator afterwards. *)
Definition research_company (self : JobSearchOrchestrator)
  (company_name : string) (role_title : pyobj) (force_refresh : bool)
  (scores : pyobj) (w : Collaborators)
  : result dict * JobSearchOrchestrator :=
  (* Check if already researched *)
  let company_key := replace " " "_" (lower company_name) in
  let cached :=
    if negb force_refresh then
      match dict_get (companies (pipeline self)) company_key with
      | Some existing =>
          if truthy (get_none existing "research_completed")
          then Some existing else None
      | None => None
      end
    else None in
  match cached with
  | Some existing => (Ok existing, self)
  | None =>
  (* Initialize company record *)
  let company_data : dict :=
    [("name", VStr company_name);
     ("research_date", VStr (now_isoformat w));
     ("role_title", role_title);
     ("priority_score", VInt 0);
     ("qualification_passed", VBool false);
     ("research_completed", VBool false);
     ("application_generated", VBool false);
     ("emails_sent", VList []);
     ("interviews", VList []);
     ("status", VStr "researching")] in
  (* Quick qualification check (Phase 1) *)
  match priority_scores_of scores w with
  | Raise e => (Raise e, self)
  | Ok priority_scores =>
  match py_sum (map snd priority_scores) with
  | Raise e => (Raise e, self)
  | Ok total =>
  let company_data := dict_set company_data "priority_score" (of_number total) in
  let company_data :=
    dict_set company_data "priority_breakdown" (VDict priority_scores) in
  match py_lt (of_number total) (min_priority_score (config self)) with
  | Raise e => (Raise e, self)
  | Ok true =>
      let company_data := dict_set company_data "status" (VStr "disqualified") in
      (Ok company_data, save_pipeline (set_company self company_key company_data))
  | Ok false =>
      let company_data := dict_update company_data (ai_research w) in
      let company_data :=
        dict_set company_data "network_opportunities" network_data in
      (* Mark research as completed *)
      let company_data := dict_set company_data "research_completed" (VBool true) in
      let company_data := dict_set company_data "status" (VStr "researched") in
      let company_data := dict_set company_data "qualification_passed" (VBool true) in
      (* Save to pipeline *)
      let self := set_company self company_key company_data in
      match bump_total_researched self with
      | Raise e => (Raise e, self)
      | Ok self =>
          let self := save_pipeline self in
          match _generate_research_summary self company_data with
          | Raise e => (Raise e, self)
          | Ok self => (Ok company_data, self)
          end
      end
  end end end end.

End Orchestrator.

(** ** Dates and times ([datetime]) *)

(** A [datetime]: the reading of its own wall clock in microseconds since
    1970-01-01T00:00:00, and its UTC offset in microseconds when it is
    timezone-aware ([None] for a naive one). *)
Record datetime : Type := mkdatetime {
  wall : Z;
  utcoffset : option Z
}.

Definition day_us : Z := 86400000000.

(** [timedelta(days=n)], in microseconds. *)
Definition timedelta (days : Z) : Z := days * day_us.

(** [delta.days]: the floor of the difference in days. *)
Definition days (delta : Z) : Z := delta / day_us.

(** [d + delta] *)
Definition dt_plus (d : datetime) (delta : Z) : datetime :=
  {| wall := wall d + delta; utcoffset := utcoffset d |}.

(** [a - b]: mixing a naive and an aware operand raises [TypeError]. *)
Definition dt_minus (a b : datetime) : result Z :=
  match utcoffset a, utcoffset b with
  | None, None => Ok (wall a - wall b)
  | Some oa, Some ob => Ok ((wall a - oa) - (wall b - ob))
  | _, _ => Raise TypeError
  end.

(** [a <= b] *)
Definition dt_le (a b : datetime) : result bool :=
  delta <- dt_minus a b ;; Ok (delta <=? 0).

(** [d.weekday()], Monday being 0; day 0 of the wall clock is a Thursday. *)
Definition weekday (d : datetime) : Z := (wall d / day_us + 3) mod 7.

(** ** Stable sorting, as [list.sort(key=..., reverse=True)] does it *)

(** [lt x y] is [key(x) < key(y)].  The element [x], which preceded all of
    [l] in the input, is put before the first element that is not greater:
    in front of its equals. *)
Fixpoint insert_reverse {A : Type} (lt : A -> A -> bool) (x : A) (l : list A)
  : list A :=
  match l with
  | [] => [x]
  | y :: l' => if lt x y then y :: insert_reverse lt x l' else x :: l
  end.

Definition sort_reverse {A : Type} (lt : A -> A -> bool) (l : list A) : list A :=
  fold_right (insert_reverse lt) [] l.

(** Every two of the keys can be compared, in both directions. *)
Fixpoint comparable (keys : list pyobj) : result unit :=
  match keys with
  | [] => Ok tt
  | k :: rest =>
      checked <- foldM (fun (u : unit) k' =>
                          below <- rich_lt k k' ;;
                          above <- rich_lt k' k ;;
                          Ok u)
                       rest tt ;;
      comparable rest
  end.

(** [a < b] between keys that can be compared. *)
Definition lt_bool (a b : pyobj) : bool :=
  match rich_lt a b with
  | Ok r => r
  | Raise _ => false
  end.

(** [l.sort(key=key, reverse=True)] for a key function that does not
    raise.  The keys are tuples, written as the lists of their components:
    Python compares tuples as it compares lists.  The sort is stable and
    compares keys with [<] only.  It raises the [TypeError] of a comparison:
    whichever comparisons it makes, it cannot order a list in which two keys
    cannot be compared without comparing two such keys, so it raises exactly
    when the list holds such a pair (no comparison is made in a list of
    less than two items). *)
Definition py_sort_reverse {A : Type} (key : A -> pyobj) (l : list A)
  : result (list A) :=
  checked <- comparable (map key l) ;;
  Ok (sort_reverse (fun a b => lt_bool (key a) (key b)) l).

(** ** Counting dictionaries ([defaultdict(int)]) keyed by JSON values *)

Definition hashable (x : pyobj) : bool :=
  match x with
  | VList _ | VDict _ => false
  | _ => true
  end.

(** Equality of hashable keys: numbers by value, strings and [None] by
    identity of content. *)
Definition key_eqb (a b : pyobj) : bool :=
  match a, b with
  | VNone, VNone => true
  | VStr s, VStr t => (s =? t)%string
  | _, _ =>
      match to_number a, to_number b with
      | Ok x, Ok y => Qeq_bool (number_Q x) (number_Q y)
      | _, _ => false
      end
  end.

Fixpoint incr (counts : list (pyobj * Z)) (k : pyobj) : list (pyobj * Z) :=
  match counts with
  | [] => [(k, 1)]
  | (k', n) :: rest =>
      if key_eqb k' k then (k', n + 1) :: rest else (k', n) :: incr rest k
  end.

(** [counts[k] += 1] *)
Definition count_key (counts : list (pyobj * Z)) (k : pyobj)
  : result (list (pyobj * Z)) :=
  if hashable k then Ok (incr counts k) else Raise TypeError.

(** [counts.get(k, 0)] *)
Fixpoint count_of (counts : list (pyobj * Z)) (k : pyobj) : Z :=
  match counts with
  | [] => 0
  | (k', n) :: rest => if key_eqb k' k then n else count_of rest k
  end.

(** [a < b] on floats *)
Definition Qltb (a b : Q) : bool := negb (Qle_bool b a).

(** [a / b] on numbers *)
Definition py_truediv (a b : Q) : result Q :=
  if Qeq_bool b 0 then Raise ZeroDivisionError else Ok (a / b)%Q.

(** The first [.get] on an object decides whether it is a dict. *)
Definition as_dict (x : pyobj) : result dict :=
  match x with
  | VDict d => Ok d
  | _ => Raise AttributeError
  end.

(** ** The dashboard ([pipeline_tracker.py]) *)

Module Tracker.

(** [self.targets] *)
Record Targets : Type := mkTargets {
  response_rate : Q;
  interview_conversion : Q;
  time_per_application : Z;
  applications_per_week : Z
}.

Definition targets : Targets :=
  {| response_rate := 0.4; interview_conversion := 0.7;
     time_per_application := 45; applications_per_week := 5 |}.

Record PipelineSummary : Type := mkPipelineSummary {
  total_companies : Z;
  status_breakdown : list (pyobj * Z);
  priority_breakdown : list (pyobj * Z);
  completion_rate : Q;
  active_opportunities : Z
}.

Record CompanyStatus : Type := mkCompanyStatus {
  cs_company_name : pyobj;
  cs_status : pyobj;
  cs_priority_score : pyobj;
  cs_research_date : pyobj;
  cs_last_activity : pyobj;
  cs_next_action : string;
  cs_days_since_activity : Z;
  cs_emails_sent : Z;
  cs_interviews_scheduled : Z;
  cs_response_received : bool
}.

(** The counters that the loop of [_generate_success_metrics] accumulates. *)
Record Counters : Type := mkCounters {
  total_emails : Z;
  responses_received : Z;
  interviews_scheduled : Z;
  total_applications : Z;
  offers_received : Z
}.

Record SuccessMetrics : Type := mkSuccessMetrics {
  (* email_metrics *)
  em_total_sent : Z;
  em_responses_received : Z;
  em_response_rate : Q;
  em_target_response_rate : Q;
  em_performance_vs_target : Q;
  (* application_metrics *)
  am_total_applications : Z;
  am_interviews_scheduled : Z;
  am_interview_conversion_rate : Q;
  am_target_conversion_rate : Q;
  am_performance_vs_target : Q;
  (* offer_metrics *)
  om_offers_received : Z;
  om_offer_conversion_rate : Q;
  om_pipeline_value : Z;
  (* efficiency_metrics *)
  ef_average_research_time : Q;
  ef_average_application_time : Q;
  ef_target_application_time : Z
}.

Record Campaign : Type := mkCampaign {
  cp_company : pyobj;
  cp_send_date : pyobj;
  cp_template_used : pyobj;
  cp_response_received : pyobj;
  cp_days_since_sent : Z;
  cp_follow_up_sent : pyobj
}.

Record TemplateStats : Type := mkTemplateStats {
  ts_emails_sent : Z;
  ts_responses : Z;
  ts_response_rate : Q
}.

Record EmailPerformance : Type := mkEmailPerformance {
  campaign_details : list Campaign;
  template_performance : list (pyobj * TemplateStats);
  daily_activity : list (pyobj * Z);
  best_performing_template : pyobj;
  total_campaigns : Z;
  pending_responses : Z
}.

Record InterviewInfo : Type := mkInterviewInfo {
  ii_company : pyobj;
  ii_date : pyobj;
  ii_type : pyobj;
  ii_stage : pyobj;
  ii_interviewer : pyobj;
  ii_outcome : pyobj;
  ii_feedback : pyobj;
  ii_next_steps : pyobj
}.

Record InterviewTracking : Type := mkInterviewTracking {
  scheduled_interviews : Z;
  interview_details : list InterviewInfo;
  stage_breakdown : list (pyobj * Z);
  outcome_breakdown : list (pyobj * Z);
  upcoming_interviews : list InterviewInfo;
  pending_feedback : Z;
  success_rate : Q
}.

(** The [details] text of an action, kept as the values it is formatted
    from. *)
Inductive Details : Type :=
| ResearchCompleted                         (* "Research completed, ready for application generation" *)
| EmailSentDaysAgo (days_since : Z)         (* "Original email sent {days_since} days ago" *)
| InterviewWith (stage interviewer : pyobj) (* "{stage} with {interviewer}" *).

Record Action : Type := mkAction {
  priority : string;
  action : string;
  company : pyobj;
  due_date : pyobj;
  details : Details
}.

Record WeeklyStats : Type := mkWeeklyStats {
  ws_companies_researched : Z;
  ws_applications_submitted : Z;
  ws_emails_sent : Z;
  ws_responses_received : Z;
  ws_interviews_scheduled : Z;
  ws_target_applications : Z
}.

Record WeeklyProgress : Type := mkWeeklyProgress {
  week_start : string;
  week_end : string;
  weekly_stats : WeeklyStats;
  progress_vs_target : Q;
  on_track : bool
}.

(** A recommendation: its category, priority and title, and the values its
    description is formatted from; the fixed advice texts are left out. *)
Inductive Recommendation : Type :=
| ImproveEmailResponseRate (current target : Q)       (* email_optimization, high *)
| IncreaseApplicationVolume (submitted target : Z)    (* volume_optimization, medium *)
| ConvertResearchToApplications (researched : Z)      (* pipeline_efficiency, medium *)
| OptimizeEmailTemplates (best_template : pyobj)      (* template_optimization, low *).

Record Dashboard : Type := mkDashboard {
  generated_at : string;
  pipeline_summary : PipelineSummary;
  company_status : list CompanyStatus;
  success_metrics : SuccessMetrics;
  email_performance : EmailPerformance;
  interview_tracking : InterviewTracking;
  dashboard_next_actions : list Action;
  weekly_progress : WeeklyProgress;
  recommendations : list Recommendation
}.

(** The tracker object: the pipeline it loaded and the text last written to
    [Pipeline_Dashboard.md]. *)
Record PipelineTracker : Type := mkTracker {
  pipeline_data : Pipeline;
  dashboard_file : option string
}.

Section PipelineTracker.

(** The library and the collaborators: [datetime.fromisoformat] ([None]
    when it raises [ValueError]), [datetime.isoformat], the builtin [round],
    the markdown rendering of [_save_dashboard], and the reading of the
    clock by [datetime.now()], a naive datetime. *)
Variable fromisoformat : string -> option datetime.
Variable isoformat : datetime -> string.
Variable round : Q -> Z -> Q.
Variable render : Dashboard -> string.
Variable clock : Z.

Definition now : datetime := {| wall := clock; utcoffset := None |}.

(** [datetime.fromisoformat(s.replace('Z', '+00:00'))] *)
Definition parse (s : pyobj) : result datetime :=
  match s with
  | VStr s =>
      match fromisoformat (replace "Z" "+00:00" s) with
      | Some d => Ok d
      | None => Raise ValueError
      end
  | _ => Raise AttributeError
  end.

(** [any(email.get("response_received", False) for email in emails)] *)
Fixpoint any_response (emails : list pyobj) : result bool :=
  match emails with
  | [] => Ok false
  | email :: rest =>
      r <- py_get email "response_received" (VBool false) ;;
      if truthy r then Ok true else any_response rest
  end.

Definition _has_received_response (company_data : dict) : result bool :=
  emails <- py_iter (get_default company_data "emails_sent" (VList [])) ;;
  any_response emails.

Definition _calculate_days_since (date_string : pyobj) : Z :=
  if negb (truthy date_string) then 0
  else try_except
         (date <- parse date_string ;;
          delta <- dt_minus now date ;;
          Ok (days delta)) 0.

Definition _is_upcoming_interview (date_string : pyobj) : bool :=
  if negb (truthy date_string) then false
  else try_except
         (interview_date <- parse date_string ;;
          delta <- dt_minus interview_date now ;;
          let days_until := days delta in
          Ok ((0 <=? days_until) && (days_until <=? 14))) false.

Definition _calculate_due_date (base_date_str : pyobj) (n : Z) : string :=
  if negb (truthy base_date_str) then isoformat now
  else try_except
         (base_date <- parse base_date_str ;;
          let due_date := dt_plus base_date (timedelta n) in
          Ok (isoformat due_date)) (isoformat now).

(** The dates that [_get_last_activity_date] collects from a list of emails
    or interviews under the key [k]. *)
Fixpoint collect_dates (k : string) (items : list pyobj) : result (list pyobj) :=
  match items with
  | [] => Ok []
  | item :: rest =>
      d <- py_get item k VNone ;;
      ds <- collect_dates k rest ;;
      Ok (if truthy d then d :: ds else ds)
  end.

(** [max(dates)] on a non-empty list: each date is compared with the
    greatest so far ([item > maxitem]) and replaces it when it is greater,
    so the first of the greatest dates is returned; a comparison of two
    values that cannot be ordered raises [TypeError]. *)
Definition py_max (dates : list pyobj) : result pyobj :=
  match dates with
  | [] => Raise ValueError
  | d :: rest =>
      foldM (fun maxitem item =>
               greater <- rich_gt item maxitem ;;
               Ok (if greater then item else maxitem))
            rest d
  end.

Definition _get_last_activity_date (company_data : dict) : result pyobj :=
  let research_date := get_none company_data "research_date" in
  let dates := if truthy research_date then [research_date] else [] in
  emails <- py_iter (get_default company_data "emails_sent" (VList [])) ;;
  send_dates <- collect_dates "send_date" emails ;;
  interviews <- py_iter (get_default company_data "interviews" (VList [])) ;;
  interview_dates <- collect_dates "date" interviews ;;
  let dates := (dates ++ send_dates ++ interview_dates)%list in
  match dates with
  | [] => Ok (VStr "")
  | _ => py_max dates
  end.

Definition action_map : list (string * string) :=
  [("researching", "Complete company research");
   ("researched", "Generate application package");
   ("applied", "Send cold email campaign");
   ("email_sent", "Monitor for responses");
   ("responded", "Schedule interview");
   ("interviewing", "Follow up on interview outcome");
   ("offered", "Negotiate and decide");
   ("hired", "Complete - Success!");
   ("rejected", "Archive and learn from feedback")].

Definition _determine_next_action (company_data : dict) : result string :=
  let status := get_default company_data "status" (VStr "unknown") in
  if hashable status then
    Ok (match status with
        | VStr s =>
            match dict_get action_map s with
            | Some a => a
            | None => "Determine status and next steps"
            end
        | _ => "Determine status and next steps"
        end)
  else Raise TypeError.

Definition _calculate_days_since_activity (company_data : dict) : result Z :=
  last_activity <- _get_last_activity_date company_data ;;
  if negb (truthy last_activity) then Ok 0
  else Ok (try_except
             (activity_date <- parse last_activity ;;
              delta <- dt_minus now activity_date ;;
              Ok (days delta)) 0).

Definition status_in (status : pyobj) (l : list string) : bool :=
  existsb (eq_str status) l.

Definition completed_stages_of (company_data : dict) : Z :=
  let status := get_default company_data "status" (VStr "unknown") in
  (if status_in status ["researched"; "applied"; "interviewing"; "offered"; "hired"]
   then 1 else 0) +
  (if status_in status ["applied"; "interviewing"; "offered"; "hired"] then 1 else 0) +
  (if status_in status ["interviewing"; "offered"; "hired"] then 1 else 0) +
  (if status_in status ["offered"; "hired"] then 1 else 0) +
  (if eq_str status "hired" then 1 else 0).

Definition _calculate_completion_rate (self : PipelineTracker) : Q :=
  let companies := companies (pipeline_data self) in
  match companies with
  | [] => 0%Q
  | _ =>
      let completed_stages :=
        fold_left (fun acc kv => acc + completed_stages_of (snd kv)) companies 0 in
      let total_possible_stages := Z.of_nat (List.length companies) * 5 in
      if total_possible_stages >? 0
      then round (inject_Z completed_stages / inject_Z total_possible_stages)%Q 3
      else 0%Q
  end.

Definition _generate_pipeline_summary (self : PipelineTracker)
  : result PipelineSummary :=
  let companies := companies (pipeline_data self) in
  '(status_counts, priority_breakdown) <-
    foldM (fun '(status_counts, priority_breakdown) (kv : string * dict) =>
             let company_data := snd kv in
             let status := get_default company_data "status" (VStr "unknown") in
             status_counts <- count_key status_counts status ;;
             let priority := get_default company_data "priority_score" (VInt 0) in
             high <- py_ge priority (VInt 35) ;;
             if high then Ok (status_counts, incr priority_breakdown (VStr "high"))
             else
               medium <- py_ge priority (VInt 28) ;;
               if medium
               then Ok (status_counts, incr priority_breakdown (VStr "medium"))
               else Ok (status_counts, incr priority_breakdown (VStr "low")))
          companies ([], []) ;;
  Ok {| total_companies := Z.of_nat (List.length companies);
        status_breakdown := status_counts;
        priority_breakdown := priority_breakdown;
        completion_rate := _calculate_completion_rate self;
        active_opportunities :=
          count_of status_counts (VStr "researched") +
          count_of status_counts (VStr "applied") +
          count_of status_counts (VStr "interviewing") |}.

(** [(x["priority_score"], -x["days_since_activity"])] *)
Definition status_key (x : CompanyStatus) : pyobj :=
  VList [cs_priority_score x; VInt (- cs_days_since_activity x)].

(** [company_status.sort(key=lambda x: (x["priority_score"],
    -x["days_since_activity"]), reverse=True)] *)
Definition sort_company_status (l : list CompanyStatus)
  : result (list CompanyStatus) :=
  py_sort_reverse status_key l.

Definition _generate_company_status (self : PipelineTracker)
  : result (list CompanyStatus) :=
  let companies := companies (pipeline_data self) in
  company_status <-
    mapM (fun kv : string * dict =>
            let company_key := fst kv in
            let company_data := snd kv in
            last_activity <- _get_last_activity_date company_data ;;
            next_action <- _determine_next_action company_data ;;
            days_since_activity <- _calculate_days_since_activity company_data ;;
            emails_sent <- py_len (get_default company_data "emails_sent" (VList [])) ;;
            interviews <- py_len (get_default company_data "interviews" (VList [])) ;;
            response_received <- _has_received_response company_data ;;
            Ok {| cs_company_name := get_default company_data "name" (VStr company_key);
                  cs_status := get_default company_data "status" (VStr "unknown");
                  cs_priority_score := get_default company_data "priority_score" (VInt 0);
                  cs_research_date := get_default company_data "research_date" (VStr "");
                  cs_last_activity := last_activity;
                  cs_next_action := next_action;
                  cs_days_since_activity := days_since_activity;
                  cs_emails_sent := emails_sent;
                  cs_interviews_scheduled := interviews;
                  cs_response_received := response_received |})
         companies ;;
  (* Sort by priority score and recent activity *)
  sort_company_status company_status.

(** The loop of [_generate_success_metrics]. *)
Definition count_company (c : Counters) (company_data : dict) : result Counters :=
  let emails_sent := get_default company_data "emails_sent" (VList []) in
  n <- py_len emails_sent ;;
  let total_emails := total_emails c + n in
  responded <- _has_received_response company_data ;;
  let responses_received :=
    if responded then responses_received c + 1 else responses_received c in
  let interviews := get_default company_data "interviews" (VList []) in
  let interviews_scheduled :=
    if truthy interviews then interviews_scheduled c + 1 else interviews_scheduled c in
  let total_applications :=
    if eq_str (get_none company_data "status") "applied"
    then total_applications c + 1 else total_applications c in
  let offers_received :=
    if truthy (get_none company_data "offer_received")
    then offers_received c + 1 else offers_received c in
  Ok {| total_emails := total_emails;
        responses_received := responses_received;
        interviews_scheduled := interviews_scheduled;
        total_applications := total_applications;
        offers_received := offers_received |}.

Definition success_counters (self : PipelineTracker) : result Counters :=
  foldM (fun c (kv : string * dict) => count_company c (snd kv))
        (companies (pipeline_data self))
        {| total_emails := 0; responses_received := 0; interviews_scheduled := 0;
           total_applications := 0; offers_received := 0 |}.

(** Calculate rates *)
Definition email_response_rate (c : Counters) : result Q :=
  if total_emails c >? 0
  then py_truediv (inject_Z (responses_received c)) (inject_Z (total_emails c))
  else Ok 0%Q.

Definition interview_conversion_rate (c : Counters) : result Q :=
  if total_applications c >? 0
  then py_truediv (inject_Z (interviews_scheduled c)) (inject_Z (total_applications c))
  else Ok 0%Q.

Definition offer_conversion_rate (c : Counters) : result Q :=
  if interviews_scheduled c >? 0
  then py_truediv (inject_Z (offers_received c)) (inject_Z (interviews_scheduled c))
  else Ok 0%Q.

(** [round(rate / target, 2) if target > 0 else 0] *)
Definition performance_vs_target (rate target : Q) : result Q :=
  if Qltb 0 target
  then q <- py_truediv rate target ;; Ok (round q 2)
  else Ok 0%Q.

Definition _generate_success_metrics (self : PipelineTracker)
  : result SuccessMetrics :=
  c <- success_counters self ;;
  email_response_rate <- email_response_rate c ;;
  interview_conversion_rate <- interview_conversion_rate c ;;
  offer_conversion_rate <- offer_conversion_rate c ;;
  email_vs_target <-
    performance_vs_target email_response_rate (response_rate targets) ;;
  conversion_vs_target <-
    performance_vs_target interview_conversion_rate (interview_conversion targets) ;;
  Ok {| em_total_sent := total_emails c;
        em_responses_received := responses_received c;
        em_response_rate := round email_response_rate 3;
        em_target_response_rate := response_rate targets;
        em_performance_vs_target := email_vs_target;
        am_total_applications := total_applications c;
        am_interviews_scheduled := interviews_scheduled c;
        am_interview_conversion_rate := round interview_conversion_rate 3;
        am_target_conversion_rate := interview_conversion targets;
        am_performance_vs_target := conversion_vs_target;
        om_offers_received := offers_received c;
        om_offer_conversion_rate := round offer_conversion_rate 3;
        om_pipeline_value := offers_received c * 165000;
        ef_average_research_time := 0;
        ef_average_application_time := 0;
        ef_target_application_time := time_per_application targets |}.

(** [x[:10]] *)
Definition slice10 (x : pyobj) : result pyobj :=
  match x with
  | VStr s => Ok (VStr (substring 0 10 s))
  | VList l => Ok (VList (firstn 10 l))
  | _ => Raise TypeError
  end.

(** The state of the loop of [_generate_email_performance]: the campaigns,
    [template_performance] as its two counters, and [daily_activity]. *)
Definition email_loop_state : Type :=
  (list Campaign * list (pyobj * Z) * list (pyobj * Z) * list (pyobj * Z))%type.

Definition track_email (company_data : dict) (st : email_loop_state)
  (email : pyobj) : result email_loop_state :=
  let '(email_campaigns, sent, responses, daily_activity) := st in
  e <- as_dict email ;;
  let campaign_info :=
    {| cp_company := get_default company_data "name" (VStr "Unknown");
       cp_send_date := get_default e "send_date" (VStr "");
       cp_template_used := get_default e "template" (VStr "unknown");
       cp_response_received := get_default e "response_received" (VBool false);
       cp_days_since_sent := _calculate_days_since (get_default e "send_date" (VStr ""));
       cp_follow_up_sent := get_default e "follow_up_sent" (VBool false) |} in
  let email_campaigns := (email_campaigns ++ [campaign_info])%list in
  (* Track template performance *)
  let template := get_default e "template" (VStr "unknown") in
  sent <- count_key sent template ;;
  let responses :=
    if truthy (get_none e "response_received") then incr responses template
    else responses in
  (* Track daily activity *)
  send_date <- slice10 (get_default e "send_date" (VStr "")) ;;
  daily_activity <-
    (if truthy send_date then count_key daily_activity send_date
     else Ok daily_activity) ;;
  Ok (email_campaigns, sent, responses, daily_activity).

Definition template_stats_of (sent responses : list (pyobj * Z))
  : list (pyobj * TemplateStats) :=
  map (fun kv : pyobj * Z =>
         let n_sent := snd kv in
         let n_responses := count_of responses (fst kv) in
         let response_rate :=
           if n_sent >? 0 then (inject_Z n_responses / inject_Z n_sent)%Q else 0%Q in
         (fst kv, {| ts_emails_sent := n_sent; ts_responses := n_responses;
                     ts_response_rate := round response_rate 3 |}))
      sent.

(** [max(template_stats.items(), key=...)[0]]: the first entry of maximal
    rate. *)
Definition best_template (template_stats : list (pyobj * TemplateStats)) : pyobj :=
  match template_stats with
  | [] => VStr "None"
  | first :: rest =>
      fst (fold_left
             (fun best x =>
                if Qltb (ts_response_rate (snd best)) (ts_response_rate (snd x))
                then x else best)
             rest first)
  end.

Definition _generate_email_performance (self : PipelineTracker)
  : result EmailPerformance :=
  let companies := companies (pipeline_data self) in
  '(email_campaigns, sent, responses, daily_activity) <-
    foldM (fun st (kv : string * dict) =>
             let company_data := snd kv in
             emails_sent <- py_iter (get_default company_data "emails_sent" (VList [])) ;;
             foldM (track_email company_data) emails_sent st)
          companies ([], [], [], []) ;;
  (* Calculate template response rates *)
  let template_stats := template_stats_of sent responses in
  Ok {| campaign_details := email_campaigns;
        template_performance := template_stats;
        daily_activity := daily_activity;
        best_performing_template := best_template template_stats;
        total_campaigns := Z.of_nat (List.length email_campaigns);
        pending_responses :=
          Z.of_nat (List.length
            (filter (fun c => negb (truthy (cp_response_received c))
                              && (cp_days_since_sent c <=? 14))
                    email_campaigns)) |}.

Definition interview_loop_state : Type :=
  (list InterviewInfo * list (pyobj * Z) * list (pyobj * Z))%type.

Definition track_interview (company_data : dict) (st : interview_loop_state)
  (interview : pyobj) : result interview_loop_state :=
  let '(interviews, interview_stages, outcomes) := st in
  i <- as_dict interview ;;
  let interview_info :=
    {| ii_company := get_default company_data "name" (VStr "Unknown");
       ii_date := get_default i "date" (VStr "");
       ii_type := get_default i "type" (VStr "unknown");
       ii_stage := get_default i "stage" (VStr "unknown");
       ii_interviewer := get_default i "interviewer" (VStr "");
       ii_outcome := get_default i "outcome" (VStr "pending");
       ii_feedback := get_default i "feedback" (VStr "");
       ii_next_steps := get_default i "next_steps" (VStr "") |} in
  let interviews := (interviews ++ [interview_info])%list in
  (* Track stages and outcomes *)
  interview_stages <- count_key interview_stages (get_default i "stage" (VStr "unknown")) ;;
  outcomes <- count_key outcomes (get_default i "outcome" (VStr "pending")) ;;
  Ok (interviews, interview_stages, outcomes).

Definition _generate_interview_tracking (self : PipelineTracker)
  : result InterviewTracking :=
  let companies := companies (pipeline_data self) in
  '(interviews, interview_stages, outcomes) <-
    foldM (fun st (kv : string * dict) =>
             let company_data := snd kv in
             company_interviews <-
               py_iter (get_default company_data "interviews" (VList [])) ;;
             foldM (track_interview company_data) company_interviews st)
          companies ([], [], []) ;;
  Ok {| scheduled_interviews := Z.of_nat (List.length interviews);
        interview_details := interviews;
        stage_breakdown := interview_stages;
        outcome_breakdown := outcomes;
        upcoming_interviews :=
          filter (fun i => _is_upcoming_interview (ii_date i)) interviews;
        pending_feedback :=
          Z.of_nat (List.length
            (filter (fun i => eq_str (ii_outcome i) "pending") interviews));
        success_rate :=
          match interviews with
          | [] => 0%Q
          | _ => round (inject_Z (count_of outcomes (VStr "advanced"))
                        / inject_Z (Z.of_nat (List.length interviews)))%Q 3
          end |}.

(** *** Next actions *)

(** Email follow-ups: the action that one email contributes, if any. *)
Definition email_follow_up (company_name : pyobj) (email : pyobj)
  : result (list Action) :=
  e <- as_dict email ;;
  let send_date_str := get_default e "send_date" (VStr "") in
  if truthy send_date_str && negb (truthy (get_none e "response_received")) then
    send_date <- parse send_date_str ;;
    delta <- dt_minus now send_date ;;
    let days_since := days delta in
    if (days_since >=? 7) && negb (truthy (get_none e "follow_up_sent")) then
      Ok [{| priority := "medium";
             action := "Send follow-up email";
             company := company_name;
             due_date := send_date_str;
             details := EmailSentDaysAgo days_since |}]
    else Ok []
  else Ok [].

(** Interview follow-ups: the action that one interview contributes, if any. *)
Definition interview_follow_up (company_name : pyobj) (interview : pyobj)
  : result (list Action) :=
  i <- as_dict interview ;;
  if eq_str (get_none i "outcome") "pending" then
    let interview_date := get_default i "date" (VStr "") in
    if truthy interview_date then
      Ok [{| priority := "high";
             action := "Follow up on interview outcome";
             company := company_name;
             due_date := interview_date;
             details := InterviewWith (get_default i "stage" (VStr "Interview"))
                                      (get_default i "interviewer" (VStr "TBD")) |}]
    else Ok []
  else Ok [].

(** The actions appended while one company is visited. *)
Definition company_actions (kv : string * dict) : result (list Action) :=
  let company_key := fst kv in
  let company_data := snd kv in
  let company_name := get_default company_data "name" (VStr company_key) in
  let status := get_default company_data "status" (VStr "unknown") in
  (* Research follow-ups *)
  let research :=
    if eq_str status "researched"
       && negb (truthy (get_none company_data "application_generated"))
    then [{| priority := "high";
             action := "Generate application package";
             company := company_name;
             due_date :=
               VStr (_calculate_due_date (get_none company_data "research_date") 2);
             details := ResearchCompleted |}]
    else [] in
  (* Email follow-ups *)
  emails_sent <- py_iter (get_default company_data "emails_sent" (VList [])) ;;
  emails <- foldM (fun acc email =>
                     a <- email_follow_up company_name email ;; Ok (acc ++ a)%list)
                  emails_sent [] ;;
  (* Interview follow-ups *)
  interviews <- py_iter (get_default company_data "interviews" (VList [])) ;;
  interviews <- foldM (fun acc interview =>
                         a <- interview_follow_up company_name interview ;;
                         Ok (acc ++ a)%list)
                      interviews [] ;;
  Ok (research ++ emails ++ interviews)%list.

(** The list [next_actions] when the loop over the companies ends. *)
Definition collect_actions (self : PipelineTracker) : result (list Action) :=
  foldM (fun acc kv => a <- company_actions kv ;; Ok (acc ++ a)%list)
        (companies (pipeline_data self)) [].

Definition priority_order (p : string) : Z :=
  if (p =? "high")%string then 3
  else if (p =? "medium")%string then 2
  else if (p =? "low")%string then 1
  else 0.

(** [(priority_order.get(x["priority"], 0), x["due_date"])] *)
Definition sort_key (a : Action) : pyobj :=
  VList [VInt (priority_order (priority a)); due_date a].

(** [next_actions.sort(key=lambda x: (priority_order.get(x["priority"], 0),
    x["due_date"]), reverse=True)] *)
Definition sort_actions (l : list Action) : result (list Action) :=
  py_sort_reverse sort_key l.

Definition _generate_next_actions (self : PipelineTracker) : result (list Action) :=
  next_actions <- collect_actions self ;;
  (* Sort by priority and due date *)
  next_actions <- sort_actions next_actions ;;
  Ok (firstn 20 next_actions).

(** *** Weekly progress *)

(** [week_start <= d <= week_end] for the date string [s], when it is not
    empty. *)
Definition in_week (week_start week_end : datetime) (s : pyobj) : result bool :=
  if truthy s then
    d <- parse s ;;
    after <- dt_le week_start d ;;
    if after then dt_le d week_end else Ok false
  else Ok false.

Definition count_week (week_start week_end : datetime) (ws : WeeklyStats)
  (company_data : dict) : result WeeklyStats :=
  (* Count research completed this week *)
  researched <- in_week week_start week_end
                  (get_default company_data "research_date" (VStr "")) ;;
  let companies_researched :=
    if researched then ws_companies_researched ws + 1
    else ws_companies_researched ws in
  (* Count emails sent this week *)
  emails_sent <- py_iter (get_default company_data "emails_sent" (VList [])) ;;
  '(n_emails, n_responses) <-
    foldM (fun '(n_emails, n_responses) email =>
             e <- as_dict email ;;
             sent <- in_week week_start week_end (get_default e "send_date" (VStr "")) ;;
             if sent then
               Ok (n_emails + 1,
                   if truthy (get_none e "response_received")
                   then n_responses + 1 else n_responses)
             else Ok (n_emails, n_responses))
          emails_sent (ws_emails_sent ws, ws_responses_received ws) ;;
  (* Count interviews scheduled this week *)
  interviews <- py_iter (get_default company_data "interviews" (VList [])) ;;
  n_interviews <-
    foldM (fun n interview =>
             i <- as_dict interview ;;
             let schedule_date_str :=
               get_default i "scheduled_date" (get_default i "date" (VStr "")) in
             scheduled <- in_week week_start week_end schedule_date_str ;;
             Ok (if scheduled then n + 1 else n))
          interviews (ws_interviews_scheduled ws) ;;
  Ok {| ws_companies_researched := companies_researched;
        ws_applications_submitted := ws_applications_submitted ws;
        ws_emails_sent := n_emails;
        ws_responses_received := n_responses;
        ws_interviews_scheduled := n_interviews;
        ws_target_applications := ws_target_applications ws |}.

Definition _generate_weekly_progress (self : PipelineTracker)
  : result WeeklyProgress :=
  let companies := companies (pipeline_data self) in
  (* Get current week boundaries *)
  let today := now in
  let week_start := dt_plus today (- timedelta (weekday today)) in
  let week_end := dt_plus week_start (timedelta 6) in
  weekly_stats <-
    foldM (fun ws (kv : string * dict) => count_week week_start week_end ws (snd kv))
          companies
          {| ws_companies_researched := 0; ws_applications_submitted := 0;
             ws_emails_sent := 0; ws_responses_received := 0;
             ws_interviews_scheduled := 0;
             ws_target_applications := applications_per_week targets |} ;;
  (* Calculate progress vs targets *)
  application_progress <-
    py_truediv (inject_Z (ws_applications_submitted weekly_stats))
               (inject_Z (ws_target_applications weekly_stats)) ;;
  Ok {| week_start := isoformat week_start;
        week_end := isoformat week_end;
        weekly_stats := weekly_stats;
        progress_vs_target := round application_progress 2;
        on_track := Qle_bool 0.8 application_progress |}.

(** *** Recommendations, saving, and the dashboard *)

Definition _generate_recommendations (self : PipelineTracker)
  : result (list Recommendation) :=
  success_metrics <- _generate_success_metrics self ;;
  email_performance <- _generate_email_performance self ;;
  (* Email response rate recommendations *)
  let email_response_rate := em_response_rate success_metrics in
  let target_response_rate := em_target_response_rate success_metrics in
  let r1 :=
    if Qltb email_response_rate (target_response_rate * 0.8)%Q
    then [ImproveEmailResponseRate email_response_rate target_response_rate]
    else [] in
  (* Application volume recommendations *)
  weekly_progress <- _generate_weekly_progress self ;;
  let r2 :=
    if negb (on_track weekly_progress)
    then [IncreaseApplicationVolume
            (ws_applications_submitted (weekly_stats weekly_progress))
            (ws_target_applications (weekly_stats weekly_progress))]
    else [] in
  (* Pipeline stage recommendations *)
  pipeline_summary <- _generate_pipeline_summary self ;;
  let researched_count :=
    count_of (status_breakdown pipeline_summary) (VStr "researched") in
  let r3 :=
    if researched_count >? 3
    then [ConvertResearchToApplications researched_count] else [] in
  (* Template performance recommendations *)
  let r4 :=
    match template_performance email_performance with
    | [] => []
    | _ => [OptimizeEmailTemplates (best_performing_template email_performance)]
    end in
  Ok (r1 ++ r2 ++ r3 ++ r4)%list.

Definition is_str (x : pyobj) : bool :=
  match x with VStr _ => true | _ => false end.

(** [_save_dashboard]: the report is formatted and written to
    [Pipeline_Dashboard.md].  Formatting the status breakdown calls
    [key.replace] on every status, which only a string has. *)
Definition _save_dashboard (self : PipelineTracker) (dashboard : Dashboard)
  : result PipelineTracker :=
  if forallb (fun kv : pyobj * Z => is_str (fst kv))
             (status_breakdown (pipeline_summary dashboard))
  then Ok {| pipeline_data := pipeline_data self;
             dashboard_file := Some (render dashboard) |}
  else Raise AttributeError.

(** The sections of the dashboard, evaluated in the order of the source. *)
Definition build_dashboard (self : PipelineTracker) : result Dashboard :=
  pipeline_summary <- _generate_pipeline_summary self ;;
  company_status <- _generate_company_status self ;;
  success_metrics <- _generate_success_metrics self ;;
  email_performance <- _generate_email_performance self ;;
  interview_tracking <- _generate_interview_tracking self ;;
  next_actions <- _generate_next_actions self ;;
  weekly_progress <- _generate_weekly_progress self ;;
  recommendations <- _generate_recommendations self ;;
  Ok {| generated_at := isoformat now;
        pipeline_summary := pipeline_summary;
        company_status := company_status;
        success_metrics := success_metrics;
        email_performance := email_performance;
        interview_tracking := interview_tracking;
        dashboard_next_actions := next_actions;
        weekly_progress := weekly_progress;
        recommendations := recommendations |}.

(** [generate_dashboard]: the dashboard returned (or the exception raised)
    and the tracker afterwards. *)
Definition generate_dashboard (self : PipelineTracker)
  : result Dashboard * PipelineTracker :=
  match build_dashboard self with
  | Raise e => (Raise e, self)
  | Ok dashboard =>
      (* Save dashboard to file *)
      match _save_dashboard self dashboard with
      | Raise e => (Raise e, self)
      | Ok self => (Ok dashboard, self)
      end
  end.

End PipelineTracker.

End Tracker.

(** ** The tracker among the objects of the interpreter

    [Tracker] gives each method of [PipelineTracker] as the function it
    computes.  [Stateful] gives the same methods as the statements they
    execute on the objects of the interpreter: the pipeline data that the
    tracker holds ([self.pipeline_data]) is one object of a store, and every
    list, dict and defaultdict that a method updates in place ([l.append(x)],
    [d[k] += 1], [d[k] = v], [l.sort(...)]) is an object of the store too,
    allocated where the source creates it and written where the source
    updates it.  Two names that are bound to the same object are the same
    location, so an update through one is seen through the other; a write to
    the location of the pipeline data is what a method that changed a
    company record, or the stats, would do.  The files of the tracker, the
    pipeline document and the dashboard, are kept next to the store.

    An object that a statement only builds and reads (a dict display, an
    integer counter that is rebound, the default of a [.get]) is a value.  An
    exception leaves the store as the statements executed before it have
    made it. *)

Module Stateful.

Import Tracker.

(** The objects held in the store, by what they hold. *)
Inductive object : Type :=
| Data (p : Pipeline)                              (* the pipeline data *)
| Dates (l : list pyobj)                           (* [dates] *)
| Counts (c : list (pyobj * Z))                    (* a [defaultdict(int)] *)
| TemplateCounts (c : list (pyobj * Z) * list (pyobj * Z))
                                                   (* [template_performance] *)
| TemplateTable (t : list (pyobj * TemplateStats)) (* [template_stats] *)
| Statuses (l : list CompanyStatus)                (* [company_status] *)
| Campaigns (l : list Campaign)                    (* [email_campaigns] *)
| Interviews (l : list InterviewInfo)              (* [interviews] *)
| Actions (l : list Action)                        (* [next_actions] *)
| Weekly (w : WeeklyStats)                         (* [weekly_stats] *)
| Recommendations (l : list Recommendation)        (* [recommendations] *).

(** The store and the two files: [data/application_pipeline.json] and
    [Pipeline_Dashboard.md] ([None] while the file does not exist). *)
Record World : Type := mkWorld {
  heap : list object;
  pipeline_json : option Pipeline;
  dashboard_md : option string
}.

(** A reference to an object that holds an [A]: its location. *)
Record ref (A : Type) : Type := mkref { loc : nat }.
Arguments mkref {A} loc.
Arguments loc {A} r.

(** The kinds of object: what an object of the kind holds is put into the
    store and found there again. *)
Class Stored (A : Type) : Type := {
  box : A -> object;
  unbox : object -> option A;
  unbox_box : forall a, unbox (box a) = Some a
}.

#[global] Instance stored_data : Stored Pipeline :=
  {| box := Data;
     unbox := fun o => match o with Data p => Some p | _ => None end;
     unbox_box := fun _ => eq_refl |}.

#[global] Instance stored_dates : Stored (list pyobj) :=
  {| box := Dates;
     unbox := fun o => match o with Dates l => Some l | _ => None end;
     unbox_box := fun _ => eq_refl |}.

#[global] Instance stored_counts : Stored (list (pyobj * Z)) :=
  {| box := Counts;
     unbox := fun o => match o with Counts c => Some c | _ => None end;
     unbox_box := fun _ => eq_refl |}.

#[global] Instance stored_template_counts
  : Stored (list (pyobj * Z) * list (pyobj * Z)) :=
  {| box := TemplateCounts;
     unbox := fun o => match o with TemplateCounts c => Some c | _ => None end;
     unbox_box := fun _ => eq_refl |}.

#[global] Instance stored_template_table : Stored (list (pyobj * TemplateStats)) :=
  {| box := TemplateTable;
     unbox := fun o => match o with TemplateTable t => Some t | _ => None end;
     unbox_box := fun _ => eq_refl |}.

#[global] Instance stored_statuses : Stored (list CompanyStatus) :=
  {| box := Statuses;
     unbox := fun o => match o with Statuses l => Some l | _ => None end;
     unbox_box := fun _ => eq_refl |}.

#[global] Instance stored_campaigns : Stored (list Campaign) :=
  {| box := Campaigns;
     unbox := fun o => match o with Campaigns l => Some l | _ => None end;
     unbox_box := fun _ => eq_refl |}.

#[global] Instance stored_interviews : Stored (list InterviewInfo) :=
  {| box := Interviews;
     unbox := fun o => match o with Interviews l => Some l | _ => None end;
     unbox_box := fun _ => eq_refl |}.

#[global] Instance stored_actions : Stored (list Action) :=
  {| box := Actions;
     unbox := fun o => match o with Actions l => Some l | _ => None end;
     unbox_box := fun _ => eq_refl |}.

#[global] Instance stored_weekly : Stored WeeklyStats :=
  {| box := Weekly;
     unbox := fun o => match o with Weekly w => Some w | _ => None end;
     unbox_box := fun _ => eq_refl |}.

#[global] Instance stored_recommendations : Stored (list Recommendation) :=
  {| box := Recommendations;
     unbox := fun o => match o with Recommendations l => Some l | _ => None end;
     unbox_box := fun _ => eq_refl |}.

(** *** Statements

    A statement runs in a world and leaves a world, with the value it
    computes or the exception it raises. *)
Definition M (A : Type) : Type := World -> result A * World.

Definition ret {A : Type} (a : A) : M A := fun w => (Ok a, w).

Definition bindM {A B : Type} (m : M A) (k : A -> M B) : M B :=
  fun w =>
    match m w with
    | (Ok a, w') => k a w'
    | (Raise e, w') => (Raise e, w')
    end.

Declare Scope store_scope.
Delimit Scope store_scope with store.
Notation "x <~ m ;; k" := (bindM m (fun x => k))
  (at level 100, m at next level, right associativity) : store_scope.
Notation "m ;;; k" := (bindM m (fun _ => k))
  (at level 100, right associativity) : store_scope.
Local Open Scope store_scope.

(** An expression that reads no object of the store. *)
Definition lift {A : Type} (r : result A) : M A := fun w => (r, w).

Definition with_heap (w : World) (h : list object) : World :=
  {| heap := h; pipeline_json := pipeline_json w; dashboard_md := dashboard_md w |}.

(** The creation of an object: it gets the next location. *)
Definition new {A : Type} `{Stored A} (a : A) : M (ref A) :=
  fun w => (Ok (mkref (List.length (heap w))), with_heap w (heap w ++ [box a])).

(** The object that a reference is bound to in a world. *)
Definition stored {A : Type} `{Stored A} (r : ref A) (w : World) : option A :=
  match nth_error (heap w) (loc r) with
  | Some o => unbox o
  | None => None
  end.

(** The use of a reference.  A reference to nothing, or to an object of
    another kind, has none of the methods called on it. *)
Definition read {A : Type} `{Stored A} (r : ref A) : M A :=
  fun w =>
    match stored r w with
    | Some a => (Ok a, w)
    | None => (Raise AttributeError, w)
    end.

Fixpoint replace_nth {A : Type} (n : nat) (a : A) (l : list A) : list A :=
  match l, n with
  | [], _ => []
  | _ :: l', O => a :: l'
  | x :: l', S n' => x :: replace_nth n' a l'
  end.

Definition write {A : Type} `{Stored A} (r : ref A) (a : A) : M unit :=
  fun w => (Ok tt, with_heap w (replace_nth (loc r) (box a) (heap w))).

(** An update in place: the object at the location is replaced by the
    updated one, unless the update raises. *)
Definition update {A : Type} `{Stored A} (r : ref A) (f : A -> result A) : M unit :=
  a <~ read r ;;
  a' <~ lift (f a) ;;
  write r a'.

(** [l.append(x)] *)
Definition append {A : Type} `{Stored (list A)} (l : ref (list A)) (x : A) : M unit :=
  update l (fun items => Ok (items ++ [x])%list).

(** [counts[k] += 1] *)
Definition count (counts : ref (list (pyobj * Z))) (k : pyobj) : M unit :=
  update counts (fun c => count_key c k).

(** [l.sort(key=key, reverse=True)] *)
Definition sort {A : Type} `{Stored (list A)} (l : ref (list A)) (key : A -> pyobj)
  : M unit :=
  update l (py_sort_reverse key).

(** [if b: statement] *)
Definition when (b : bool) (statement : M unit) : M unit :=
  if b then statement else ret tt.

(** [for x in l: body] *)
Fixpoint for_each {A : Type} (l : list A) (body : A -> M unit) : M unit :=
  match l with
  | [] => ret tt
  | x :: rest => body x ;;; for_each rest body
  end.

(** [with open(output_file, 'w') as f: f.write(content)] *)
Definition write_dashboard (content : string) : M unit :=
  fun w => (Ok tt, {| heap := heap w; pipeline_json := pipeline_json w;
                      dashboard_md := Some content |}).

(** *** The tracker *)

(** The tracker object: [self.pipeline_data] is a reference to the pipeline
    data that [__init__] loaded. *)
Record PipelineTracker : Type := mkTracker {
  pipeline_data : ref Pipeline
}.

Section PipelineTracker.

Variable fromisoformat : string -> option datetime.
Variable isoformat : datetime -> string.
Variable round : Q -> Z -> Q.
Variable render : Dashboard -> string.
Variable clock : Z.

(** [_load_pipeline_data]: the document of the pipeline file, or the empty
    pipeline, as a new object. *)
Definition _load_pipeline_data : M (ref Pipeline) :=
  fun w => new (Orchestrator.load_pipeline (pipeline_json w)) w.

(** [PipelineTracker()] *)
Definition __init__ : M PipelineTracker :=
  pipeline_data <~ _load_pipeline_data ;;
  ret {| pipeline_data := pipeline_data |}.

(** [companies = self.pipeline_data.get("companies", {})] *)
Definition get_companies (self : PipelineTracker) : M (list (string * dict)) :=
  data <~ read (pipeline_data self) ;;
  ret (companies data).

(** A method without a statement that updates an object in place is the
    function that [Tracker] gives, of the pipeline data as it is read. *)
Definition reading {A : Type} (self : PipelineTracker)
  (method : Tracker.PipelineTracker -> A) : M A :=
  data <~ read (pipeline_data self) ;;
  fun w => (Ok (method {| Tracker.pipeline_data := data;
                          Tracker.dashboard_file := dashboard_md w |}), w).

Definition _calculate_completion_rate (self : PipelineTracker) : M Q :=
  reading self (Tracker._calculate_completion_rate round).

Definition _generate_success_metrics (self : PipelineTracker) : M SuccessMetrics :=
  metrics <~ reading self (Tracker._generate_success_metrics round) ;;
  lift metrics.

(** The loops of [_get_last_activity_date] over the emails and over the
    interviews: [if item.get(k): dates.append(item[k])]. *)
Definition append_dates (dates : ref (list pyobj)) (k : string) (items : list pyobj)
  : M unit :=
  for_each items (fun item =>
    d <~ lift (py_get item k VNone) ;;
    when (truthy d) (append dates d)).

Definition _get_last_activity_date (company_data : dict) : M pyobj :=
  dates <~ new ([] : list pyobj) ;;
  let research_date := get_none company_data "research_date" in
  when (truthy research_date) (append dates research_date) ;;;
  emails <~ lift (py_iter (get_default company_data "emails_sent" (VList []))) ;;
  append_dates dates "send_date" emails ;;;
  interviews <~ lift (py_iter (get_default company_data "interviews" (VList []))) ;;
  append_dates dates "date" interviews ;;;
  dates <~ read dates ;;
  match dates with
  | [] => ret (VStr "")
  | _ => lift (py_max dates)
  end.

Definition _calculate_days_since_activity (company_data : dict) : M Z :=
  last_activity <~ _get_last_activity_date company_data ;;
  if negb (truthy last_activity) then ret 0
  else ret (try_except
              (activity_date <- parse fromisoformat last_activity ;;
               delta <- dt_minus (now clock) activity_date ;;
               Ok (days delta)) 0).

Definition _generate_pipeline_summary (self : PipelineTracker) : M PipelineSummary :=
  companies <~ get_companies self ;;
  status_counts <~ new ([] : list (pyobj * Z)) ;;
  priority_breakdown <~ new ([] : list (pyobj * Z)) ;;
  for_each companies (fun kv =>
    let company_data := snd kv in
    let status := get_default company_data "status" (VStr "unknown") in
    count status_counts status ;;;
    let priority := get_default company_data "priority_score" (VInt 0) in
    high <~ lift (py_ge priority (VInt 35)) ;;
    if high then count priority_breakdown (VStr "high")
    else
      medium <~ lift (py_ge priority (VInt 28)) ;;
      if medium then count priority_breakdown (VStr "medium")
      else count priority_breakdown (VStr "low")) ;;;
  let total_companies := Z.of_nat (List.length companies) in
  status_counts <~ read status_counts ;;
  priority_breakdown <~ read priority_breakdown ;;
  completion_rate <~ _calculate_completion_rate self ;;
  ret {| total_companies := total_companies;
         status_breakdown := status_counts;
         priority_breakdown := priority_breakdown;
         completion_rate := completion_rate;
         active_opportunities :=
           count_of status_counts (VStr "researched") +
           count_of status_counts (VStr "applied") +
           count_of status_counts (VStr "interviewing") |}.

Definition _generate_company_status (self : PipelineTracker)
  : M (list CompanyStatus) :=
  companies <~ get_companies self ;;
  company_status <~ new ([] : list CompanyStatus) ;;
  for_each companies (fun kv =>
    let company_key := fst kv in
    let company_data := snd kv in
    last_activity <~ _get_last_activity_date company_data ;;
    next_action <~ lift (_determine_next_action company_data) ;;
    days_since_activity <~ _calculate_days_since_activity company_data ;;
    emails_sent <~ lift (py_len (get_default company_data "emails_sent" (VList []))) ;;
    interviews <~ lift (py_len (get_default company_data "interviews" (VList []))) ;;
    response_received <~ lift (_has_received_response company_data) ;;
    let status_info :=
      {| cs_company_name := get_default company_data "name" (VStr company_key);
         cs_status := get_default company_data "status" (VStr "unknown");
         cs_priority_score := get_default company_data "priority_score" (VInt 0);
         cs_research_date := get_default company_data "research_date" (VStr "");
         cs_last_activity := last_activity;
         cs_next_action := next_action;
         cs_days_since_activity := days_since_activity;
         cs_emails_sent := emails_sent;
         cs_interviews_scheduled := interviews;
         cs_response_received := response_received |} in
    append company_status status_info) ;;;
  (* Sort by priority score and recent activity *)
  sort company_status status_key ;;;
  read company_status.

(** [template_performance[template]["sent"] += 1] and
    [template_performance[template]["responses"] += 1] *)
Definition count_sent (template : pyobj) (c : list (pyobj * Z) * list (pyobj * Z))
  : result (list (pyobj * Z) * list (pyobj * Z)) :=
  sent <- count_key (fst c) template ;; Ok (sent, snd c).

Definition count_response (template : pyobj) (c : list (pyobj * Z) * list (pyobj * Z))
  : result (list (pyobj * Z) * list (pyobj * Z)) :=
  Ok (fst c, incr (snd c) template).

Definition _generate_email_performance (self : PipelineTracker)
  : M EmailPerformance :=
  companies <~ get_companies self ;;
  email_campaigns <~ new ([] : list Campaign) ;;
  template_performance <~ new (([], []) : list (pyobj * Z) * list (pyobj * Z)) ;;
  daily_activity <~ new ([] : list (pyobj * Z)) ;;
  for_each companies (fun kv =>
    let company_data := snd kv in
    emails_sent <~ lift (py_iter (get_default company_data "emails_sent" (VList []))) ;;
    for_each emails_sent (fun email =>
      e <~ lift (as_dict email) ;;
      let campaign_info :=
        {| cp_company := get_default company_data "name" (VStr "Unknown");
           cp_send_date := get_default e "send_date" (VStr "");
           cp_template_used := get_default e "template" (VStr "unknown");
           cp_response_received := get_default e "response_received" (VBool false);
           cp_days_since_sent :=
             _calculate_days_since fromisoformat clock
               (get_default e "send_date" (VStr ""));
           cp_follow_up_sent := get_default e "follow_up_sent" (VBool false) |} in
      append email_campaigns campaign_info ;;;
      (* Track template performance *)
      let template := get_default e "template" (VStr "unknown") in
      update template_performance (count_sent template) ;;;
      when (truthy (get_none e "response_received"))
           (update template_performance (count_response template)) ;;;
      (* Track daily activity *)
      send_date <~ lift (slice10 (get_default e "send_date" (VStr ""))) ;;
      when (truthy send_date) (count daily_activity send_date))) ;;;
  (* Calculate template response rates *)
  template_stats <~ new ([] : list (pyobj * TemplateStats)) ;;
  counters <~ read template_performance ;;
  for_each (fst counters) (fun kv =>
    let template := fst kv in
    let n_sent := snd kv in
    let n_responses := count_of (snd counters) template in
    let response_rate :=
      if n_sent >? 0 then (inject_Z n_responses / inject_Z n_sent)%Q else 0%Q in
    (* a new key each time: the templates are the keys of a dict *)
    append template_stats
           (template, {| ts_emails_sent := n_sent; ts_responses := n_responses;
                         ts_response_rate := round response_rate 3 |})) ;;;
  email_campaigns <~ read email_campaigns ;;
  template_stats <~ read template_stats ;;
  daily_activity <~ read daily_activity ;;
  ret {| campaign_details := email_campaigns;
         template_performance := template_stats;
         daily_activity := daily_activity;
         best_performing_template := best_template template_stats;
         total_campaigns := Z.of_nat (List.length email_campaigns);
         pending_responses :=
           Z.of_nat (List.length
             (filter (fun c => negb (truthy (cp_response_received c))
                               && (cp_days_since_sent c <=? 14))
                     email_campaigns)) |}.

Definition _generate_interview_tracking (self : PipelineTracker)
  : M InterviewTracking :=
  companies <~ get_companies self ;;
  interviews <~ new ([] : list InterviewInfo) ;;
  interview_stages <~ new ([] : list (pyobj * Z)) ;;
  outcomes <~ new ([] : list (pyobj * Z)) ;;
  for_each companies (fun kv =>
    let company_data := snd kv in
    company_interviews <~
      lift (py_iter (get_default company_data "interviews" (VList []))) ;;
    for_each company_interviews (fun interview =>
      i <~ lift (as_dict interview) ;;
      let interview_info :=
        {| ii_company := get_default company_data "name" (VStr "Unknown");
           ii_date := get_default i "date" (VStr "");
           ii_type := get_default i "type" (VStr "unknown");
           ii_stage := get_default i "stage" (VStr "unknown");
           ii_interviewer := get_default i "interviewer" (VStr "");
           ii_outcome := get_default i "outcome" (VStr "pending");
           ii_feedback := get_default i "feedback" (VStr "");
           ii_next_steps := get_default i "next_steps" (VStr "") |} in
      append interviews interview_info ;;;
      (* Track stages and outcomes *)
      count interview_stages (get_default i "stage" (VStr "unknown")) ;;;
      count outcomes (get_default i "outcome" (VStr "pending")))) ;;;
  interviews <~ read interviews ;;
  interview_stages <~ read interview_stages ;;
  outcomes <~ read outcomes ;;
  ret {| scheduled_interviews := Z.of_nat (List.length interviews);
         interview_details := interviews;
         stage_breakdown := interview_stages;
         outcome_breakdown := outcomes;
         upcoming_interviews :=
           filter (fun i => _is_upcoming_interview fromisoformat clock (ii_date i))
                  interviews;
         pending_feedback :=
           Z.of_nat (List.length
             (filter (fun i => eq_str (ii_outcome i) "pending") interviews));
         success_rate :=
           match interviews with
           | [] => 0%Q
           | _ => round (inject_Z (count_of outcomes (VStr "advanced"))
                         / inject_Z (Z.of_nat (List.length interviews)))%Q 3
           end |}.

Definition _generate_next_actions (self : PipelineTracker) : M (list Action) :=
  companies <~ get_companies self ;;
  next_actions <~ new ([] : list Action) ;;
  let current_date := now clock in
  for_each companies (fun kv =>
    let company_key := fst kv in
    let company_data := snd kv in
    let company_name := get_default company_data "name" (VStr company_key) in
    let status := get_default company_data "status" (VStr "unknown") in
    (* Research follow-ups *)
    when (eq_str status "researched"
          && negb (truthy (get_none company_data "application_generated")))
         (append next_actions
            {| priority := "high";
               action := "Generate application package";
               company := company_name;
               due_date :=
                 VStr (_calculate_due_date fromisoformat isoformat clock
                         (get_none company_data "research_date") 2);
               details := ResearchCompleted |}) ;;;
    (* Email follow-ups *)
    emails_sent <~ lift (py_iter (get_default company_data "emails_sent" (VList []))) ;;
    for_each emails_sent (fun email =>
      e <~ lift (as_dict email) ;;
      let send_date_str := get_default e "send_date" (VStr "") in
      if truthy send_date_str && negb (truthy (get_none e "response_received")) then
        send_date <~ lift (parse fromisoformat send_date_str) ;;
        delta <~ lift (dt_minus current_date send_date) ;;
        let days_since := days delta in
        when ((days_since >=? 7) && negb (truthy (get_none e "follow_up_sent")))
             (append next_actions
                {| priority := "medium";
                   action := "Send follow-up email";
                   company := company_name;
                   due_date := send_date_str;
                   details := EmailSentDaysAgo days_since |})
      else ret tt) ;;;
    (* Interview follow-ups *)
    interviews <~ lift (py_iter (get_default company_data "interviews" (VList []))) ;;
    for_each interviews (fun interview =>
      i <~ lift (as_dict interview) ;;
      if eq_str (get_none i "outcome") "pending" then
        let interview_date := get_default i "date" (VStr "") in
        when (truthy interview_date)
             (append next_actions
                {| priority := "high";
                   action := "Follow up on interview outcome";
                   company := company_name;
                   due_date := interview_date;
                   details := InterviewWith (get_default i "stage" (VStr "Interview"))
                                            (get_default i "interviewer" (VStr "TBD")) |})
      else ret tt)) ;;;
  (* Sort by priority and due date *)
  sort next_actions sort_key ;;;
  next_actions <~ read next_actions ;;
  ret (firstn 20 next_actions).

(** [weekly_stats[k] += 1] for each of the four counters that the loop
    updates. *)
Definition add_companies_researched (ws : WeeklyStats) : result WeeklyStats :=
  Ok {| ws_companies_researched := ws_companies_researched ws + 1;
        ws_applications_submitted := ws_applications_submitted ws;
        ws_emails_sent := ws_emails_sent ws;
        ws_responses_received := ws_responses_received ws;
        ws_interviews_scheduled := ws_interviews_scheduled ws;
        ws_target_applications := ws_target_applications ws |}.

Definition add_emails_sent (ws : WeeklyStats) : result WeeklyStats :=
  Ok {| ws_companies_researched := ws_companies_researched ws;
        ws_applications_submitted := ws_applications_submitted ws;
        ws_emails_sent := ws_emails_sent ws + 1;
        ws_responses_received := ws_responses_received ws;
        ws_interviews_scheduled := ws_interviews_scheduled ws;
        ws_target_applications := ws_target_applications ws |}.

Definition add_responses_received (ws : WeeklyStats) : result WeeklyStats :=
  Ok {| ws_companies_researched := ws_companies_researched ws;
        ws_applications_submitted := ws_applications_submitted ws;
        ws_emails_sent := ws_emails_sent ws;
        ws_responses_received := ws_responses_received ws + 1;
        ws_interviews_scheduled := ws_interviews_scheduled ws;
        ws_target_applications := ws_target_applications ws |}.

Definition add_interviews_scheduled (ws : WeeklyStats) : result WeeklyStats :=
  Ok {| ws_companies_researched := ws_companies_researched ws;
        ws_applications_submitted := ws_applications_submitted ws;
        ws_emails_sent := ws_emails_sent ws;
        ws_responses_received := ws_responses_received ws;
        ws_interviews_scheduled := ws_interviews_scheduled ws + 1;
        ws_target_applications := ws_target_applications ws |}.

Definition _generate_weekly_progress (self : PipelineTracker) : M WeeklyProgress :=
  companies <~ get_companies self ;;
  (* Get current week boundaries *)
  let today := now clock in
  let week_start := dt_plus today (- timedelta (weekday today)) in
  let week_end := dt_plus week_start (timedelta 6) in
  weekly_stats <~
    new {| ws_companies_researched := 0; ws_applications_submitted := 0;
           ws_emails_sent := 0; ws_responses_received := 0;
           ws_interviews_scheduled := 0;
           ws_target_applications := applications_per_week targets |} ;;
  for_each companies (fun kv =>
    let company_data := snd kv in
    (* Count research completed this week *)
    let research_date_str := get_default company_data "research_date" (VStr "") in
    researched <~ lift (in_week fromisoformat week_start week_end research_date_str) ;;
    when researched (update weekly_stats add_companies_researched) ;;;
    (* Count emails sent this week *)
    emails_sent <~ lift (py_iter (get_default company_data "emails_sent" (VList []))) ;;
    for_each emails_sent (fun email =>
      e <~ lift (as_dict email) ;;
      let send_date_str := get_default e "send_date" (VStr "") in
      sent <~ lift (in_week fromisoformat week_start week_end send_date_str) ;;
      when sent
           (update weekly_stats add_emails_sent ;;;
            when (truthy (get_none e "response_received"))
                 (update weekly_stats add_responses_received))) ;;;
    (* Count interviews scheduled this week *)
    interviews <~ lift (py_iter (get_default company_data "interviews" (VList []))) ;;
    for_each interviews (fun interview =>
      i <~ lift (as_dict interview) ;;
      let schedule_date_str :=
        get_default i "scheduled_date" (get_default i "date" (VStr "")) in
      scheduled <~ lift (in_week fromisoformat week_start week_end schedule_date_str) ;;
      when scheduled (update weekly_stats add_interviews_scheduled))) ;;;
  (* Calculate progress vs targets *)
  weekly_stats <~ read weekly_stats ;;
  application_progress <~
    lift (py_truediv (inject_Z (ws_applications_submitted weekly_stats))
                     (inject_Z (ws_target_applications weekly_stats))) ;;
  ret {| week_start := isoformat week_start;
         week_end := isoformat week_end;
         weekly_stats := weekly_stats;
         progress_vs_target := round application_progress 2;
         on_track := Qle_bool 0.8 application_progress |}.

Definition _generate_recommendations (self : PipelineTracker)
  : M (list Recommendation) :=
  success_metrics <~ _generate_success_metrics self ;;
  email_performance <~ _generate_email_performance self ;;
  recommendations <~ new ([] : list Recommendation) ;;
  (* Email response rate recommendations *)
  let email_response_rate := em_response_rate success_metrics in
  let target_response_rate := em_target_response_rate success_metrics in
  when (Qltb email_response_rate (target_response_rate * 0.8)%Q)
       (append recommendations
          (ImproveEmailResponseRate email_response_rate target_response_rate)) ;;;
  (* Application volume recommendations *)
  weekly_progress <~ _generate_weekly_progress self ;;
  when (negb (on_track weekly_progress))
       (append recommendations
          (IncreaseApplicationVolume
             (ws_applications_submitted (weekly_stats weekly_progress))
             (ws_target_applications (weekly_stats weekly_progress)))) ;;;
  (* Pipeline stage recommendations *)
  pipeline_summary <~ _generate_pipeline_summary self ;;
  let researched_count :=
    count_of (status_breakdown pipeline_summary) (VStr "researched") in
  when (researched_count >? 3)
       (append recommendations (ConvertResearchToApplications researched_count)) ;;;
  (* Template performance recommendations *)
  when (match template_performance email_performance with
        | [] => false
        | _ => true
        end)
       (append recommendations
          (OptimizeEmailTemplates (best_performing_template email_performance))) ;;;
  read recommendations.

(** [_save_dashboard]: the report is formatted and written to
    [Pipeline_Dashboard.md].  Formatting the status breakdown calls
    [key.replace] on every status, which only a string has. *)
Definition _save_dashboard (self : PipelineTracker) (dashboard : Dashboard)
  : M unit :=
  if forallb (fun kv : pyobj * Z => is_str (fst kv))
             (status_breakdown (pipeline_summary dashboard))
  then write_dashboard (render dashboard)
  else lift (Raise AttributeError).

(** The sections of the dashboard, evaluated in the order of the source. *)
Definition build_dashboard (self : PipelineTracker) : M Dashboard :=
  let generated_at := isoformat (now clock) in
  pipeline_summary <~ _generate_pipeline_summary self ;;
  company_status <~ _generate_company_status self ;;
  success_metrics <~ _generate_success_metrics self ;;
  email_performance <~ _generate_email_performance self ;;
  interview_tracking <~ _generate_interview_tracking self ;;
  next_actions <~ _generate_next_actions self ;;
  weekly_progress <~ _generate_weekly_progress self ;;
  recommendations <~ _generate_recommendations self ;;
  ret {| generated_at := generated_at;
         pipeline_summary := pipeline_summary;
         company_status := company_status;
         success_metrics := success_metrics;
         email_performance := email_performance;
         interview_tracking := interview_tracking;
         dashboard_next_actions := next_actions;
         weekly_progress := weekly_progress;
         recommendations := recommendations |}.

Definition generate_dashboard (self : PipelineTracker) : M Dashboard :=
  dashboard <~ build_dashboard self ;;
  (* Save dashboard to file *)
  _save_dashboard self dashboard ;;;
  ret dashboard.

End PipelineTracker.

End Stateful.

(** ** Case-story scoring ([application_generator.py]) *)

Module ApplicationGenerator.

(** [s.isdigit()]: not empty and made of digits. *)
Definition str_isdigit (s : string) : bool :=
  negb (s =? "")%string && forallb isdigit (list_ascii_of_string s).

(** [any(char.isdigit() for char in x)]: stops at the first digit. *)
Fixpoint any_isdigit (chars : list pyobj) : result bool :=
  match chars with
  | [] => Ok false
  | VStr c :: rest => if str_isdigit c then Ok true else any_isdigit rest
  | _ :: _ => Raise AttributeError
  end.

Definition _get_role_specific_keywords (role_title : string) : list string :=
  let role_lower := lower role_title in
  if contains "growth" role_lower then
    ["acquisition"; "conversion"; "retention"; "engagement"; "funnel"; "a/b test"]
  else if contains "product" role_lower then
    ["roadmap"; "feature"; "user story"; "sprint"; "stakeholder"; "metrics"]
  else if contains "strategy" role_lower then
    ["strategic"; "planning"; "analysis"; "framework"; "competitive"]
  else
    ["management"; "leadership"; "execution"; "results"; "improvement"].

(** [keyword in story_text]: the left operand must be a string. *)
Definition keyword_in (keyword : pyobj) (story_text : string) : result bool :=
  match keyword with
  | VStr k => Ok (contains k story_text)
  | _ => Raise TypeError
  end.

(** The loop over one keyword list of the job analysis. *)
Definition score_keyword_list (story_text : string) (score : Q)
  (keyword_list : pyobj) : result Q :=
  keywords <- py_iter keyword_list ;;
  foldM (fun score keyword =>
           found <- keyword_in keyword story_text ;;
           Ok (if found then score + 1.0 else score)%Q)
        keywords score.

Section Scoring.

(** [json.dumps] on a story. *)
Variable json_dumps : dict -> string.

Definition _score_case_story_relevance (story : dict) (role_title : string)
  (job_analysis : dict) : result Q :=
  let score := 0.0%Q in
  (* Keywords match *)
  keywords <- as_dict (get_default job_analysis "keywords" (VDict [])) ;;
  let story_text := lower (json_dumps story) in
  score <- foldM (fun score (kv : string * pyobj) =>
                    score_keyword_list story_text score (snd kv))
                 keywords score ;;
  (* Role-specific relevance *)
  let role_keywords := _get_role_specific_keywords role_title in
  let score :=
    fold_left (fun score keyword =>
                 if contains keyword story_text then score + 2.0 else score)%Q
              role_keywords score in
  (* Quantified outcomes bonus *)
  chars <- py_iter (get_default story "results" (VStr "")) ;;
  quantified <- any_isdigit chars ;;
  Ok (if quantified then score + 1.5 else score)%Q.

(** [scored_stories.sort(key=lambda x: x[0], reverse=True)] and the slice
    [[:limit]], for a non-negative [limit]. *)
Definition _select_relevant_case_stories (case_stories : list dict)
  (role_title : string) (job_analysis : dict) (limit : nat)
  : result (list dict) :=
  match case_stories with
  | [] => Ok []
  | _ =>
      scored_stories <-
        mapM (fun story =>
                score <- _score_case_story_relevance story role_title job_analysis ;;
                Ok (score, story))
             case_stories ;;
      let sorted :=
        sort_reverse (fun a b => Qltb (fst a) (fst b)) scored_stories in
      Ok (map snd (firstn limit sorted))
  end.

End Scoring.

(** A story whose result text has its digits removed. *)
Fixpoint remove_digits (s : string) : string :=
  match s with
  | EmptyString => EmptyString
  | String c s' => if isdigit c then remove_digits s' else String c (remove_digits s')
  end.

Definition without_digits (story : dict) : dict :=
  match dict_get story "results" with
  | Some (VStr r) => dict_set story "results" (VStr (remove_digits r))
  | _ => story
  end.

(** *** The skills section and the optimization report *)

(** [s in x] for a string [s]: an element of a list, a substring of a
    string, a key of a dict. *)
Definition str_in (s : string) (x : pyobj) : result bool :=
  match x with
  | VList l => Ok (existsb (fun e => eq_str e s) l)
  | VStr t => Ok (contains s t)
  | VDict d => Ok (match dict_get d s with Some _ => true | None => false end)
  | _ => Raise TypeError
  end.

(** Base skills organized by category *)
Definition base_skills : list (string * list string) :=
  [("Product Management",
    ["Product strategy"; "Roadmapping"; "User research"; "Analytics"]);
   ("Technical Skills", ["SQL"; "Python"; "A/B testing"; "Data analysis"]);
   ("Tools & Platforms", ["Amplitude"; "Mixpanel"; "Google Analytics"; "Figma"])].

(** The body of the loop over the skills of one category; the second
    membership test is evaluated only when the first fails. *)
Definition place_skill (tech_keywords tools_keywords : pyobj)
  (st : list string * list string) (skill : string)
  : result (list string * list string) :=
  let '(relevant_skills, other_skills) := st in
  in_tech <- str_in (lower skill) tech_keywords ;;
  relevant <-
    (if in_tech then Ok true else str_in (lower skill) tools_keywords) ;;
  Ok (if relevant then ((relevant_skills ++ [skill])%list, other_skills)
      else (relevant_skills, (other_skills ++ [skill])%list)).

Definition optimize_category (keywords : dict) (skills : list string)
  : result (list string) :=
  (* Reorder skills based on keyword matches *)
  let tech_keywords := get_default keywords "technical_skills" (VList []) in
  let tools_keywords := get_default keywords "tools_platforms" (VList []) in
  '(relevant_skills, other_skills) <-
    foldM (place_skill tech_keywords tools_keywords) skills ([], []) ;;
  (* Combine with relevant skills first *)
  Ok (relevant_skills ++ other_skills)%list.

Definition _optimize_skills_section (job_analysis : dict)
  : result (list (string * list string)) :=
  keywords <- as_dict (get_default job_analysis "keywords" (VDict [])) ;;
  (* Prioritize skills mentioned in job description *)
  mapM (fun kv : string * list string =>
          optimized <- optimize_category keywords (snd kv) ;;
          Ok (fst kv, optimized))
       base_skills.

(** One entry of [matches]. *)
Record CategoryMatches : Type := mkCategoryMatches {
  cm_matched : list pyobj;
  cm_count : Z;
  cm_total : Z
}.

Record OptimizationReport : Type := mkOptimizationReport {
  keyword_matches : list (string * CategoryMatches);
  overall_match_percentage : Q;
  optimization_suggestions : list string
}.

Definition _generate_optimization_suggestions
  (matches : list (string * CategoryMatches)) : list string :=
  fold_left
    (fun suggestions (kv : string * CategoryMatches) =>
       let category := fst kv in
       let match_data := snd kv in
       let match_rate :=
         if cm_total match_data >? 0
         then (inject_Z (cm_count match_data) / inject_Z (cm_total match_data))%Q
         else 0%Q in
       if Qltb match_rate 0.5 (* Less than 50% match rate *)
       then (suggestions
             ++ [("Consider adding more " ++ replace "_" " " category
                  ++ " keywords")%string])%list
       else suggestions)
    matches [].

Section Report.

(** [json.dumps] on the resume, and [round]. *)
Variable json_dumps : dict -> string.
Variable round : Q -> Z -> Q.

(** The body of the loop over the keywords of one category. *)
Definition match_keyword (resume_text : string) (st : list pyobj * Z * Z)
  (keyword : pyobj) : result (list pyobj * Z * Z) :=
  let '(category_matches, total_possible, total_matched) := st in
  found <- keyword_in keyword resume_text ;;
  Ok (if found
      then ((category_matches ++ [keyword])%list,
            total_possible + 1, total_matched + 1)
      else (category_matches, total_possible + 1, total_matched)).

(** The body of the loop over the categories, which are the distinct keys
    of [keywords]. *)
Definition match_category (resume_text : string)
  (st : list (string * CategoryMatches) * Z * Z) (kv : string * pyobj)
  : result (list (string * CategoryMatches) * Z * Z) :=
  let '(matches, total_possible, total_matched) := st in
  let category := fst kv in
  let keyword_list := snd kv in
  keywords <- py_iter keyword_list ;;
  '(category_matches, total_possible, total_matched) <-
    foldM (match_keyword resume_text) keywords
          ([], total_possible, total_matched) ;;
  total <- py_len keyword_list ;;
  Ok ((matches
       ++ [(category,
            {| cm_matched := category_matches;
               cm_count := Z.of_nat (List.length category_matches);
               cm_total := total |})])%list,
      total_possible, total_matched).

Definition _generate_resume_optimization_report (job_analysis resume : dict)
  : result OptimizationReport :=
  keywords <- as_dict (get_default job_analysis "keywords" (VDict [])) ;;
  let resume_text := lower (json_dumps resume) in
  '(matches, total_possible, total_matched) <-
    foldM (match_category resume_text) keywords ([], 0, 0) ;;
  let match_percentage :=
    if total_possible >? 0
    then (inject_Z total_matched / inject_Z total_possible * 100)%Q
    else 0%Q in
  Ok {| keyword_matches := matches;
        overall_match_percentage := round match_percentage 1;
        optimization_suggestions := _generate_optimization_suggestions matches |}.

End Report.

End ApplicationGenerator.

(** ** Reference instances of the library functions

    The tracker and the scorer above are parametrised by the library
    functions they call.  The instances below follow the Python library on
    the inputs used in the examples: ISO-8601 strings of the shape that
    [datetime.isoformat] prints, ASCII JSON text, and rounding of exact
    rationals to the nearest decimal (ties to even). *)

Module Reference.

Definition obind {A B : Type} (m : option A) (k : A -> option B) : option B :=
  match m with
  | Some a => k a
  | None => None
  end.

(** Exactly [n] decimal digits. *)
Fixpoint take_digits (n : nat) (acc : Z) (s : list ascii) : option (Z * list ascii) :=
  match n with
  | O => Some (acc, s)
  | S n' =>
      match s with
      | c :: s' =>
          if isdigit c
          then take_digits n' (acc * 10 + (Z.of_nat (nat_of_ascii c) - 48)) s'
          else None
      | [] => None
      end
  end.

Definition expect (c : ascii) (s : list ascii) : option (list ascii) :=
  match s with
  | c' :: s' => if Ascii.eqb c c' then Some s' else None
  | [] => None
  end.

Definition is_leap (y : Z) : bool :=
  ((y mod 4 =? 0) && negb (y mod 100 =? 0)) || (y mod 400 =? 0).

Definition days_in_month (y m : Z) : Z :=
  if m =? 2 then (if is_leap y then 29 else 28)
  else if (m =? 4) || (m =? 6) || (m =? 9) || (m =? 11) then 30
  else 31.

(** Days from 1970-01-01 to the given day of the proleptic Gregorian
    calendar. *)
Definition days_from_civil (y m d : Z) : Z :=
  let y := if m <=? 2 then y - 1 else y in
  let era := y / 400 in
  let yoe := y - era * 400 in
  let doy := (153 * (if m >? 2 then m - 3 else m + 9) + 2) / 5 + d - 1 in
  let doe := yoe * 365 + yoe / 4 - yoe / 100 + doy in
  era * 146097 + doe - 719468.

Definition civil_from_days (z : Z) : Z * Z * Z :=
  let z := z + 719468 in
  let era := z / 146097 in
  let doe := z - era * 146097 in
  let yoe := (doe - doe / 1460 + doe / 36524 - doe / 146096) / 365 in
  let doy := doe - (365 * yoe + yoe / 4 - yoe / 100) in
  let mp := (5 * doy + 2) / 153 in
  let d := doy - (153 * mp + 2) / 5 + 1 in
  let m := if mp <? 10 then mp + 3 else mp - 9 in
  (yoe + era * 400 + (if m <=? 2 then 1 else 0), m, d).

(** [YYYY-MM-DD] *)
Definition parse_date (s : list ascii) : option (Z * list ascii) :=
  obind (take_digits 4 0 s) (fun '(y, s) =>
  obind (expect "-" s) (fun s =>
  obind (take_digits 2 0 s) (fun '(m, s) =>
  obind (expect "-" s) (fun s =>
  obind (take_digits 2 0 s) (fun '(d, s) =>
  if (1 <=? y) && (1 <=? m) && (m <=? 12) && (1 <=? d) && (d <=? days_in_month y m)
  then Some (days_from_civil y m d * day_us, s)
  else None))))).

(** [HH:MM:SS] with an optional [.ffffff] *)
Definition parse_time (s : list ascii) : option (Z * list ascii) :=
  obind (take_digits 2 0 s) (fun '(h, s) =>
  obind (expect ":" s) (fun s =>
  obind (take_digits 2 0 s) (fun '(mi, s) =>
  obind (expect ":" s) (fun s =>
  obind (take_digits 2 0 s) (fun '(sec, s) =>
  if (h <? 24) && (mi <? 60) && (sec <? 60) then
    let t := ((h * 60 + mi) * 60 + sec) * 1000000 in
    match s with
    | "."%char :: s' =>
        obind (take_digits 6 0 s') (fun '(us, s) => Some (t + us, s))
    | _ => Some (t, s)
    end
  else None))))).

(** Nothing, or [+HH:MM] or [-HH:MM] up to the end of the string. *)
Definition parse_offset (s : list ascii) : option (option Z) :=
  match s with
  | [] => Some None
  | sign :: s' =>
      if Ascii.eqb sign "+" || Ascii.eqb sign "-" then
        obind (take_digits 2 0 s') (fun '(h, s) =>
        obind (expect ":" s) (fun s =>
        obind (take_digits 2 0 s) (fun '(mi, s) =>
        match s with
        | [] =>
            if (h <? 24) && (mi <? 60) then
              let off := (h * 60 + mi) * 60 * 1000000 in
              Some (Some (if Ascii.eqb sign "-" then - off else off))
            else None
        | _ => None
        end)))
      else None
  end.

Definition fromisoformat (date_string : string) : option datetime :=
  obind (parse_date (list_ascii_of_string date_string)) (fun '(d, s) =>
  match s with
  | [] => Some {| wall := d; utcoffset := None |}
  | _ :: s =>
      obind (parse_time s) (fun '(t, s) =>
      obind (parse_offset s) (fun off =>
      Some {| wall := d + t; utcoffset := off |}))
  end).

Definition digit_char (z : Z) : ascii := ascii_of_nat (48 + Z.to_nat z).

(** [z] in decimal, zero-padded to [width] digits. *)
Fixpoint pad (width : nat) (z : Z) : string :=
  match width with
  | O => ""
  | S w => pad w (z / 10) ++ String (digit_char (z mod 10)) ""
  end.

Definition isoformat (d : datetime) : string :=
  let '(y, m, dd) := civil_from_days (wall d / day_us) in
  let t := wall d mod day_us in
  let us := t mod 1000000 in
  let sec := t / 1000000 in
  pad 4 y ++ "-" ++ pad 2 m ++ "-" ++ pad 2 dd ++ "T" ++
  pad 2 (sec / 3600) ++ ":" ++ pad 2 (sec / 60 mod 60) ++ ":" ++ pad 2 (sec mod 60) ++
  (if us =? 0 then "" else "." ++ pad 6 us) ++
  match utcoffset d with
  | None => ""
  | Some off =>
      let a := Z.abs off / 60000000 in
      (if off <? 0 then "-" else "+") ++ pad 2 (a / 60) ++ ":" ++ pad 2 (a mod 60)
  end.

(** [round(q, ndigits)] on an exact rational, for [ndigits >= 0]. *)
Definition round (q : Q) (ndigits : Z) : Q :=
  let scale := 10 ^ ndigits in
  let x := (q * inject_Z scale)%Q in
  let lo := Qfloor x in
  let r :=
    match Qcompare (x - inject_Z lo) (1 # 2) with
    | Lt => lo
    | Gt => lo + 1
    | Eq => if Z.even lo then lo else lo + 1
    end in
  (inject_Z r / inject_Z scale)%Q.

Definition dquote : ascii := ascii_of_nat 34.

(** The escape of one character inside a JSON string. *)
Definition json_escape (c : ascii) : string :=
  let n := nat_of_ascii c in
  if Nat.eqb n 34 then String "\" (String dquote "")
  else if Nat.eqb n 92 then "\\"
  else if Nat.eqb n 10 then "\n"
  else if Nat.eqb n 13 then "\r"
  else if Nat.eqb n 9 then "\t"
  else if Nat.eqb n 8 then "\b"
  else if Nat.eqb n 12 then "\f"
  else if Nat.ltb n 32 then
    "\u00" ++ String (if Nat.ltb n 16 then "0" else "1")
                (String (ascii_of_nat
                           (let h := Nat.modulo n 16 in
                            if Nat.ltb h 10 then 48 + h else 87 + h)) "")
  else String c "".

Definition json_string (s : string) : string :=
  String dquote
    (String.concat "" (map json_escape (list_ascii_of_string s))
     ++ String dquote "").

(** [json.dumps]: [", "] between items, [": "] after a key.  The printing of
    a float is left to [float_repr]. *)
Fixpoint json_value (float_repr : Q -> string) (x : pyobj) : string :=
  match x with
  | VNone => "null"
  | VBool b => if b then "true" else "false"
  | VInt z => NilZero.string_of_int (Z.to_int z)
  | VFloat q => float_repr q
  | VStr s => json_string s
  | VList l => "[" ++ String.concat ", " (map (json_value float_repr) l) ++ "]"
  | VDict d =>
      "{" ++ String.concat ", "
               (map (fun kv => json_string (fst kv) ++ ": "
                               ++ json_value float_repr (snd kv)) d) ++ "}"
  end.

Definition json_dumps (float_repr : Q -> string) (story : dict) : string :=
  json_value float_repr (VDict story).

(** The report is not rendered: only its heading is written. *)
Definition render (dashboard : Tracker.Dashboard) : string :=
  "# Job Search Pipeline Dashboard".

End Reference.

(** ** The vocabulary of the specified properties *)

(** The progression of section 4.3 of the specification:
    researching < researched < applied < outreach_sent < responded <
    interviewing < offered < hired.  Any other status has no rank. *)
Definition status_rank (status : pyobj) : option nat :=
  if eq_str status "researching" then Some 0%nat
  else if eq_str status "researched" then Some 1%nat
  else if eq_str status "applied" then Some 2%nat
  else if eq_str status "outreach_sent" then Some 3%nat
  else if eq_str status "responded" then Some 4%nat
  else if eq_str status "interviewing" then Some 5%nat
  else if eq_str status "offered" then Some 6%nat
  else if eq_str status "hired" then Some 7%nat
  else None.

(** The status moved to an earlier state of the progression. *)
Definition moves_backward (old new : pyobj) : Prop :=
  exists a b : nat,
    status_rank old = Some a /\ status_rank new = Some b /\ (b < a)%nat.

(** The status is not later than the state of rank [n]. *)
Definition not_past (status : pyobj) (n : nat) : Prop :=
  forall a : nat, status_rank status = Some a -> (a <= n)%nat.

(** The status stored for a company key ([None] when there is no record or
    no status). *)
Definition status_of (self : JobSearchOrchestrator) (company_key : string) : pyobj :=
  match dict_get (companies (pipeline self)) company_key with
  | Some company => get_none company "status"
  | None => VNone
  end.

(** One call of the mutation path: company name, field, value. *)
Definition Mutation : Type := (string * string * pyobj)%type.

Definition apply_mutation (self : JobSearchOrchestrator) (m : Mutation)
  : JobSearchOrchestrator :=
  let '(company_name, field, value) := m in
  Orchestrator._update_pipeline_status self company_name field value.

Definition run (self : JobSearchOrchestrator) (ms : list Mutation)
  : JobSearchOrchestrator :=
  fold_left apply_mutation ms self.

(** A mutation arrives in the order of the workflow: it does not write the
    status itself, a truthy [application_generated] finds the record at or
    before [applied], a truthy [emails_sent] at or before [outreach_sent]. *)
Definition in_order (self : JobSearchOrchestrator) (m : Mutation) : Prop :=
  let '(company_name, field, value) := m in
  let status := status_of self (lower company_name) in
  field <> "status" /\
  (field = "application_generated" -> truthy value = true -> not_past status 2) /\
  (field = "emails_sent" -> truthy value = true -> not_past status 3).

Fixpoint all_in_order (self : JobSearchOrchestrator) (ms : list Mutation) : Prop :=
  match ms with
  | [] => True
  | m :: ms' => in_order self m /\ all_in_order (apply_mutation self m) ms'
  end.

(** The record that [_update_pipeline_status] stores in place of [company]. *)
Definition updated_record (company : dict) (field : string) (value : pyobj) : dict :=
  let company := dict_set company field value in
  if (field =? "application_generated")%string && truthy value then
    dict_set company "status" (VStr "applied")
  else if (field =? "emails_sent")%string && truthy value then
    dict_set company "status" (VStr "outreach_sent")
  else company.

(** Whether [research_company] answers from the stored record without
    researching again. *)
Definition answered_from_store (self : JobSearchOrchestrator)
  (company_name : string) (force_refresh : bool) : bool :=
  negb force_refresh &&
  match dict_get (companies (pipeline self)) (replace " " "_" (lower company_name)) with
  | Some existing => truthy (get_none existing "research_completed")
  | None => false
  end.

(** The orchestrator and the tracker over a given pipeline. *)
Definition orchestrator_of (p : Pipeline) : JobSearchOrchestrator :=
  {| config := {| min_priority_score := VInt 28 |};
     pipeline := p; pipeline_file := Some p; research_notes := [] |}.

Definition tracker_of (p : Pipeline) : Tracker.PipelineTracker :=
  {| Tracker.pipeline_data := p; Tracker.dashboard_file := None |}.

Definition pipeline_of (companies : list (string * dict)) : Pipeline :=
  {| companies := companies;
     stats := stats Orchestrator.default_pipeline;
     next_actions := [] |}.

(** The tracker with one record left out. *)
Definition without_record (self : Tracker.PipelineTracker)
  (before after : list (string * dict)) : Tracker.PipelineTracker :=
  {| Tracker.pipeline_data :=
       {| companies := (before ++ after)%list;
          stats := stats (Tracker.pipeline_data self);
          next_actions := next_actions (Tracker.pipeline_data self) |};
     Tracker.dashboard_file := Tracker.dashboard_file self |}.

(** The name under which the actions of a record are listed. *)
Definition display_name (kv : string * dict) : pyobj :=
  get_default (snd kv) "name" (VStr (fst kv)).

(** The order of the priorities in the specification: high, then medium,
    then low. *)
Definition outranks (p q : string) : Prop :=
  (p = "high" /\ (q = "medium" \/ q = "low")) \/ (p = "medium" /\ q = "low").

(** The due date [d] is equal to [d'] or later. *)
Definition not_earlier (d d' : pyobj) : Prop :=
  rich_eq d d' = true \/ rich_lt d' d = Ok true.

(** [a] may stand before [b] in the sorted list: its priority is higher, or
    the priorities are equal and its due date is equal or later. *)
Definition precedes (a b : Tracker.Action) : Prop :=
  outranks (Tracker.priority a) (Tracker.priority b)
  \/ (Tracker.priority a = Tracker.priority b
      /\ not_earlier (Tracker.due_date a) (Tracker.due_date b)).

(** The actions of priority [p] whose due date is equal to [d]. *)
Definition with_key (p : string) (d : pyobj) (a : Tracker.Action) : bool :=
  (Tracker.priority a =? p)%string && rich_eq d (Tracker.due_date a).

(** Section 4.5 of the specification: the companies whose status is
    [applied] or a later state, the denominator of the interview
    conversion rate. *)
Definition applied_or_later (company_data : dict) : bool :=
  match status_rank (get_none company_data "status") with
  | Some n => Nat.leb 2 n
  | None => false
  end.

Definition companies_applied_or_later (p : Pipeline) : Z :=
  Z.of_nat (List.length (filter (fun kv => applied_or_later (snd kv)) (companies p))).

Definition companies_with_interviews (p : Pipeline) : Z :=
  Z.of_nat (List.length
    (filter (fun kv => truthy (get_default (snd kv) "interviews" (VList [])))
            (companies p))).

(** The keywords that a scoring call looks for: the strings of the keyword
    lists of the job analysis, then the keywords of the role. *)
Definition listed_keywords (job_analysis : dict) : list string :=
  match get_default job_analysis "keywords" (VDict []) with
  | VDict keywords =>
      flat_map (fun kv : string * pyobj =>
                  match py_iter (snd kv) with
                  | Ok l => flat_map (fun x => match x with
                                               | VStr k => [k]
                                               | _ => []
                                               end) l
                  | Raise _ => []
                  end) keywords
  | _ => []
  end.

Definition query_keywords (role_title : string) (job_analysis : dict) : list string :=
  (listed_keywords job_analysis
   ++ ApplicationGenerator._get_role_specific_keywords role_title)%list.

(** The part of [_score_case_story_relevance] that depends on the story
    only through its serialized text: the keyword loops. *)
Definition keyword_score (story_text role_title : string) (job_analysis : dict)
  : result Q :=
  keywords <- as_dict (get_default job_analysis "keywords" (VDict [])) ;;
  score <- foldM (fun score (kv : string * pyobj) =>
                    ApplicationGenerator.score_keyword_list story_text score (snd kv))
                 keywords 0.0%Q ;;
  Ok (fold_left (fun score keyword =>
                   if contains keyword story_text then score + 2.0 else score)%Q
                (ApplicationGenerator._get_role_specific_keywords role_title) score).

(** ** Example data *)

Module Examples.

(** A company that reached the interviews. *)
Definition acme_interviewing : dict :=
  [("name", VStr "Acme"); ("status", VStr "interviewing");
   ("application_generated", VBool true);
   ("interviews", VList [VDict [("date", VStr "2024-01-10T09:00:00");
                                ("stage", VStr "onsite");
                                ("outcome", VStr "advanced")]])].

Definition interviewing_pipeline : Pipeline :=
  pipeline_of [("acme", acme_interviewing)].

(** A company whose research is complete. *)
Definition acme_researched : dict :=
  [("name", VStr "Acme"); ("research_date", VStr "2024-01-02T08:00:00");
   ("priority_score", VInt 33); ("research_completed", VBool true);
   ("application_generated", VBool false); ("emails_sent", VList []);
   ("interviews", VList []); ("status", VStr "researched")].

Definition researched_pipeline : Pipeline :=
  pipeline_of [("acme", acme_researched)].

Definition empty_pipeline : Pipeline := pipeline_of [].

(** Sub-scores summing to 20, below the threshold of 28. *)
Definition low_scores : pyobj :=
  VDict [("role_appeal", VInt 5); ("company_fit", VInt 5);
         ("growth_potential", VInt 5); ("likelihood", VInt 5)].

Definition collaborators : Collaborators :=
  {| now_isoformat := "2024-01-15T10:30:00";
     qualification_answers :=
       [("role_appeal", VInt 8); ("company_fit", VInt 8);
        ("growth_potential", VInt 8); ("likelihood", VInt 8)];
     ai_research := [("company_dossier", VStr "dossier")] |}.

(** Monday 2024-01-15, 10:30. *)
Definition clock : Z := 1705314600000000.

(** An email whose send date is not a timestamp. *)
Definition bad_email_pipeline : Pipeline :=
  pipeline_of
    [("acme", [("name", VStr "Acme"); ("status", VStr "applied");
               ("emails_sent", VList [VDict [("send_date", VStr "not-a-date")]])])].

(** A story whose result text mentions "b2b", and a job analysis that looks
    for it. *)
Definition b2b_story : dict :=
  [("title", VStr "Enterprise push"); ("results", VStr "Grew b2b revenue")].

Definition b2b_analysis : dict :=
  [("keywords", VDict [("experience_keywords", VList [VStr "b2b"])])].

(** A story whose result text spells a role keyword around a digit. *)
Definition split_keyword_story : dict :=
  [("title", VStr "Churn work"); ("results", VStr "Reten5tion doubled")].

(** The scenario of section 8 of the specification. *)
Definition conversion_story : dict :=
  [("title", VStr "Checkout redesign");
   ("results", VStr "Conversion rate improved to 8.4%")].

Definition conversion_analysis : dict :=
  [("keywords", VDict [("technical_skills", VList [VStr "conversion"])])].

(** The example stories hold no float. *)
Definition dumps : dict -> string := Reference.json_dumps (fun _ => "").

(** Four companies with work to do: an application to generate, an email
    to follow up and one that is too recent, and two pending interviews on
    the same date. *)
Definition busy_pipeline : Pipeline :=
  pipeline_of
    [("acme", acme_researched);
     ("globex",
      [("name", VStr "Globex"); ("status", VStr "outreach_sent");
       ("emails_sent",
        VList [VDict [("send_date", VStr "2024-01-03T09:00:00")];
               VDict [("send_date", VStr "2024-01-12T09:00:00")]])]);
     ("initech",
      [("name", VStr "Initech"); ("status", VStr "interviewing");
       ("interviews",
        VList [VDict [("date", VStr "2024-01-20T10:00:00");
                      ("outcome", VStr "pending")]])]);
     ("umbrella",
      [("name", VStr "Umbrella"); ("status", VStr "interviewing");
       ("interviews",
        VList [VDict [("date", VStr "2024-01-20T10:00:00");
                      ("outcome", VStr "pending")]])])].

(** A research call with low scores on top of the busy pipeline. *)
Definition hooli_outcome : result dict * JobSearchOrchestrator :=
  Orchestrator.research_company (orchestrator_of busy_pipeline) "Hooli Labs"
    (VStr "Senior Product Manager") false low_scores collaborators.

Definition hooli_record : dict :=
  [("name", VStr "Hooli Labs");
   ("research_date", VStr "2024-01-15T10:30:00");
   ("role_title", VStr "Senior Product Manager");
   ("priority_score", VInt 20);
   ("qualification_passed", VBool false);
   ("research_completed", VBool false);
   ("application_generated", VBool false);
   ("emails_sent", VList []);
   ("interviews", VList []);
   ("status", VStr "disqualified");
   ("priority_breakdown", low_scores)].

(** An interview whose date is not a timestamp. *)
Definition bad_interview_pipeline : Pipeline :=
  pipeline_of
    [("acme", [("name", VStr "Acme"); ("status", VStr "interviewing");
               ("interviews", VList [VDict [("date", VStr "not-a-date");
                                            ("outcome", VStr "advanced")]])])].

End Examples.

(** ** Further vocabulary *)

(** The record that [research_company] stores for a company that passes the
    qualification check. *)
Definition researched_record (company_name : string) (role_title : pyobj)
  (w : Collaborators) (priority_scores : dict) (total : number) : dict :=
  let company_data : dict :=
    [("name", VStr company_name);
     ("research_date", VStr (now_isoformat w));
     ("role_title", role_title);
     ("priority_score", VInt 0);
     ("qualification_passed", VBool false);
     ("research_completed", VBool false);
     ("application_generated", VBool false);
     ("emails_sent", VList []);
     ("interviews", VList []);
     ("status", VStr "researching")] in
  let company_data := dict_set company_data "priority_score" (of_number total) in
  let company_data :=
    dict_set company_data "priority_breakdown" (VDict priority_scores) in
  let company_data := dict_update company_data (ai_research w) in
  let company_data :=
    dict_set company_data "network_opportunities" Orchestrator.network_data in
  let company_data := dict_set company_data "research_completed" (VBool true) in
  let company_data := dict_set company_data "status" (VStr "researched") in
  dict_set company_data "qualification_passed" (VBool true).

(** The key under which [research_company] stores a company. *)
Definition research_key (company_name : string) : string :=
  replace " " "_" (lower company_name).

(** The name holds a space. *)
Definition has_space (company_name : string) : Prop :=
  In " "%char (list_ascii_of_string company_name).

(** The sum of the counts of a counting dictionary. *)
Definition count_total (counts : list (pyobj * Z)) : Z :=
  fold_right (fun kv acc => snd kv + acc) 0 counts.

(** The dates that [_get_last_activity_date] takes the maximum of. *)
Definition activity_dates (company_data : dict) : result (list pyobj) :=
  let research_date := get_none company_data "research_date" in
  let dates := if truthy research_date then [research_date] else [] in
  emails <- py_iter (get_default company_data "emails_sent" (VList [])) ;;
  send_dates <- Tracker.collect_dates "send_date" emails ;;
  interviews <- py_iter (get_default company_data "interviews" (VList [])) ;;
  interview_dates <- Tracker.collect_dates "date" interviews ;;
  Ok (dates ++ send_dates ++ interview_dates)%list.

(** The three kinds of next action, each with the record it stems from.

    The application to generate for a researched company without one: due
    two days after the research date. *)
Definition application_action (fromisoformat : string -> option datetime)
  (isoformat : datetime -> string) (clock : Z) (kv : string * dict)
  (a : Tracker.Action) : Prop :=
  let company_data := snd kv in
  eq_str (get_default company_data "status" (VStr "unknown")) "researched" = true /\
  truthy (get_none company_data "application_generated") = false /\
  a = {| Tracker.priority := "high";
         Tracker.action := "Generate application package";
         Tracker.company := display_name kv;
         Tracker.due_date :=
           VStr (Tracker._calculate_due_date fromisoformat isoformat clock
                   (get_none company_data "research_date") 2);
         Tracker.details := Tracker.ResearchCompleted |}.

(** The follow-up for one of the emails of the record: an email without a
    response and without a follow-up, sent [n >= 7] days ago, on whose send
    date the follow-up is due. *)
Definition follow_up_action (fromisoformat : string -> option datetime)
  (clock : Z) (kv : string * dict) (a : Tracker.Action) : Prop :=
  exists (emails : list pyobj) (email : dict) (s : string) (send_date : datetime)
         (delta : Z),
    py_iter (get_default (snd kv) "emails_sent" (VList [])) = Ok emails /\
    In (VDict email) emails /\
    get_default email "send_date" (VStr "") = VStr s /\
    truthy (get_none email "response_received") = false /\
    truthy (get_none email "follow_up_sent") = false /\
    Tracker.parse fromisoformat (VStr s) = Ok send_date /\
    dt_minus (Tracker.now clock) send_date = Ok delta /\
    7 <= days delta /\
    a = {| Tracker.priority := "medium";
           Tracker.action := "Send follow-up email";
           Tracker.company := display_name kv;
           Tracker.due_date := VStr s;
           Tracker.details := Tracker.EmailSentDaysAgo (days delta) |}.

(** The follow-up on one of the interviews of the record: an interview
    whose outcome is pending, due on its date, which is not empty. *)
Definition interview_action (kv : string * dict) (a : Tracker.Action) : Prop :=
  exists (interviews : list pyobj) (interview : dict),
    py_iter (get_default (snd kv) "interviews" (VList [])) = Ok interviews /\
    In (VDict interview) interviews /\
    eq_str (get_none interview "outcome") "pending" = true /\
    truthy (get_default interview "date" (VStr "")) = true /\
    a = {| Tracker.priority := "high";
           Tracker.action := "Follow up on interview outcome";
           Tracker.company := display_name kv;
           Tracker.due_date := get_default interview "date" (VStr "");
           Tracker.details :=
             Tracker.InterviewWith
               (get_default interview "stage" (VStr "Interview"))
               (get_default interview "interviewer" (VStr "TBD")) |}.

(** The completed stages of a status: researched 1, applied 2, interviewing
    3, offered 4, hired 5, and none for any other status. *)
Definition stages_completed (status : pyobj) : Z :=
  if eq_str status "hired" then 5
  else if eq_str status "offered" then 4
  else if eq_str status "interviewing" then 3
  else if eq_str status "applied" then 2
  else if eq_str status "researched" then 1
  else 0.

(** The completed stages of all the companies. *)
Definition completed_total (companies : list (string * dict)) : Z :=
  fold_right (fun kv acc =>
                stages_completed (get_default (snd kv) "status" (VStr "unknown"))
                + acc)
             0 companies.

(** What holds of the counters of the success metrics after [n]
    companies. *)
Definition counters_bounded (n : nat) (c : Tracker.Counters) : Prop :=
  0 <= Tracker.responses_received c <= Tracker.total_emails c /\
  Tracker.responses_received c <= Z.of_nat n /\
  0 <= Tracker.interviews_scheduled c <= Z.of_nat n /\
  0 <= Tracker.total_applications c <= Z.of_nat n /\
  0 <= Tracker.offers_received c <= Z.of_nat n.

(** The order of the company list: a greater priority score first, and
    among equal scores the more recent activity first. *)
Definition listed_before (a b : Tracker.CompanyStatus) : Prop :=
  rich_lt (Tracker.cs_priority_score b) (Tracker.cs_priority_score a) = Ok true
  \/ (rich_eq (Tracker.cs_priority_score a) (Tracker.cs_priority_score b) = true
      /\ Tracker.cs_days_since_activity a <= Tracker.cs_days_since_activity b).

(** The name under which a company is displayed. *)
Definition listed_name (kv : string * dict) : pyobj :=
  get_default (snd kv) "name" (VStr (fst kv)).

(** The number of the strings of [keywords] that occur in [text], counted
    with repetition. *)
Definition occurrences (keywords : list string) (text : string) : Z :=
  Z.of_nat (List.length (filter (fun k => contains k text) keywords)).

(** The strings among the values a keyword list yields. *)
Definition strings_of (l : list pyobj) : list string :=
  flat_map (fun x => match x with VStr k => [k] | _ => [] end) l.

(** A story that scores at least as much as another. *)
Definition ranked_before (json_dumps : dict -> string) (role_title : string)
  (job_analysis : dict) (a b : dict) : Prop :=
  exists sa sb : Q,
    ApplicationGenerator._score_case_story_relevance json_dumps a role_title
      job_analysis = Ok sa /\
    ApplicationGenerator._score_case_story_relevance json_dumps b role_title
      job_analysis = Ok sb /\
    (sb <= sa)%Q.

(** The skill, lower-cased, is among the technical or the tools keywords. *)
Definition mentioned (keywords : dict) (skill : string) : bool :=
  match ApplicationGenerator.str_in (lower skill)
          (get_default keywords "technical_skills" (VList [])) with
  | Ok true => true
  | _ =>
      match ApplicationGenerator.str_in (lower skill)
              (get_default keywords "tools_platforms" (VList [])) with
      | Ok b => b
      | Raise _ => false
      end
  end.

(** The relevant skills first, each group in its given order. *)
Definition relevant_first (keywords : dict) (skills : list string) : list string :=
  (filter (mentioned keywords) skills
   ++ filter (fun skill => negb (mentioned keywords skill)) skills)%list.

(** A category for which a suggestion is made: less than half of its
    keywords matched, or it has no keyword at all. *)
Definition under_matched (kv : string * ApplicationGenerator.CategoryMatches) : bool :=
  (2 * ApplicationGenerator.cm_count (snd kv) <? ApplicationGenerator.cm_total (snd kv))
  || (ApplicationGenerator.cm_total (snd kv) <=? 0).

Definition suggestion (kv : string * ApplicationGenerator.CategoryMatches) : string :=
  "Consider adding more " ++ replace "_" " " (fst kv) ++ " keywords".

(** An entry of the keyword matches counts its matched keywords, which are
    strings that occur in the text, and no more than the keywords of its
    category. *)
Definition well_counted (text : string)
  (m : ApplicationGenerator.CategoryMatches) : Prop :=
  ApplicationGenerator.cm_count m
  = Z.of_nat (List.length (ApplicationGenerator.cm_matched m)) /\
  0 <= ApplicationGenerator.cm_count m <= ApplicationGenerator.cm_total m /\
  Forall (fun k => exists s, k = VStr s /\ contains s text = true)
         (ApplicationGenerator.cm_matched m).

(** The keywords matched, and the keywords listed, over all categories. *)
Definition matched_total
  (matches : list (string * ApplicationGenerator.CategoryMatches)) : Z :=
  fold_right (fun kv acc => ApplicationGenerator.cm_count (snd kv) + acc) 0 matches.

Definition possible_total
  (matches : list (string * ApplicationGenerator.CategoryMatches)) : Z :=
  fold_right (fun kv acc => ApplicationGenerator.cm_total (snd kv) + acc) 0 matches.

(** No dict of the value has a key twice. *)
Fixpoint well_formed (x : pyobj) : Prop :=
  match x with
  | VList l => fold_right (fun a P => well_formed a /\ P) True l
  | VDict d =>
      NoDup (map fst d) /\
      fold_right (fun kv P => well_formed (snd kv) /\ P) True d
  | _ => True
  end.

(** The values nested less than [n] deep that are well formed. *)
Fixpoint level (n : nat) (x : pyobj) : Prop :=
  match n with
  | O => False
  | S n' =>
      match x with
      | VList l => Forall (level n') l
      | VDict d => NoDup (map fst d) /\ Forall (fun kv => level n' (snd kv)) d
      | _ => True
      end
  end.

(** The kinds of values that comparison tells apart: [bool], [int] and
    [float] are numbers. *)
Inductive view : Type :=
| NoneV
| NumV (q : Q)
| StrV (s : string)
| ListV (l : list pyobj)
| DictV (d : dict).

Definition view_of (x : pyobj) : view :=
  match x with
  | VNone => NoneV
  | VBool b => NumV (inject_Z (if b then 1 else 0))
  | VInt z => NumV (inject_Z z)
  | VFloat q => NumV q
  | VStr s => StrV s
  | VList l => ListV l
  | VDict d => DictV d
  end.

Definition Qlt_bool (p q : Q) : bool :=
  match (p ?= q)%Q with Lt => true | _ => false end.

Definition view_eq (v w : view) : bool :=
  match v, w with
  | NoneV, NoneV => true
  | NumV p, NumV q => Qeq_bool p q
  | StrV s, StrV t => (s =? t)%string
  | ListV l, ListV m => list_eq rich_eq l m
  | DictV d, DictV e => dict_eq rich_eq d e
  | _, _ => false
  end.

Definition view_lt (v w : view) : result bool :=
  match v, w with
  | NumV p, NumV q => Ok (Qlt_bool p q)
  | StrV s, StrV t => Ok (String.ltb s t)
  | ListV l, ListV m => list_lt rich_eq rich_lt l m
  | _, _ => Raise TypeError
  end.

(** The properties of an order with equivalent elements, on the values
    that satisfy [Q]. *)
Record ordered_on (Q : pyobj -> Prop) : Prop := mk_ordered_on {
  oo_refl : forall a, Q a -> rich_eq a a = true;
  oo_sym : forall a b, Q a -> Q b -> rich_eq a b = true -> rich_eq b a = true;
  oo_trans : forall a b c, Q a -> Q b -> Q c ->
               rich_eq a b = true -> rich_eq b c = true -> rich_eq a c = true;
  oo_lt_eq_l : forall a b c, Q a -> Q b -> Q c ->
                 rich_eq a b = true -> rich_lt a c = rich_lt b c;
  oo_lt_eq_r : forall a b c, Q a -> Q b -> Q c ->
                 rich_eq b c = true -> rich_lt a b = rich_lt a c;
  oo_lt_not_eq : forall a b, Q a -> Q b -> rich_lt a b = Ok true -> rich_eq a b = false;
  oo_lt_asym : forall a b, Q a -> Q b -> rich_lt a b = Ok true -> rich_lt b a = Ok false;
  oo_lt_total : forall a b, Q a -> Q b ->
                  rich_lt a b = Ok false -> rich_eq a b = false -> rich_lt b a = Ok true;
  oo_lt_trans : forall a b c, Q a -> Q b -> Q c ->
                  rich_lt a b = Ok true -> rich_lt b c = Ok true -> rich_lt a c = Ok true
}.

(** No JSON object of the company records has a key twice. *)
Definition well_formed_pipeline (p : Pipeline) : Prop :=
  Forall (fun kv : string * dict => well_formed (VDict (snd kv))) (companies p).

(** An action as the code makes them: of high or medium priority, with a
    well-formed due date. *)
Definition sortable (a : Tracker.Action) : Prop :=
  (Tracker.priority a = "high" \/ Tracker.priority a = "medium") /\
  well_formed (Tracker.due_date a).

(** *** The store

    [keeps n m]: the statement [m] writes no object among the first [n] of
    the store, removes none, and leaves the two files alone. *)
Definition keeps (n : nat) {A : Type} (m : Stateful.M A) : Prop :=
  forall w, (n <= List.length (Stateful.heap w))%nat ->
    (List.length (Stateful.heap w) <= List.length (Stateful.heap (snd (m w))))%nat /\
    firstn n (Stateful.heap (snd (m w))) = firstn n (Stateful.heap w) /\
    Stateful.pipeline_json (snd (m w)) = Stateful.pipeline_json w /\
    Stateful.dashboard_md (snd (m w)) = Stateful.dashboard_md w.

Module MoreExamples.

(** Sub-scores summing to 34, above the threshold of 28. *)
Definition high_scores : pyobj :=
  VDict [("role_appeal", VInt 9); ("company_fit", VInt 9);
         ("growth_potential", VInt 8); ("likelihood", VInt 8)].

Definition high_scores_dict : dict :=
  [("role_appeal", VInt 9); ("company_fit", VInt 9);
   ("growth_potential", VInt 8); ("likelihood", VInt 8)].

Definition low_scores_dict : dict :=
  [("role_appeal", VInt 5); ("company_fit", VInt 5);
   ("growth_potential", VInt 5); ("likelihood", VInt 5)].

Definition fresh : JobSearchOrchestrator := orchestrator_of Examples.empty_pipeline.

(** Interviews dated by numbers, and an old email: the due dates of the
    high-priority actions are numbers, that of the medium one a string. *)
Definition numeric_dates_pipeline : Pipeline :=
  pipeline_of
    [("acme",
      [("name", VStr "Acme"); ("status", VStr "interviewing");
       ("interviews",
        VList [VDict [("date", VInt 20240112); ("outcome", VStr "pending")];
               VDict [("date", VInt 20240120); ("outcome", VStr "pending")]])]);
     ("globex",
      [("name", VStr "Globex"); ("status", VStr "outreach_sent");
       ("emails_sent",
        VList [VDict [("send_date", VStr "2024-01-03T09:00:00")]]);
       ("interviews",
        VList [VDict [("date", VFloat 20240115.5); ("outcome", VStr "pending")]])])].

(** Two templates: the first was used twice without a response, the second
    once with one. *)
Definition template_pipeline : Pipeline :=
  pipeline_of
    [("acme",
      [("name", VStr "Acme"); ("status", VStr "outreach_sent");
       ("emails_sent",
        VList [VDict [("send_date", VStr "2024-01-03T09:00:00");
                      ("template", VStr "intro")];
               VDict [("send_date", VStr "2024-01-05T09:00:00");
                      ("template", VStr "referral");
                      ("response_received", VBool true)]])]);
     ("globex",
      [("name", VStr "Globex"); ("status", VStr "outreach_sent");
       ("emails_sent",
        VList [VDict [("send_date", VStr "2024-01-08T09:00:00");
                      ("template", VStr "intro")]])])].

(** Three scored companies, two of them with the same score. *)
Definition scored_pipeline : Pipeline :=
  pipeline_of
    [("acme",
      [("name", VStr "Acme"); ("status", VStr "researched");
       ("priority_score", VInt 30);
       ("research_date", VStr "2024-01-02T08:00:00")]);
     ("globex",
      [("name", VStr "Globex"); ("status", VStr "researched");
       ("priority_score", VFloat 34.5);
       ("research_date", VStr "2024-01-05T08:00:00")]);
     ("initech",
      [("name", VStr "Initech"); ("status", VStr "researched");
       ("priority_score", VInt 30);
       ("research_date", VStr "2024-01-10T08:00:00")])].

(** The files before the tracker is created: the pipeline document, and no
    dashboard yet. *)
Definition files (p : Pipeline) : Stateful.World :=
  {| Stateful.heap := []; Stateful.pipeline_json := Some p;
     Stateful.dashboard_md := None |}.

End MoreExamples.

(** * Properties *)

(** ** Dictionaries *)

Section DictFacts.

Context {V : Type}.
Implicit Types (d : list (string * V)) (k : string) (v : V).

Lemma dict_get_set_same d k v : dict_get (dict_set d k v) k = Some v.
Proof.
  induction d as [|[k' v'] d IH]; simpl.
  - now rewrite String.eqb_refl.
  - destruct (k' =? k)%string eqn:E; simpl; rewrite E; auto.
Qed.

Lemma dict_get_set_other d k k' v :
  k <> k' -> dict_get (dict_set d k v) k' = dict_get d k'.
Proof.
  intros Hne.
  induction d as [|[k0 v0] d IH]; simpl.
  - apply String.eqb_neq in Hne. now rewrite Hne.
  - destruct (k0 =? k)%string eqn:E; simpl.
    + apply String.eqb_eq in E; subst k0.
      apply String.eqb_neq in Hne. now rewrite Hne.
    + destruct (k0 =? k')%string; auto.
Qed.

(** Writing the value that is already stored changes nothing. *)
Lemma dict_set_stored d k v : dict_get d k = Some v -> dict_set d k v = d.
Proof.
  induction d as [|[k' v'] d IH]; simpl; [discriminate|].
  destruct (k' =? k)%string eqn:E.
  - now intros [= ->].
  - intros H. now rewrite IH.
Qed.

Lemma dict_set_twice d k v : dict_set (dict_set d k v) k v = dict_set d k v.
Proof. apply dict_set_stored, dict_get_set_same. Qed.

End DictFacts.

(** ** The mutation path *)

Section UpdateFacts.

Import Orchestrator.

Lemma update_present self company_name field value company :
  dict_get (companies (pipeline self)) (lower company_name) = Some company ->
  _update_pipeline_status self company_name field value =
  save_pipeline (set_company self (lower company_name)
                   (updated_record company field value)).
Proof. intros H. unfold _update_pipeline_status. now rewrite H. Qed.

Lemma update_absent self company_name field value :
  dict_get (companies (pipeline self)) (lower company_name) = None ->
  _update_pipeline_status self company_name field value = self.
Proof. intros H. unfold _update_pipeline_status. now rewrite H. Qed.

Lemma updated_record_field company field value :
  dict_get (updated_record company field value) field = Some value.
Proof.
  unfold updated_record.
  destruct ((field =? "application_generated")%string && truthy value) eqn:E1.
  - apply andb_true_iff in E1 as [E1 _]. apply String.eqb_eq in E1; subst field.
    rewrite dict_get_set_other by discriminate. apply dict_get_set_same.
  - destruct ((field =? "emails_sent")%string && truthy value) eqn:E2.
    + apply andb_true_iff in E2 as [E2 _]. apply String.eqb_eq in E2; subst field.
      rewrite dict_get_set_other by discriminate. apply dict_get_set_same.
    + apply dict_get_set_same.
Qed.

(** Updating the updated record again gives it back. *)
Lemma updated_record_twice company field value :
  updated_record (updated_record company field value) field value
  = updated_record company field value.
Proof.
  pose proof (updated_record_field company field value) as Hf.
  unfold updated_record at 1.
  rewrite (dict_set_stored _ _ _ Hf).
  unfold updated_record in *.
  destruct ((field =? "application_generated")%string && truthy value).
  - apply dict_set_twice.
  - destruct ((field =? "emails_sent")%string && truthy value); auto.
    apply dict_set_twice.
Qed.

(** The status that the updated record carries. *)
Lemma updated_record_status company field value :
  field <> "status" ->
  get_none (updated_record company field value) "status" =
  if (field =? "application_generated")%string && truthy value then VStr "applied"
  else if (field =? "emails_sent")%string && truthy value then VStr "outreach_sent"
  else get_none company "status".
Proof.
  intros Hne. unfold updated_record, get_none, get_default.
  destruct ((field =? "application_generated")%string && truthy value).
  - now rewrite dict_get_set_same.
  - destruct ((field =? "emails_sent")%string && truthy value).
    + now rewrite dict_get_set_same.
    + now rewrite dict_get_set_other.
Qed.

End UpdateFacts.

(** C9 (idempotent upsert).  For every orchestrator, company name, field and
    value, calling [_update_pipeline_status] twice in succession with the
    same arguments leaves the orchestrator (its pipeline in memory and the
    document it saved) exactly as one call does. *)
Theorem update_pipeline_status_idempotent :
  forall (self : JobSearchOrchestrator) (company_name field : string) (value : pyobj),
    Orchestrator._update_pipeline_status
      (Orchestrator._update_pipeline_status self company_name field value)
      company_name field value
    = Orchestrator._update_pipeline_status self company_name field value.
Proof.
  intros self company_name field value.
  destruct (dict_get (companies (pipeline self)) (lower company_name))
    as [company|] eqn:Hget.
  - rewrite (update_present _ _ _ _ _ Hget).
    erewrite update_present.
    2:{ simpl. apply dict_get_set_same. }
    rewrite updated_record_twice.
    unfold Orchestrator.save_pipeline, Orchestrator.set_company,
      Orchestrator.with_pipeline; simpl.
    now rewrite dict_set_twice.
  - rewrite (update_absent _ _ _ _ Hget).
    now apply update_absent.
Qed.

(** C3 (as stated): the mutation path creates the record when it is absent.
    It does not: on the empty pipeline the call for "Acme" leaves the
    companies mapping without a record for the key. *)
Lemma update_does_not_create_record :
  let self := orchestrator_of Examples.empty_pipeline in
  let self' :=
    Orchestrator._update_pipeline_status self "Acme" "application_generated"
      (VBool true) in
  dict_get (companies (pipeline self)) (lower "Acme") = None /\
  dict_get (companies (pipeline self')) (lower "Acme") = None /\
  dict_get (companies (pipeline self')) (replace " " "_" (lower "Acme")) = None.
Proof. repeat split. Qed.

(** C3 (amended).  [_update_pipeline_status] acts only on a record that is
    already stored under the lower-cased name: when the companies mapping
    has no such key the orchestrator is left as it was (no record is
    created, nothing is saved); when it has one, the mapping afterwards holds
    a record under that key which carries the given value in the given
    field, and the pipeline has been saved. *)
Theorem update_pipeline_status_merges_into_stored_record :
  forall (self : JobSearchOrchestrator) (company_name field : string) (value : pyobj),
    let self' := Orchestrator._update_pipeline_status self company_name field value in
    let company_key := lower company_name in
    (dict_get (companies (pipeline self)) company_key = None -> self' = self) /\
    (forall company,
        dict_get (companies (pipeline self)) company_key = Some company ->
        exists company',
          dict_get (companies (pipeline self')) company_key = Some company' /\
          dict_get company' field = Some value /\
          pipeline_file self' = Some (pipeline self')).
Proof.
  intros self company_name field value self' company_key. split.
  - apply update_absent.
  - intros company Hget. subst self'.
    rewrite (update_present _ _ _ _ _ Hget).
    exists (updated_record company field value). simpl. repeat split.
    + apply dict_get_set_same.
    + apply updated_record_field.
Qed.

Lemma update_pipeline_status_merges_witness :
  (let self := orchestrator_of Examples.empty_pipeline in
   Orchestrator._update_pipeline_status self "Acme" "application_generated"
     (VBool true) = self) /\
  (let self := orchestrator_of Examples.researched_pipeline in
   let self' :=
     Orchestrator._update_pipeline_status self "Acme" "application_generated"
       (VBool true) in
   exists company',
     dict_get (companies (pipeline self')) "acme" = Some company' /\
     dict_get company' "application_generated" = Some (VBool true) /\
     pipeline_file self' = Some (pipeline self')).
Proof.
  split.
  - pose proof (update_pipeline_status_merges_into_stored_record
                  (orchestrator_of Examples.empty_pipeline)
                  "Acme" "application_generated" (VBool true)) as H.
    cbv zeta in H. destruct H as [H _]. apply H. reflexivity.
  - pose proof (update_pipeline_status_merges_into_stored_record
                  (orchestrator_of Examples.researched_pipeline)
                  "Acme" "application_generated" (VBool true)) as H.
    cbv zeta in H. destruct H as [_ H].
    apply (H Examples.acme_researched). reflexivity.
Defined.

(** ** Status progression *)

Section StatusFacts.

Import Orchestrator.

Lemma status_of_update_other self company_name field value company_key :
  company_key <> lower company_name ->
  status_of (_update_pipeline_status self company_name field value) company_key
  = status_of self company_key.
Proof.
  intros Hne. unfold status_of.
  destruct (dict_get (companies (pipeline self)) (lower company_name))
    as [company|] eqn:Hget.
  - rewrite (update_present _ _ _ _ _ Hget). simpl.
    rewrite dict_get_set_other; auto.
  - now rewrite (update_absent _ _ _ _ Hget).
Qed.

Lemma status_of_update_same self company_name field value company :
  dict_get (companies (pipeline self)) (lower company_name) = Some company ->
  status_of (_update_pipeline_status self company_name field value)
            (lower company_name)
  = get_none (updated_record company field value) "status".
Proof.
  intros Hget. unfold status_of.
  rewrite (update_present _ _ _ _ _ Hget). simpl.
  now rewrite dict_get_set_same.
Qed.

(** One mutation in order keeps every ranked status at its rank or moves it
    to a later one. *)
Lemma in_order_step self m company_key a :
  in_order self m ->
  status_rank (status_of self company_key) = Some a ->
  exists b, status_rank (status_of (apply_mutation self m) company_key) = Some b
            /\ (a <= b)%nat.
Proof.
  destruct m as [[company_name field] value]. simpl.
  intros (Hfield & Happ & Hmail) Hrank.
  destruct (String.eqb_spec company_key (lower company_name)) as [->|Hne].
  2:{ rewrite status_of_update_other by assumption. eauto. }
  destruct (dict_get (companies (pipeline self)) (lower company_name))
    as [company|] eqn:Hget.
  2:{ rewrite (update_absent _ _ _ _ Hget). eauto. }
  rewrite (status_of_update_same _ _ _ _ _ Hget).
  rewrite updated_record_status by assumption.
  assert (Hst : status_of self (lower company_name) = get_none company "status").
  { unfold status_of. now rewrite Hget. }
  destruct ((field =? "application_generated")%string && truthy value) eqn:E1.
  - apply andb_true_iff in E1 as [E1 T1]. apply String.eqb_eq in E1.
    exists 2%nat. split; [reflexivity|]. now apply (Happ E1 T1).
  - destruct ((field =? "emails_sent")%string && truthy value) eqn:E2.
    + apply andb_true_iff in E2 as [E2 T2]. apply String.eqb_eq in E2.
      exists 3%nat. split; [reflexivity|]. now apply (Hmail E2 T2).
    + rewrite <- Hst. eauto.
Qed.

Lemma in_order_run self ms company_key a :
  all_in_order self ms ->
  status_rank (status_of self company_key) = Some a ->
  exists b, status_rank (status_of (run self ms) company_key) = Some b
            /\ (a <= b)%nat.
Proof.
  revert self a.
  induction ms as [|m ms IH]; intros self a Hall Hrank; simpl in *.
  - eauto.
  - destruct Hall as [Hm Hall].
    destruct (in_order_step _ _ _ _ Hm Hrank) as (b & Hb & Hab).
    destruct (IH _ _ Hall Hb) as (c & Hc & Hbc).
    exists c. split; [assumption | lia].
Qed.

End StatusFacts.

(** C1 (as stated): no mutation through [_update_pipeline_status] moves the
    status backward.  One does: a company that is already [interviewing]
    falls back to [applied] when [application_generated] is written. *)
Lemma application_generated_moves_status_backward :
  let self := orchestrator_of Examples.interviewing_pipeline in
  let self' :=
    Orchestrator._update_pipeline_status self "Acme" "application_generated"
      (VBool true) in
  status_of self "acme" = VStr "interviewing" /\
  status_of self' "acme" = VStr "applied" /\
  moves_backward (status_of self "acme") (status_of self' "acme").
Proof.
  repeat split. exists 5%nat, 2%nat. repeat split. lia.
Qed.

(** C1 (amended).  [_update_pipeline_status] overwrites the status with
    [applied] on a truthy [application_generated] and with [outreach_sent]
    on a truthy [emails_sent], whatever the status was, and leaves it alone
    otherwise.  Hence, for every sequence of mutations in which no mutation
    writes the status field itself, every truthy [application_generated]
    finds its record at or before [applied] and every truthy [emails_sent]
    finds it at or before [outreach_sent], the status of no company moves
    backward in the ordering of section 4.3. *)
Theorem status_never_moves_backward_in_order :
  forall (self : JobSearchOrchestrator) (ms : list Mutation) (company_key : string),
    all_in_order self ms ->
    ~ moves_backward (status_of self company_key)
                     (status_of (run self ms) company_key).
Proof.
  intros self ms company_key Hall (a & b & Ha & Hb & Hlt).
  destruct (in_order_run _ _ _ _ Hall Ha) as (b' & Hb' & Hle).
  rewrite Hb in Hb'. injection Hb' as <-. lia.
Qed.

Lemma status_never_moves_backward_witness :
  let self := orchestrator_of Examples.researched_pipeline in
  let ms : list Mutation :=
    [("Acme", "application_generated", VBool true);
     ("Acme", "emails_sent", VList [VDict [("send_date", VStr "2024-01-05T09:00:00")]])] in
  all_in_order self ms /\
  status_of (run self ms) "acme" = VStr "outreach_sent" /\
  ~ moves_backward (status_of self "acme") (status_of (run self ms) "acme").
Proof.
  intros self ms.
  assert (Hall : all_in_order self ms).
  { simpl. repeat split; try discriminate.
    - intros _ _ a [= <-]. lia.
    - intros _ _ a [= <-]. lia. }
  split; [exact Hall|]. split; [reflexivity|].
  exact (status_never_moves_backward_in_order self ms "acme" Hall).
Defined.

(** ** The error monad *)

Lemma bind_ok {A B : Type} (m : result A) (k : A -> result B) (b : B) :
  bind m k = Ok b -> exists a, m = Ok a /\ k a = Ok b.
Proof. destruct m as [a|e]; simpl; [eauto | discriminate]. Qed.

Lemma bind_raise {A B : Type} (m : result A) (k : A -> result B) (e : exn) :
  bind m k = Raise e -> m = Raise e \/ exists a, m = Ok a /\ k a = Raise e.
Proof. destruct m as [a|e']; simpl; [eauto | intros [= ->]; auto]. Qed.

(** A loop raises only what its body raises. *)
Lemma foldM_raise {A B : Type} (P : exn -> Prop) (f : A -> B -> result A) :
  (forall a b e, f a b = Raise e -> P e) ->
  forall l a e, foldM f l a = Raise e -> P e.
Proof.
  intros Hf l. induction l as [|b l IH]; intros a e; simpl; [discriminate|].
  intros H. apply bind_raise in H as [H | (a' & _ & H)]; eauto.
Qed.

(** ** Success metrics *)

Section MetricsFacts.

Import Tracker.

Variable round : Q -> Z -> Q.

Lemma any_response_raise emails e :
  any_response emails = Raise e -> e = AttributeError.
Proof.
  induction emails as [|email rest IH]; simpl; [discriminate|].
  destruct email; simpl; try (now intros [= <-]).
  destruct (truthy _); [discriminate | exact IH].
Qed.

Lemma has_received_response_raise company_data e :
  _has_received_response company_data = Raise e ->
  e = TypeError \/ e = AttributeError.
Proof.
  unfold _has_received_response. intros H.
  apply bind_raise in H as [H | (l & _ & H)].
  - left. destruct (get_default _ _ _); simpl in H; congruence.
  - right. eapply any_response_raise; eauto.
Qed.

Lemma count_company_raise c company_data e :
  count_company c company_data = Raise e ->
  e = TypeError \/ e = AttributeError.
Proof.
  unfold count_company. intros H.
  apply bind_raise in H as [H | (n & _ & H)].
  - left. destruct (get_default _ _ _); simpl in H; congruence.
  - apply bind_raise in H as [H | (r & _ & H)]; [|discriminate].
    eapply has_received_response_raise; eauto.
Qed.

Lemma success_counters_raise self e :
  success_counters self = Raise e -> e <> ZeroDivisionError.
Proof.
  unfold success_counters. intros H.
  apply (foldM_raise (fun e => e <> ZeroDivisionError)) in H; auto.
  intros c kv e' H'. apply count_company_raise in H' as [->| ->]; discriminate.
Qed.

(** A division by a positive counter does not raise. *)
Lemma truediv_positive (a : Q) (n : Z) :
  (n >? 0) = true -> py_truediv a (inject_Z n) = Ok (a / inject_Z n)%Q.
Proof.
  intros Hn. unfold py_truediv.
  destruct (Qeq_bool (inject_Z n) 0) eqn:E; auto.
  apply Qeq_bool_iff in E. unfold Qeq in E. simpl in E. lia.
Qed.

Lemma rates_defined c :
  exists r1 r2 r3,
    email_response_rate c = Ok r1 /\
    interview_conversion_rate c = Ok r2 /\
    offer_conversion_rate c = Ok r3.
Proof.
  unfold email_response_rate, interview_conversion_rate, offer_conversion_rate.
  destruct (total_emails c >? 0) eqn:E1;
  destruct (total_applications c >? 0) eqn:E2;
  destruct (interviews_scheduled c >? 0) eqn:E3;
  rewrite ?truediv_positive by assumption;
  do 3 eexists; repeat split; reflexivity.
Qed.

Lemma success_metrics_of_counters self c :
  success_counters self = Ok c ->
  exists r1 r2 r3 m,
    email_response_rate c = Ok r1 /\
    interview_conversion_rate c = Ok r2 /\
    offer_conversion_rate c = Ok r3 /\
    _generate_success_metrics round self = Ok m /\
    em_response_rate m = round r1 3 /\
    am_interview_conversion_rate m = round r2 3 /\
    om_offer_conversion_rate m = round r3 3 /\
    em_total_sent m = total_emails c /\
    am_total_applications m = total_applications c /\
    am_interviews_scheduled m = interviews_scheduled c.
Proof.
  intros Hc.
  destruct (rates_defined c) as (r1 & r2 & r3 & H1 & H2 & H3).
  exists r1, r2, r3. unfold _generate_success_metrics.
  rewrite Hc. simpl. rewrite H1, H2, H3. simpl.
  eexists. repeat split; reflexivity.
Qed.

End MetricsFacts.

(** C6 (zero-division safety).  For every pipeline, generating the success
    metrics never raises a division error; and whenever the counters are
    computed, each rate whose denominator is 0 (no email sent, no
    application counted, no interview scheduled) is 0, and the report
    carries that 0 rounded to three digits. *)
Theorem rates_are_zero_when_denominator_is_zero :
  forall (round : Q -> Z -> Q) (self : Tracker.PipelineTracker),
    Tracker._generate_success_metrics round self <> Raise ZeroDivisionError /\
    forall c : Tracker.Counters,
      Tracker.success_counters self = Ok c ->
      exists m : Tracker.SuccessMetrics,
        Tracker._generate_success_metrics round self = Ok m /\
        (Tracker.total_emails c = 0 ->
         Tracker.email_response_rate c = Ok 0%Q /\
         Tracker.em_response_rate m = round 0%Q 3) /\
        (Tracker.total_applications c = 0 ->
         Tracker.interview_conversion_rate c = Ok 0%Q /\
         Tracker.am_interview_conversion_rate m = round 0%Q 3) /\
        (Tracker.interviews_scheduled c = 0 ->
         Tracker.offer_conversion_rate c = Ok 0%Q /\
         Tracker.om_offer_conversion_rate m = round 0%Q 3).
Proof.
  intros round self. split.
  - destruct (Tracker.success_counters self) as [c|e] eqn:Hc.
    + destruct (success_metrics_of_counters round self c Hc)
        as (r1 & r2 & r3 & m & _ & _ & _ & Hm & _). now rewrite Hm.
    + unfold Tracker._generate_success_metrics. rewrite Hc. simpl.
      intros [= ->]. now apply success_counters_raise in Hc.
  - intros c Hc.
    destruct (success_metrics_of_counters round self c Hc)
      as (r1 & r2 & r3 & m & H1 & H2 & H3 & Hm & E1 & E2 & E3 & _).
    exists m. split; [assumption|].
    unfold Tracker.email_response_rate, Tracker.interview_conversion_rate,
      Tracker.offer_conversion_rate in *.
    split; [|split]; intros Hz; rewrite Hz in *; simpl in *; split; congruence.
Qed.

Lemma rates_are_zero_witness :
  let self := tracker_of Examples.researched_pipeline in
  exists m : Tracker.SuccessMetrics,
    Tracker._generate_success_metrics Reference.round self = Ok m /\
    Tracker.em_response_rate m = Reference.round 0%Q 3 /\
    Tracker.am_interview_conversion_rate m = Reference.round 0%Q 3 /\
    Tracker.om_offer_conversion_rate m = Reference.round 0%Q 3.
Proof.
  intros self.
  destruct (rates_are_zero_when_denominator_is_zero Reference.round self)
    as [_ H].
  destruct (H {| Tracker.total_emails := 0; Tracker.responses_received := 0;
                 Tracker.interviews_scheduled := 0;
                 Tracker.total_applications := 0;
                 Tracker.offers_received := 0 |} eq_refl)
    as (m & Hm & He & Ha & Ho).
  exists m. split; [exact Hm|].
  split; [exact (proj2 (He eq_refl))|].
  split; [exact (proj2 (Ha eq_refl)) | exact (proj2 (Ho eq_refl))].
Defined.

(** C7 (interview conversion denominator).  The specification divides the
    companies with interviews by the companies whose status is [applied] or
    later.  The code counts only the companies whose status is exactly
    [applied]: for the single company below, which is [interviewing] and has
    an interview, the specified rate is 1/1 while the code finds no
    application at all and reports the rate 0. *)
Theorem interview_conversion_counts_only_applied :
  forall round : Q -> Z -> Q,
    let self := tracker_of Examples.interviewing_pipeline in
    companies_with_interviews (Tracker.pipeline_data self) = 1 /\
    companies_applied_or_later (Tracker.pipeline_data self) = 1 /\
    (exists c,
        Tracker.success_counters self = Ok c /\
        Tracker.interviews_scheduled c = 1 /\
        Tracker.total_applications c = 0 /\
        Tracker.interview_conversion_rate c = Ok 0%Q) /\
    (exists m,
        Tracker._generate_success_metrics round self = Ok m /\
        Tracker.am_total_applications m = 0 /\
        Tracker.am_interview_conversion_rate m = round 0%Q 3).
Proof.
  intros round self. split; [reflexivity|]. split; [reflexivity|]. split.
  - eexists. repeat split; reflexivity.
  - eexists. repeat split; reflexivity.
Qed.

(** ** The dashboard *)

(** *** The objects that exist before a call are not written

    Every statement of a method is followed: a creation gives a location
    beyond the objects that exist, and every update in place is at such a
    location. *)

Section Store.

Import Stateful.
Local Open Scope store_scope.


Lemma keeps_ret : forall n A (a : A), keeps n (ret a).
Proof. intros n A a w Hn. simpl. auto. Qed.

Lemma keeps_lift : forall n A (r : result A), keeps n (lift r).
Proof. intros n A r w Hn. simpl. auto. Qed.

Lemma keeps_bind : forall n A B (m : M A) (k : A -> M B),
  keeps n m -> (forall a, keeps n (k a)) -> keeps n (bindM m k).
Proof.
  intros n A B m k Hm Hk w Hn. unfold bindM.
  destruct (Hm w Hn) as (Hlen & Hfirst & Hfile & Hmd).
  destruct (m w) as [[a | e] w']; simpl in *.
  - destruct (Hk a w') as (Hlen' & Hfirst' & Hfile' & Hmd'); [lia |].
    repeat split; [lia | congruence | congruence | congruence].
  - auto.
Qed.

Lemma keeps_read : forall n A (S : Stored A) (r : ref A), keeps n (read r).
Proof.
  intros n A S r w Hn. unfold read.
  destruct (stored r w); simpl; auto.
Qed.

Lemma keeps_new : forall n A (S : Stored A) (a : A) B (k : ref A -> M B),
  (forall r, (n <= loc r)%nat -> keeps n (k r)) -> keeps n (bindM (new a) k).
Proof.
  intros n A S a B k Hk w Hn. unfold bindM, new.
  destruct (Hk (mkref (List.length (heap w))) Hn (with_heap w (heap w ++ [box a])))
    as (Hlen & Hfirst & Hfile & Hmd).
  - simpl. rewrite length_app. lia.
  - simpl in *. rewrite length_app in Hlen. simpl in Hlen.
    repeat split; [lia | | exact Hfile | exact Hmd].
    rewrite Hfirst. rewrite firstn_app.
    replace (n - List.length (heap w))%nat with 0%nat by lia.
    simpl. apply app_nil_r.
Qed.

Lemma length_replace_nth : forall A (l : list A) n a,
  List.length (replace_nth n a l) = List.length l.
Proof.
  induction l as [| x l IH]; intros [| n] a; simpl; auto.
Qed.

Lemma firstn_replace_nth : forall A (l : list A) n m a,
  (n <= m)%nat -> firstn n (replace_nth m a l) = firstn n l.
Proof.
  induction l as [| x l IH]; intros [| n] [| m] a Hnm; simpl; auto; try lia.
  f_equal. apply IH. lia.
Qed.

Lemma keeps_write : forall n A (S : Stored A) (r : ref A) a,
  (n <= loc r)%nat -> keeps n (write r a).
Proof.
  intros n A S r a Hr w Hn. unfold write. simpl.
  rewrite length_replace_nth. repeat split; [lia |].
  now apply firstn_replace_nth.
Qed.

Lemma keeps_update : forall n A (S : Stored A) (r : ref A) f,
  (n <= loc r)%nat -> keeps n (update r f).
Proof.
  intros n A S r f Hr. unfold update.
  apply keeps_bind; [apply keeps_read | intros a].
  apply keeps_bind; [apply keeps_lift | intros a'].
  now apply keeps_write.
Qed.

Lemma keeps_append : forall n A (S : Stored (list A)) (r : ref (list A)) x,
  (n <= loc r)%nat -> keeps n (append r x).
Proof. intros. now apply keeps_update. Qed.

Lemma keeps_count : forall n r k, (n <= loc r)%nat -> keeps n (count r k).
Proof. intros. now apply keeps_update. Qed.

Lemma keeps_sort : forall n A (S : Stored (list A)) (r : ref (list A)) key,
  (n <= loc r)%nat -> keeps n (sort r key).
Proof. intros. now apply keeps_update. Qed.

Lemma keeps_when : forall n b m, keeps n m -> keeps n (when b m).
Proof. intros n [|] m Hm; simpl; [exact Hm | apply keeps_ret]. Qed.

Lemma keeps_for_each : forall n A (l : list A) body,
  (forall x, keeps n (body x)) -> keeps n (for_each l body).
Proof.
  intros n A l body Hbody. induction l as [| x l IH]; simpl.
  - apply keeps_ret.
  - apply keeps_bind; auto.
Qed.

Lemma keeps_reading : forall n A self (method : Tracker.PipelineTracker -> A),
  keeps n (reading self method).
Proof.
  intros n A self method. unfold reading.
  apply keeps_bind; [apply keeps_read | intros data].
  intros w Hn. simpl. auto.
Qed.

(** One step of the proof that a method keeps the objects: the rule of the
    statement at the head. *)
Ltac keeps_step :=
  match goal with
  | |- keeps _ (bindM (new _) _) => apply keeps_new; intros
  | |- keeps _ (bindM _ _) => apply keeps_bind; [| intros]
  | |- keeps _ (ret _) => apply keeps_ret
  | |- keeps _ (lift _) => apply keeps_lift
  | |- keeps _ (read _) => apply keeps_read
  | |- keeps _ (reading _ _) => apply keeps_reading
  | |- keeps _ (update _ _) => apply keeps_update; assumption
  | |- keeps _ (append _ _) => apply keeps_append; assumption
  | |- keeps _ (count _ _) => apply keeps_count; assumption
  | |- keeps _ (sort _ _) => apply keeps_sort; assumption
  | |- keeps _ (when _ _) => apply keeps_when
  | |- keeps _ (for_each _ _) => apply keeps_for_each; intros
  | |- keeps _ (if ?b then _ else _) => destruct b
  | |- keeps _ (match ?x with _ => _ end) => destruct x
  | |- keeps _ (let x := _ in _) => cbv zeta
  end.

Ltac keeps_all := repeat keeps_step.

Section Frame.

Variable fromisoformat : string -> option datetime.
Variable isoformat : datetime -> string.
Variable round : Q -> Z -> Q.
Variable render : Tracker.Dashboard -> string.
Variable clock : Z.

Lemma keeps_get_companies : forall n self, keeps n (get_companies self).
Proof. intros. unfold get_companies. keeps_all. Qed.

Lemma keeps_last_activity_date : forall n company_data,
  keeps n (_get_last_activity_date company_data).
Proof. intros. unfold _get_last_activity_date, append_dates. keeps_all. Qed.

Lemma keeps_days_since_activity : forall n company_data,
  keeps n (_calculate_days_since_activity fromisoformat clock company_data).
Proof.
  intros. unfold _calculate_days_since_activity.
  apply keeps_bind; [apply keeps_last_activity_date | intros]. keeps_all.
Qed.

Lemma keeps_pipeline_summary : forall n self,
  keeps n (_generate_pipeline_summary round self).
Proof.
  intros. unfold _generate_pipeline_summary, _calculate_completion_rate.
  apply keeps_bind; [apply keeps_get_companies | intros]. keeps_all.
Qed.

Lemma keeps_company_status : forall n self,
  keeps n (_generate_company_status fromisoformat clock self).
Proof.
  intros. unfold _generate_company_status.
  apply keeps_bind; [apply keeps_get_companies | intros].
  apply keeps_new; intros.
  apply keeps_bind; [| intros; keeps_all].
  apply keeps_for_each; intros.
  apply keeps_bind; [apply keeps_last_activity_date | intros].
  apply keeps_bind; [apply keeps_lift | intros].
  apply keeps_bind; [apply keeps_days_since_activity | intros].
  keeps_all.
Qed.

Lemma keeps_success_metrics : forall n self,
  keeps n (_generate_success_metrics round self).
Proof. intros. unfold _generate_success_metrics. keeps_all. Qed.

Lemma keeps_email_performance : forall n self,
  keeps n (_generate_email_performance fromisoformat round clock self).
Proof.
  intros. unfold _generate_email_performance.
  apply keeps_bind; [apply keeps_get_companies | intros]. keeps_all.
Qed.

Lemma keeps_interview_tracking : forall n self,
  keeps n (_generate_interview_tracking fromisoformat round clock self).
Proof.
  intros. unfold _generate_interview_tracking.
  apply keeps_bind; [apply keeps_get_companies | intros]. keeps_all.
Qed.

Lemma keeps_next_actions : forall n self,
  keeps n (_generate_next_actions fromisoformat isoformat clock self).
Proof.
  intros. unfold _generate_next_actions.
  apply keeps_bind; [apply keeps_get_companies | intros]. keeps_all.
Qed.

Lemma keeps_weekly_progress : forall n self,
  keeps n (_generate_weekly_progress fromisoformat isoformat round clock self).
Proof.
  intros. unfold _generate_weekly_progress.
  apply keeps_bind; [apply keeps_get_companies | intros]. keeps_all.
Qed.

Lemma keeps_recommendations : forall n self,
  keeps n (_generate_recommendations fromisoformat isoformat round clock self).
Proof.
  intros. unfold _generate_recommendations.
  apply keeps_bind; [apply keeps_success_metrics | intros].
  apply keeps_bind; [apply keeps_email_performance | intros].
  apply keeps_new; intros.
  apply keeps_bind; [keeps_all | intros].
  apply keeps_bind; [apply keeps_weekly_progress | intros].
  apply keeps_bind; [keeps_all | intros].
  apply keeps_bind; [apply keeps_pipeline_summary | intros].
  keeps_all.
Qed.

Lemma keeps_build_dashboard : forall n self,
  keeps n (build_dashboard fromisoformat isoformat round clock self).
Proof.
  intros. unfold build_dashboard. cbv zeta.
  apply keeps_bind; [apply keeps_pipeline_summary | intros].
  apply keeps_bind; [apply keeps_company_status | intros].
  apply keeps_bind; [apply keeps_success_metrics | intros].
  apply keeps_bind; [apply keeps_email_performance | intros].
  apply keeps_bind; [apply keeps_interview_tracking | intros].
  apply keeps_bind; [apply keeps_next_actions | intros].
  apply keeps_bind; [apply keeps_weekly_progress | intros].
  apply keeps_bind; [apply keeps_recommendations | intros].
  apply keeps_ret.
Qed.

End Frame.

Lemma stored_extends : forall A (S : Stored A) (r : ref A) w w' created a,
  heap w' = (heap w ++ created)%list ->
  stored r w = Some a ->
  stored r w' = Some a.
Proof.
  intros A S r w w' created a Hheap Hstored. unfold stored in *. rewrite Hheap.
  destruct (nth_error (heap w) (loc r)) as [o |] eqn:Hnth; [| discriminate].
  rewrite nth_error_app1 by (apply nth_error_Some; congruence).
  rewrite Hnth. exact Hstored.
Qed.

Lemma keeps_extends : forall B (m : M B) w,
  keeps (List.length (heap w)) m ->
  exists created, heap (snd (m w)) = (heap w ++ created)%list.
Proof.
  intros B m w Hkeeps.
  destruct (Hkeeps w (le_n _)) as (_ & Hfirst & _).
  exists (skipn (List.length (heap w)) (heap (snd (m w)))).
  rewrite <- (firstn_skipn (List.length (heap w)) (heap (snd (m w)))) at 1.
  rewrite Hfirst, firstn_all. reflexivity.
Qed.


End Store.

(** C10 (read-side purity).  For every store, tracker, clock and library
    behaviour, [generate_dashboard] writes none of the objects that exist
    when it is called, whether it returns or raises: the store afterwards is
    the store before, followed by the objects that the sections created (the
    lists and counters they append to, count in and sort).  So the pipeline
    data that the tracker holds, its companies mapping and its stats, is the
    same before and after the call; the pipeline file is the same too, and
    the one effect on what existed is the dashboard file, written when the
    call returns. *)
Theorem generate_dashboard_leaves_pipeline_data_unchanged :
  forall (fromisoformat : string -> option datetime)
         (isoformat : datetime -> string) (round : Q -> Z -> Q)
         (render : Tracker.Dashboard -> string) (clock : Z)
         (self : Stateful.PipelineTracker) (w : Stateful.World),
    let outcome :=
      Stateful.generate_dashboard fromisoformat isoformat round render clock self w in
    (exists created,
        Stateful.heap (snd outcome) = (Stateful.heap w ++ created)%list) /\
    (forall data,
        Stateful.stored (Stateful.pipeline_data self) w = Some data ->
        Stateful.stored (Stateful.pipeline_data self) (snd outcome) = Some data) /\
    Stateful.pipeline_json (snd outcome) = Stateful.pipeline_json w /\
    (forall dashboard,
        fst outcome = Ok dashboard ->
        Stateful.dashboard_md (snd outcome) = Some (render dashboard)) /\
    (forall e,
        fst outcome = Raise e ->
        Stateful.dashboard_md (snd outcome) = Stateful.dashboard_md w).
Proof.
  intros fromisoformat isoformat round render clock self w outcome.
  pose proof (keeps_build_dashboard fromisoformat isoformat round clock
                (List.length (Stateful.heap w)) self) as Hkeeps.
  destruct (keeps_extends _ _ w Hkeeps) as [created Hheap].
  destruct (Hkeeps w (le_n _)) as (_ & _ & Hfile & Hmd).
  assert (Hsplit :
    Stateful.heap (snd outcome) = (Stateful.heap w ++ created)%list /\
    Stateful.pipeline_json (snd outcome) = Stateful.pipeline_json w /\
    (forall dashboard, fst outcome = Ok dashboard ->
       Stateful.dashboard_md (snd outcome) = Some (render dashboard)) /\
    (forall e, fst outcome = Raise e ->
       Stateful.dashboard_md (snd outcome) = Stateful.dashboard_md w)).
  { subst outcome. unfold Stateful.generate_dashboard, Stateful.bindM.
    destruct (Stateful.build_dashboard _ _ _ _ _ w) as [[dashboard | e] w1];
      simpl in *.
    - unfold Stateful._save_dashboard.
      destruct (forallb _ _); simpl.
      + repeat split; auto; [now intros d [= ->] | discriminate].
      + repeat split; auto; discriminate.
    - repeat split; auto; discriminate. }
  destruct Hsplit as (Hheap' & Hfile' & Hok & Hraise).
  split; [now exists created |].
  split; [intros data; now apply stored_extends with (w := w) (created := created) |].
  auto.
Qed.

Lemma generate_dashboard_witness :
  let started := Stateful.__init__ (MoreExamples.files Examples.busy_pipeline) in
  let self := {| Stateful.pipeline_data := Stateful.mkref 0 |} in
  let outcome :=
    Stateful.generate_dashboard Reference.fromisoformat Reference.isoformat
      Reference.round Reference.render Examples.clock self (snd started) in
  fst started = Ok self /\
  Stateful.stored (Stateful.pipeline_data self) (snd started)
    = Some Examples.busy_pipeline /\
  (exists dashboard,
      fst outcome = Ok dashboard /\
      fst (Tracker.generate_dashboard Reference.fromisoformat Reference.isoformat
             Reference.round Reference.render Examples.clock
             (tracker_of Examples.busy_pipeline)) = Ok dashboard) /\
  Stateful.stored (Stateful.pipeline_data self) (snd outcome)
    = Some Examples.busy_pipeline /\
  Stateful.pipeline_json (snd outcome) = Some Examples.busy_pipeline /\
  Stateful.dashboard_md (snd outcome) = Some "# Job Search Pipeline Dashboard".
Proof.
  intros started self outcome.
  pose proof (generate_dashboard_leaves_pipeline_data_unchanged
                Reference.fromisoformat Reference.isoformat Reference.round
                Reference.render Examples.clock self (snd started)) as H.
  cbv zeta in H. destruct H as (_ & Hdata & Hfile & Hmd & _).
  assert (Hstored : Stateful.stored (Stateful.pipeline_data self) (snd started)
                    = Some Examples.busy_pipeline) by reflexivity.
  assert (Hok : exists dashboard,
             fst outcome = Ok dashboard /\
             fst (Tracker.generate_dashboard Reference.fromisoformat
                    Reference.isoformat Reference.round Reference.render
                    Examples.clock (tracker_of Examples.busy_pipeline))
             = Ok dashboard)
    by (eexists; split; vm_compute; reflexivity).
  split; [reflexivity |]. split; [exact Hstored |]. split; [exact Hok |].
  split; [exact (Hdata _ Hstored) |]. split; [exact Hfile |].
  destruct Hok as [dashboard [Hd _]]. exact (Hmd dashboard Hd).
Defined.

(** C2 (graceful degradation on bad timestamps).  The specification
    promises a complete report when an email carries a send date, or an
    interview a date, that is not an ISO-8601 timestamp.  The code parses
    the date without a guard in [_generate_next_actions] and in
    [_generate_weekly_progress]: for the email below both raise
    [ValueError], and so does the dashboard as a whole, which writes no
    report; for the interview below the weekly progress, and with it the
    dashboard, raises [ValueError].  ([_calculate_days_since],
    [_is_upcoming_interview] and their siblings wrap the same parse in
    [try]/[except] and return a default.) *)
Theorem dashboard_raises_on_unparsable_send_date :
  forall (fromisoformat : string -> option datetime)
         (isoformat : datetime -> string) (round : Q -> Z -> Q)
         (render : Tracker.Dashboard -> string) (clock : Z),
    fromisoformat "not-a-date" = None ->
    let self := tracker_of Examples.bad_email_pipeline in
    let self' := tracker_of Examples.bad_interview_pipeline in
    Tracker._calculate_days_since fromisoformat clock (VStr "not-a-date") = 0 /\
    Tracker._is_upcoming_interview fromisoformat clock (VStr "not-a-date") = false /\
    Tracker._generate_next_actions fromisoformat isoformat clock self
      = Raise ValueError /\
    Tracker._generate_weekly_progress fromisoformat isoformat round clock self
      = Raise ValueError /\
    Tracker.generate_dashboard fromisoformat isoformat round render clock self
      = (Raise ValueError, self) /\
    Tracker._generate_weekly_progress fromisoformat isoformat round clock self'
      = Raise ValueError /\
    Tracker.generate_dashboard fromisoformat isoformat round render clock self'
      = (Raise ValueError, self').
Proof.
  intros fromisoformat isoformat round render clock Hbad self self'.
  assert (Hnext : Tracker._generate_next_actions fromisoformat isoformat clock self
                  = Raise ValueError).
  { unfold Tracker._generate_next_actions, Tracker.collect_actions,
      Tracker.company_actions, Tracker.email_follow_up, Tracker.parse.
    simpl. now rewrite Hbad. }
  assert (Hweek : Tracker._generate_weekly_progress fromisoformat isoformat round
                    clock self' = Raise ValueError).
  { unfold Tracker._generate_weekly_progress, Tracker.count_week, Tracker.in_week,
      Tracker.parse.
    simpl. now rewrite Hbad. }
  split.
  { unfold Tracker._calculate_days_since, Tracker.parse. simpl. now rewrite Hbad. }
  split.
  { unfold Tracker._is_upcoming_interview, Tracker.parse. simpl. now rewrite Hbad. }
  split; [exact Hnext|]. split.
  { unfold Tracker._generate_weekly_progress, Tracker.count_week, Tracker.in_week,
      Tracker.parse.
    simpl. now rewrite Hbad. }
  split.
  { unfold Tracker.generate_dashboard, Tracker.build_dashboard.
    rewrite Hnext.
    unfold Tracker._generate_pipeline_summary, Tracker._generate_company_status,
      Tracker._generate_success_metrics, Tracker._generate_email_performance,
      Tracker._generate_interview_tracking, Tracker._calculate_days_since_activity,
      Tracker._get_last_activity_date, Tracker.track_email,
      Tracker._calculate_days_since, Tracker.parse.
    simpl. rewrite ?Hbad. reflexivity. }
  split; [exact Hweek|].
  unfold Tracker.generate_dashboard, Tracker.build_dashboard.
  rewrite Hweek.
  unfold Tracker._generate_pipeline_summary, Tracker._generate_company_status,
    Tracker._generate_success_metrics, Tracker._generate_email_performance,
    Tracker._generate_interview_tracking, Tracker._generate_next_actions,
    Tracker._calculate_days_since_activity, Tracker._get_last_activity_date,
    Tracker.track_interview, Tracker._is_upcoming_interview, Tracker.parse.
  simpl. rewrite ?Hbad. reflexivity.
Qed.

Lemma dashboard_raises_on_unparsable_send_date_witness :
  let self := tracker_of Examples.bad_email_pipeline in
  Reference.fromisoformat "not-a-date" = None /\
  Tracker.generate_dashboard Reference.fromisoformat Reference.isoformat
    Reference.round Reference.render Examples.clock self
  = (Raise ValueError, self).
Proof.
  intros self. split; [reflexivity|].
  apply (dashboard_raises_on_unparsable_send_date
           Reference.fromisoformat Reference.isoformat Reference.round
           Reference.render Examples.clock eq_refl).
Defined.

(** ** Case-story scoring *)

Section ScoringFacts.

Import ApplicationGenerator.

Variable json_dumps : dict -> string.

(** The score is the keyword score of the serialized story, plus 1.5 when
    the result text holds a digit. *)
Lemma score_unfold story role_title job_analysis :
  _score_case_story_relevance json_dumps story role_title job_analysis =
  (score <- keyword_score (lower (json_dumps story)) role_title job_analysis ;;
   chars <- py_iter (get_default story "results" (VStr "")) ;;
   quantified <- any_isdigit chars ;;
   Ok (if quantified then score + 1.5 else score)%Q)%py.
Proof.
  unfold _score_case_story_relevance, keyword_score.
  destruct (as_dict _) as [keywords|e]; simpl; auto.
  destruct (foldM _ keywords _) as [score|e]; simpl; auto.
Qed.

Lemma any_isdigit_chars (r : string) :
  any_isdigit (map (fun c => VStr (String c "")) (list_ascii_of_string r))
  = Ok (any_digit r).
Proof.
  induction r as [|c r IH]; simpl; auto.
  unfold str_isdigit; simpl. rewrite andb_true_r.
  destruct (isdigit c); simpl; auto.
Qed.

Lemma any_digit_remove_digits (r : string) : any_digit (remove_digits r) = false.
Proof.
  induction r as [|c r IH]; simpl; auto.
  destruct (isdigit c) eqn:E; simpl; auto. now rewrite E.
Qed.

Lemma score_keyword_list_ext text text' score keyword_list :
  (forall l k, py_iter keyword_list = Ok l -> In (VStr k) l ->
               contains k text = contains k text') ->
  score_keyword_list text score keyword_list
  = score_keyword_list text' score keyword_list.
Proof.
  unfold score_keyword_list. intros H.
  destruct (py_iter keyword_list) as [l|e]; simpl; auto.
  specialize (H l). revert score.
  induction l as [|x l IH]; intros score; simpl; auto.
  destruct x; simpl; auto.
  rewrite (H s eq_refl (or_introl eq_refl)).
  destruct (contains s text'); apply IH; intros k Hl Hin; apply H; simpl; auto.
Qed.

Lemma role_fold_ext text text' (keywords : list string) (score : Q) :
  Forall (fun k => contains k text = contains k text') keywords ->
  fold_left (fun score keyword =>
               if contains keyword text then score + 2.0 else score)%Q
            keywords score
  = fold_left (fun score keyword =>
                 if contains keyword text' then score + 2.0 else score)%Q
              keywords score.
Proof.
  intros H. revert score. induction H as [|k l Hk _ IH]; intros score; simpl; auto.
  now rewrite Hk, IH.
Qed.

(** The keyword score only depends on which query keywords occur in the
    text. *)
Lemma keyword_score_ext text text' role_title job_analysis :
  Forall (fun k => contains k text = contains k text')
         (query_keywords role_title job_analysis) ->
  keyword_score text role_title job_analysis
  = keyword_score text' role_title job_analysis.
Proof.
  unfold query_keywords, keyword_score, listed_keywords. intros H.
  apply Forall_app in H as [Hlisted Hrole].
  destruct (get_default job_analysis "keywords" (VDict [])) as [| | | | | |keywords];
    simpl; auto.
  assert (Hloop : forall score,
             foldM (fun score (kv : string * pyobj) =>
                      score_keyword_list text score (snd kv)) keywords score
             = foldM (fun score (kv : string * pyobj) =>
                        score_keyword_list text' score (snd kv)) keywords score).
  { induction keywords as [|kv keywords IH]; intros score; simpl; auto.
    simpl in Hlisted. apply Forall_app in Hlisted as [Hkv Hrest].
    rewrite (score_keyword_list_ext text text').
    - destruct (score_keyword_list text' score (snd kv)); simpl; auto.
    - intros l k Hl Hin. rewrite Hl in Hkv.
      rewrite Forall_forall in Hkv. apply Hkv.
      apply in_flat_map. exists (VStr k). simpl; auto. }
  rewrite Hloop.
  destruct (foldM _ keywords _) as [score|e]; simpl; auto.
  now rewrite (role_fold_ext text text').
Qed.

Lemma results_without_digits story r :
  dict_get story "results" = Some (VStr r) ->
  dict_get (without_digits story) "results" = Some (VStr (remove_digits r)).
Proof.
  intros H. unfold without_digits. rewrite H. apply dict_get_set_same.
Qed.

(** The score of a story whose result text is the string [r]. *)
Lemma score_of_text_results story role_title job_analysis r :
  dict_get story "results" = Some (VStr r) ->
  _score_case_story_relevance json_dumps story role_title job_analysis =
  (score <- keyword_score (lower (json_dumps story)) role_title job_analysis ;;
   Ok (if any_digit r then score + 1.5 else score)%Q)%py.
Proof.
  intros H. rewrite score_unfold. unfold get_default. rewrite H.
  destruct (keyword_score _ _ _) as [score|e]; simpl; auto.
  now rewrite any_isdigit_chars.
Qed.

End ScoringFacts.

(** C8 (as stated): a story whose result text holds a digit scores exactly
    1.5 more than the same story with the digits removed, hence strictly
    more.  Neither holds in general, because the keywords are looked up in
    the serialized story, result text included.  Removing the digit of
    "b2b" loses a keyword match (2.5 against 0, a difference of 2.5), and
    removing the digit inside "Reten5tion" creates one (1.5 against 2). *)
Lemma digits_change_the_keyword_matches :
  (exists s1 s0 : Q,
      ApplicationGenerator._score_case_story_relevance Examples.dumps
        Examples.b2b_story "Growth Product Manager" Examples.b2b_analysis = Ok s1 /\
      ApplicationGenerator._score_case_story_relevance Examples.dumps
        (ApplicationGenerator.without_digits Examples.b2b_story)
        "Growth Product Manager" Examples.b2b_analysis = Ok s0 /\
      (s1 == 2.5)%Q /\ (s0 == 0)%Q /\ ~ (s1 == s0 + 1.5)%Q) /\
  (exists s1 s0 : Q,
      ApplicationGenerator._score_case_story_relevance Examples.dumps
        Examples.split_keyword_story "Growth Product Manager" [] = Ok s1 /\
      ApplicationGenerator._score_case_story_relevance Examples.dumps
        (ApplicationGenerator.without_digits Examples.split_keyword_story)
        "Growth Product Manager" [] = Ok s0 /\
      (s1 == 1.5)%Q /\ (s0 == 2)%Q /\ ~ (s0 < s1)%Q).
Proof.
  split; do 2 eexists;
    (split; [vm_compute; reflexivity|]);
    (split; [vm_compute; reflexivity|]);
    repeat split; try reflexivity; intros H; vm_compute in H; discriminate.
Qed.

(** C8 (amended).  The relevance score of a story is the keyword score of
    its serialized text plus exactly 1.5 when its result text holds a digit.
    Hence, for every story whose result text holds a digit and every query
    and role whose keywords occur in the serialized story exactly when they
    occur in the serialized story with the digits removed from the result
    text, the score equals the score of that digit-free story plus exactly
    1.5 and is strictly higher (and the one call raises when the other
    does). *)
Theorem quantified_outcome_bonus :
  forall (json_dumps : dict -> string) (story : dict) (role_title : string)
         (job_analysis : dict) (r : string),
    dict_get story "results" = Some (VStr r) ->
    any_digit r = true ->
    Forall (fun k =>
              contains k (lower (json_dumps story))
              = contains k (lower (json_dumps (ApplicationGenerator.without_digits story))))
           (query_keywords role_title job_analysis) ->
    (forall e,
        ApplicationGenerator._score_case_story_relevance json_dumps
          (ApplicationGenerator.without_digits story) role_title job_analysis = Raise e ->
        ApplicationGenerator._score_case_story_relevance json_dumps
          story role_title job_analysis = Raise e) /\
    (forall s : Q,
        ApplicationGenerator._score_case_story_relevance json_dumps
          (ApplicationGenerator.without_digits story) role_title job_analysis = Ok s ->
        ApplicationGenerator._score_case_story_relevance json_dumps
          story role_title job_analysis = Ok (s + 1.5)%Q
        /\ (s < s + 1.5)%Q).
Proof.
  intros json_dumps story role_title job_analysis r Hresults Hdigit Hsame.
  rewrite (score_of_text_results json_dumps story _ _ r Hresults).
  rewrite (score_of_text_results json_dumps _ _ _ _
             (results_without_digits story r Hresults)).
  rewrite any_digit_remove_digits, Hdigit.
  rewrite (keyword_score_ext _ _ _ _ Hsame).
  destruct (keyword_score _ role_title job_analysis) as [score|e]; simpl.
  - split; [discriminate|].
    intros s [= <-]. split; [reflexivity | lra].
  - split; [auto | discriminate].
Qed.

Lemma quantified_outcome_bonus_witness :
  exists s : Q,
    ApplicationGenerator._score_case_story_relevance Examples.dumps
      (ApplicationGenerator.without_digits Examples.conversion_story)
      "Growth Product Manager" Examples.conversion_analysis = Ok s /\
    ApplicationGenerator._score_case_story_relevance Examples.dumps
      Examples.conversion_story "Growth Product Manager"
      Examples.conversion_analysis = Ok (s + 1.5)%Q /\
    (s == 3)%Q /\ (s < s + 1.5)%Q.
Proof.
  eexists.
  assert (Hstripped :
    ApplicationGenerator._score_case_story_relevance Examples.dumps
      (ApplicationGenerator.without_digits Examples.conversion_story)
      "Growth Product Manager" Examples.conversion_analysis = Ok 3.000%Q)
    by (vm_compute; reflexivity).
  split; [exact Hstripped|].
  assert (Hsame :
    Forall (fun k =>
              contains k (lower (Examples.dumps Examples.conversion_story))
              = contains k (lower (Examples.dumps
                  (ApplicationGenerator.without_digits Examples.conversion_story))))
           (query_keywords "Growth Product Manager" Examples.conversion_analysis))
    by (repeat constructor).
  destruct (quantified_outcome_bonus Examples.dumps Examples.conversion_story
              "Growth Product Manager" Examples.conversion_analysis
              "Conversion rate improved to 8.4%" eq_refl eq_refl Hsame)
    as [_ H].
  destruct (H _ Hstripped) as [Hscore Hlt].
  split; [exact Hscore|]. split; [reflexivity | exact Hlt].
Defined.

(** ** Stable sorting *)

Section SortFacts.

Context {A : Type} (lt : A -> A -> bool).

(** [x] may stand before [y]: it is not smaller. *)
Let ge (x y : A) : Prop := lt x y = false.

Lemma insert_reverse_perm x l : Permutation (insert_reverse lt x l) (x :: l).
Proof.
  induction l as [|y l IH]; simpl; auto.
  destruct (lt x y); auto.
  rewrite IH. apply perm_swap.
Qed.

Lemma sort_reverse_perm l : Permutation (sort_reverse lt l) l.
Proof.
  induction l as [|x l IH]; simpl; auto.
  unfold sort_reverse in *. simpl.
  rewrite insert_reverse_perm. now constructor.
Qed.

Hypothesis lt_asym : forall x y, lt x y = true -> lt y x = false.
Hypothesis ge_trans : forall x y z, ge x y -> ge y z -> ge x z.

Lemma insert_reverse_sorted x l :
  StronglySorted ge l -> StronglySorted ge (insert_reverse lt x l).
Proof.
  induction 1 as [|y l Hs IH Hy]; simpl.
  - repeat constructor.
  - destruct (lt x y) eqn:E.
    + constructor; auto.
      apply (Permutation_Forall (Permutation_sym (insert_reverse_perm x l))).
      constructor; auto. now apply lt_asym.
    + constructor; [now constructor|].
      constructor; auto.
      eapply Forall_impl; [|exact Hy]. intros z Hz. now apply (ge_trans x y z).
Qed.

Lemma sort_reverse_sorted l : StronglySorted ge (sort_reverse lt l).
Proof.
  induction l as [|x l IH]; [constructor|].
  unfold sort_reverse in *. simpl. now apply insert_reverse_sorted.
Qed.

(** An element is inserted in front of the elements of its own class. *)
Lemma filter_insert_reverse (f : A -> bool) x l :
  (forall y, In y l -> f x = true -> f y = true -> lt x y = false) ->
  filter f (insert_reverse lt x l) = filter f (x :: l).
Proof.
  induction l as [|y l IH]; intros H; simpl; auto.
  destruct (lt x y) eqn:E; simpl; auto.
  rewrite IH by (intros z Hz; apply H; simpl; auto). simpl.
  destruct (f x) eqn:Fx, (f y) eqn:Fy; auto.
  rewrite (H y) in E; simpl; auto. discriminate.
Qed.

(** Stability: the elements of one class keep their order. *)
Lemma filter_sort_reverse (f : A -> bool) l :
  (forall x y, In x l -> In y l -> f x = true -> f y = true -> lt x y = false) ->
  filter f (sort_reverse lt l) = filter f l.
Proof.
  induction l as [|x l IH]; intros H; auto.
  unfold sort_reverse in *. simpl fold_right.
  rewrite filter_insert_reverse.
  - simpl. rewrite IH; auto. intros a b Ha Hb. apply H; simpl; auto.
  - intros y Hy. apply H; simpl; auto.
    right. eapply Permutation_in; [apply sort_reverse_perm | exact Hy].
Qed.

End SortFacts.

Lemma StronglySorted_firstn {A : Type} (R : A -> A -> Prop) (n : nat) (l : list A) :
  StronglySorted R l -> StronglySorted R (firstn n l).
Proof.
  intros H. revert n. induction H as [|x l Hs IH Hx]; intros [|n]; simpl;
    try constructor; auto.
  rewrite Forall_forall in *. intros y Hy. apply Hx.
  eapply (In_nth_error _) in Hy as [i Hi].
  rewrite <- (firstn_skipn n l). apply in_or_app. left.
  eapply nth_error_In; eauto.
Qed.

Lemma StronglySorted_map {A B : Type} (R : A -> A -> Prop) (R' : B -> B -> Prop)
  (P : A -> Prop) (f : A -> B) (l : list A) :
  (forall x y, P x -> P y -> R x y -> R' (f x) (f y)) ->
  Forall P l -> StronglySorted R l -> StronglySorted R' (map f l).
Proof.
  intros HR HP Hs. induction Hs as [|x l Hs IH Hx]; simpl; constructor.
  - apply IH. now inversion HP.
  - inversion HP as [|? ? Px Pl]; subst.
    rewrite Forall_forall in *. intros y Hy.
    apply in_map_iff in Hy as (z & <- & Hz). apply HR; auto.
Qed.

Lemma filter_map_snd {K A : Type} (g : A -> bool) (l : list (K * A)) :
  filter g (map snd l) = map snd (filter (fun p => g (snd p)) l).
Proof.
  induction l as [|p l IH]; simpl; auto.
  destruct (g (snd p)); simpl; now rewrite IH.
Qed.

Lemma filter_firstn_prefix {A : Type} (f : A -> bool) (n : nat) (l : list A) :
  exists rest, filter f l = (filter f (firstn n l) ++ rest)%list.
Proof.
  exists (filter f (skipn n l)).
  now rewrite <- filter_app, firstn_skipn.
Qed.

(** ** The order of the sort keys *)

Lemma string_ltb_asym (a b : string) : String.ltb a b = true -> String.ltb b a = false.
Proof.
  unfold String.ltb. rewrite (String.compare_antisym b a).
  destruct (String.compare a b); simpl; congruence.
Qed.

Lemma string_ltb_irrefl (a : string) : String.ltb a a = false.
Proof.
  destruct (String.ltb a a) eqn:E; auto.
  pose proof (string_ltb_asym _ _ E). congruence.
Qed.

Lemma string_ltb_lt (a b : string) : String.ltb a b = true <-> String_as_OT.lt a b.
Proof.
  rewrite <- String_as_OT.cmp_lt. unfold String.ltb, String_as_OT.cmp.
  destruct (String.compare a b); split; congruence.
Qed.

Lemma string_nltb_trans (a b c : string) :
  String.ltb a b = false -> String.ltb b c = false -> String.ltb a c = false.
Proof.
  intros Hab Hbc. destruct (String.ltb a c) eqn:Hac; auto.
  apply string_ltb_lt in Hac.
  destruct (String.compare a b) eqn:E.
  - apply String.compare_eq_iff in E; subst b.
    apply string_ltb_lt in Hac. congruence.
  - unfold String.ltb in Hab. rewrite E in Hab. discriminate.
  - assert (Hba : String.ltb b a = true).
    { unfold String.ltb. rewrite String.compare_antisym, E. reflexivity. }
    apply string_ltb_lt in Hba.
    pose proof (String_as_OT.lt_trans _ _ _ Hba Hac) as Hlt.
    apply string_ltb_lt in Hlt. congruence.
Qed.

Lemma string_nltb_leb (a b : string) : String.ltb a b = false -> String.leb b a = true.
Proof.
  unfold String.ltb, String.leb. rewrite (String.compare_antisym b a).
  destruct (String.compare a b); simpl; congruence.
Qed.


(** ** The order of Python values *)

Section ListOrder.

Context {A : Type} (eq : A -> A -> bool) (lt : A -> A -> result bool)
        (Q : A -> Prop).

Hypothesis eq_refl_Q : forall a, Q a -> eq a a = true.
Hypothesis eq_sym_Q : forall a b, Q a -> Q b -> eq a b = true -> eq b a = true.
Hypothesis eq_trans_Q :
  forall a b c, Q a -> Q b -> Q c -> eq a b = true -> eq b c = true -> eq a c = true.
Hypothesis lt_eq_l_Q :
  forall a b c, Q a -> Q b -> Q c -> eq a b = true -> lt a c = lt b c.
Hypothesis lt_eq_r_Q :
  forall a b c, Q a -> Q b -> Q c -> eq b c = true -> lt a b = lt a c.
Hypothesis lt_not_eq_Q :
  forall a b, Q a -> Q b -> lt a b = Ok true -> eq a b = false.
Hypothesis lt_asym_Q :
  forall a b, Q a -> Q b -> lt a b = Ok true -> lt b a = Ok false.
Hypothesis lt_total_Q :
  forall a b, Q a -> Q b -> lt a b = Ok false -> eq a b = false -> lt b a = Ok true.
Hypothesis lt_trans_Q :
  forall a b c, Q a -> Q b -> Q c ->
                lt a b = Ok true -> lt b c = Ok true -> lt a c = Ok true.

Lemma eq_comm_Q a b : Q a -> Q b -> eq a b = eq b a.
Proof.
  intros Ha Hb. destruct (eq a b) eqn:E1, (eq b a) eqn:E2; auto.
  - apply eq_sym_Q in E1; auto. congruence.
  - apply eq_sym_Q in E2; auto. congruence.
Qed.

Lemma eq_cong_l_Q a b c : Q a -> Q b -> Q c -> eq a b = true -> eq a c = eq b c.
Proof.
  intros Ha Hb Hc E. destruct (eq a c) eqn:E1, (eq b c) eqn:E2; auto.
  - assert (eq b c = true); [|congruence].
    apply (eq_trans_Q b a c); auto.
  - assert (eq a c = true); [|congruence].
    apply (eq_trans_Q a b c); auto.
Qed.

Lemma eq_cong_r_Q a b c : Q a -> Q b -> Q c -> eq b c = true -> eq a b = eq a c.
Proof.
  intros Ha Hb Hc E. rewrite (eq_comm_Q a b), (eq_comm_Q a c); auto.
  apply eq_cong_l_Q; auto.
Qed.

Lemma list_eq_refl l : Forall Q l -> list_eq eq l l = true.
Proof.
  induction 1 as [|a l Ha _ IH]; simpl; auto.
  rewrite eq_refl_Q; auto.
Qed.

Lemma list_eq_sym l m :
  Forall Q l -> Forall Q m -> list_eq eq l m = true -> list_eq eq m l = true.
Proof.
  intros Hl. revert m. induction Hl as [|a l Ha _ IH]; intros [|b m] Hm; simpl; auto.
  inversion Hm; subst. intros E. apply andb_true_iff in E as [E1 E2].
  rewrite (eq_sym_Q a b), IH; auto.
Qed.

Lemma list_eq_trans l m n :
  Forall Q l -> Forall Q m -> Forall Q n ->
  list_eq eq l m = true -> list_eq eq m n = true -> list_eq eq l n = true.
Proof.
  intros Hl. revert m n.
  induction Hl as [|a l Ha _ IH]; intros [|b m] [|c n] Hm Hn; simpl; auto;
    try discriminate.
  inversion Hm; inversion Hn; subst. intros E G.
  apply andb_true_iff in E as [E1 E2]. apply andb_true_iff in G as [G1 G2].
  rewrite (eq_trans_Q a b c), (IH m n); auto.
Qed.

Lemma list_lt_eq_l l m n :
  Forall Q l -> Forall Q m -> Forall Q n ->
  list_eq eq l m = true -> list_lt eq lt l n = list_lt eq lt m n.
Proof.
  intros Hl. revert m n.
  induction Hl as [|a l Ha _ IH]; intros [|b m] [|c n] Hm Hn; simpl; auto;
    try discriminate.
  inversion Hm; inversion Hn; subst. intros E.
  apply andb_true_iff in E as [E1 E2].
  rewrite (eq_cong_l_Q a b c), (lt_eq_l_Q a b c), (IH m n); auto.
Qed.

Lemma list_lt_eq_r l m n :
  Forall Q l -> Forall Q m -> Forall Q n ->
  list_eq eq m n = true -> list_lt eq lt l m = list_lt eq lt l n.
Proof.
  intros Hl. revert m n.
  induction Hl as [|a l Ha _ IH]; intros [|b m] [|c n] Hm Hn; simpl; auto;
    try discriminate.
  inversion Hm; inversion Hn; subst. intros E.
  apply andb_true_iff in E as [E1 E2].
  rewrite (eq_cong_r_Q a b c), (lt_eq_r_Q a b c), (IH m n); auto.
Qed.

Lemma list_lt_not_eq l m :
  Forall Q l -> Forall Q m -> list_lt eq lt l m = Ok true -> list_eq eq l m = false.
Proof.
  intros Hl. revert m.
  induction Hl as [|a l Ha _ IH]; intros [|b m] Hm; simpl; auto; try discriminate.
  inversion Hm; subst. destruct (eq a b) eqn:E; simpl; auto.
Qed.

Lemma list_lt_asym l m :
  Forall Q l -> Forall Q m -> list_lt eq lt l m = Ok true -> list_lt eq lt m l = Ok false.
Proof.
  intros Hl. revert m.
  induction Hl as [|a l Ha _ IH]; intros [|b m] Hm; simpl; auto; try discriminate.
  inversion Hm; subst. rewrite (eq_comm_Q b a) by auto.
  destruct (eq a b) eqn:E; auto.
Qed.

Lemma list_lt_total l m :
  Forall Q l -> Forall Q m ->
  list_lt eq lt l m = Ok false -> list_eq eq l m = false ->
  list_lt eq lt m l = Ok true.
Proof.
  intros Hl. revert m.
  induction Hl as [|a l Ha _ IH]; intros [|b m] Hm; simpl; auto; try discriminate.
  inversion Hm; subst. rewrite (eq_comm_Q b a) by auto.
  destruct (eq a b) eqn:E; simpl; auto.
Qed.

Lemma list_lt_trans l m n :
  Forall Q l -> Forall Q m -> Forall Q n ->
  list_lt eq lt l m = Ok true -> list_lt eq lt m n = Ok true ->
  list_lt eq lt l n = Ok true.
Proof.
  intros Hl. revert m n.
  induction Hl as [|a l Ha _ IH]; intros [|b m] [|c n] Hm Hn; simpl; auto;
    try discriminate.
  inversion Hm; inversion Hn; subst.
  destruct (eq a b) eqn:E1; destruct (eq b c) eqn:E2; intros H G.
  - rewrite (eq_trans_Q a b c); auto. apply (IH m n); auto.
  - rewrite (eq_cong_l_Q a b c), E2, (lt_eq_l_Q a b c); auto.
  - rewrite <- (eq_cong_r_Q a b c), E1, <- (lt_eq_r_Q a b c); auto.
  - assert (L : lt a c = Ok true) by (apply (lt_trans_Q a b c); auto).
    rewrite (lt_not_eq_Q a c); auto.
Qed.

End ListOrder.

Section DictEquality.

Context {V : Type} (eq : V -> V -> bool) (Q : V -> Prop).

Hypothesis eq_refl_Q : forall a, Q a -> eq a a = true.
Hypothesis eq_sym_Q : forall a b, Q a -> Q b -> eq a b = true -> eq b a = true.
Hypothesis eq_trans_Q :
  forall a b c, Q a -> Q b -> Q c -> eq a b = true -> eq b c = true -> eq a c = true.

Lemma dict_get_In (d : list (string * V)) k v : dict_get d k = Some v -> In (k, v) d.
Proof.
  induction d as [|[k' v'] d IH]; simpl; [discriminate|].
  destruct (k' =? k)%string eqn:E.
  - apply String.eqb_eq in E. intros [= <-]. subst. now left.
  - intros H. right. auto.
Qed.

Lemma dict_get_NoDup (d : list (string * V)) k v :
  NoDup (map fst d) -> In (k, v) d -> dict_get d k = Some v.
Proof.
  induction d as [|[k' v'] d IH]; simpl; [tauto|].
  intros Hnd [H|H].
  - injection H as -> ->. now rewrite String.eqb_refl.
  - inversion Hnd as [|? ? Hk Hd]; subst.
    destruct (k' =? k)%string eqn:E; [|auto].
    apply String.eqb_eq in E. subst. exfalso. apply Hk.
    change k with (fst (k, v)). now apply in_map.
Qed.

Lemma dict_get_key (d : list (string * V)) k :
  In k (map fst d) -> exists v, dict_get d k = Some v.
Proof.
  induction d as [|[k' v'] d IH]; simpl; [tauto|].
  destruct (k' =? k)%string eqn:E; [eauto|].
  intros [H|H]; [|auto]. subst. rewrite String.eqb_refl in E. discriminate.
Qed.

Lemma dict_eq_spec (d e : list (string * V)) :
  dict_eq eq d e = true <->
  List.length d = List.length e /\
  forall k v, In (k, v) d -> exists w, dict_get e k = Some w /\ eq v w = true.
Proof.
  unfold dict_eq. rewrite andb_true_iff, Nat.eqb_eq, forallb_forall. split.
  - intros [Hlen H]. split; auto. intros k v Hin. specialize (H _ Hin). simpl in H.
    destruct (dict_get e k); [eauto|discriminate].
  - intros [Hlen H]. split; auto. intros [k v] Hin. simpl.
    destruct (H _ _ Hin) as (w & -> & E). exact E.
Qed.

Lemma dict_eq_refl (d : list (string * V)) :
  NoDup (map fst d) -> Forall (fun kv => Q (snd kv)) d -> dict_eq eq d d = true.
Proof.
  intros Hnd Hd. apply dict_eq_spec. split; auto. intros k v Hin.
  exists v. split; [now apply dict_get_NoDup|].
  rewrite Forall_forall in Hd. apply eq_refl_Q. exact (Hd _ Hin).
Qed.

Lemma dict_eq_sym (d e : list (string * V)) :
  NoDup (map fst d) -> NoDup (map fst e) ->
  Forall (fun kv => Q (snd kv)) d -> Forall (fun kv => Q (snd kv)) e ->
  dict_eq eq d e = true -> dict_eq eq e d = true.
Proof.
  intros Hnd Hne Hd He H. apply dict_eq_spec in H as [Hlen H].
  apply dict_eq_spec. split; auto. intros k w Hin.
  assert (Hincl : incl (map fst e) (map fst d)).
  { apply NoDup_length_incl; auto.
    - rewrite !length_map. lia.
    - intros k' Hk'. apply in_map_iff in Hk' as ([k'' v] & <- & Hkv).
      destruct (H _ _ Hkv) as (w' & Hw' & _). apply dict_get_In in Hw'.
      change (fst (k'', v)) with (fst (k'', w')). now apply in_map. }
  assert (Hk : In k (map fst d))
    by (apply Hincl; change k with (fst (k, w)); now apply in_map).
  destruct (dict_get_key _ _ Hk) as (v & Hv). exists v. split; auto.
  pose proof (dict_get_In _ _ _ Hv) as Hkv.
  destruct (H _ _ Hkv) as (w' & Hw' & E).
  rewrite (dict_get_NoDup _ _ _ Hne Hin) in Hw'. injection Hw' as <-.
  rewrite Forall_forall in Hd, He.
  apply eq_sym_Q; auto; [exact (Hd _ Hkv) | exact (He _ Hin)].
Qed.

Lemma dict_eq_trans (d e f : list (string * V)) :
  Forall (fun kv => Q (snd kv)) d -> Forall (fun kv => Q (snd kv)) e ->
  Forall (fun kv => Q (snd kv)) f ->
  dict_eq eq d e = true -> dict_eq eq e f = true -> dict_eq eq d f = true.
Proof.
  intros Hd He Hf H G.
  apply dict_eq_spec in H as [Hlen H]. apply dict_eq_spec in G as [Glen G].
  apply dict_eq_spec. split; [congruence|]. intros k v Hin.
  destruct (H _ _ Hin) as (w & Hw & E1).
  pose proof (dict_get_In _ _ _ Hw) as Hkw.
  destruct (G _ _ Hkw) as (u & Hu & E2).
  exists u. split; auto.
  rewrite Forall_forall in Hd, He, Hf.
  apply (eq_trans_Q v w u); auto;
    [exact (Hd _ Hin) | exact (He _ Hkw) | exact (Hf _ (dict_get_In _ _ _ Hu))].
Qed.

End DictEquality.

Lemma Qlt_bool_iff p q : Qlt_bool p q = true <-> (p < q)%Q.
Proof.
  unfold Qlt_bool. rewrite Qlt_alt. destruct (p ?= q)%Q; split; congruence.
Qed.

Lemma Qlt_bool_false p q : Qlt_bool p q = false <-> (q <= p)%Q.
Proof.
  rewrite <- not_true_iff_false, Qlt_bool_iff. split.
  - apply Qnot_lt_le.
  - intros H G. apply (Qlt_not_le _ _ G H).
Qed.

Lemma Qlt_bool_eq_l p q r : Qeq_bool p q = true -> Qlt_bool p r = Qlt_bool q r.
Proof.
  intros E. apply Qeq_bool_iff in E.
  destruct (Qlt_bool p r) eqn:E1, (Qlt_bool q r) eqn:E2; auto;
    rewrite ?Qlt_bool_iff, ?Qlt_bool_false in *; lra.
Qed.

Lemma Qlt_bool_eq_r p q r : Qeq_bool q r = true -> Qlt_bool p q = Qlt_bool p r.
Proof.
  intros E. apply Qeq_bool_iff in E.
  destruct (Qlt_bool p q) eqn:E1, (Qlt_bool p r) eqn:E2; auto;
    rewrite ?Qlt_bool_iff, ?Qlt_bool_false in *; lra.
Qed.

Lemma Qeq_bool_false p q : Qeq_bool p q = false <-> ~ (p == q)%Q.
Proof. rewrite <- not_true_iff_false, Qeq_bool_iff. reflexivity. Qed.

Lemma string_ltb_total (s t : string) :
  String.ltb s t = false -> (s =? t)%string = false -> String.ltb t s = true.
Proof.
  unfold String.ltb. rewrite (String.compare_antisym t s). intros H E.
  destruct (String.compare s t) eqn:C; simpl; auto; try discriminate.
  apply String.compare_eq_iff in C. subst. now rewrite String.eqb_refl in E.
Qed.

Lemma string_ltb_trans (s t u : string) :
  String.ltb s t = true -> String.ltb t u = true -> String.ltb s u = true.
Proof.
  rewrite !string_ltb_lt. apply String_as_OT.lt_trans.
Qed.

Lemma rich_eq_view x y : rich_eq x y = view_eq (view_of x) (view_of y).
Proof. destruct x, y; reflexivity. Qed.

Lemma rich_lt_view x y : rich_lt x y = view_lt (view_of x) (view_of y).
Proof. destruct x, y; reflexivity. Qed.

Lemma level_view n x :
  level (S n) x <->
  match view_of x with
  | ListV l => Forall (level n) l
  | DictV d => NoDup (map fst d) /\ Forall (fun kv => level n (snd kv)) d
  | _ => True
  end.
Proof. destruct x; simpl; tauto. Qed.

Ltac views :=
  repeat match goal with
         | H : level (S _) _ |- _ => apply level_view in H
         end;
  rewrite ?rich_eq_view, ?rich_lt_view in *;
  repeat match goal with
         | |- context [view_of ?x] => destruct (view_of x)
         | H : context [view_of ?x] |- _ => destruct (view_of x)
         end;
  simpl in *; try discriminate; try tauto; try congruence.

Lemma ordered_step n : ordered_on (level n) -> ordered_on (level (S n)).
Proof.
  intros IH. constructor.
  - (* reflexive *)
    intros a Ha. views.
    + apply Qeq_bool_iff. reflexivity.
    + apply String.eqb_refl.
    + eapply (list_eq_refl _ (level n)); try apply IH; eauto.
    + destruct Ha. eapply (dict_eq_refl _ (level n)); try apply IH; eauto.
  - (* symmetric *)
    intros a b Ha Hb E. views.
    + apply Qeq_bool_iff. apply Qeq_bool_iff in E. now symmetry.
    + now rewrite String.eqb_sym.
    + eapply (list_eq_sym _ (level n)); try apply IH; eauto.
    + destruct Ha, Hb. eapply (dict_eq_sym _ (level n)); try apply IH; eauto.
  - (* transitive *)
    intros a b c Ha Hb Hc E G. views.
    + apply Qeq_bool_iff. apply Qeq_bool_iff in E. apply Qeq_bool_iff in G.
      now rewrite E.
    + apply String.eqb_eq in E. apply String.eqb_eq in G. subst.
      apply String.eqb_refl.
    + match type of E with
      | list_eq _ _ ?mid = true =>
          apply (list_eq_trans _ (level n)) with (m := mid); try apply IH; auto
      end.
    + destruct Ha, Hb, Hc.
      match type of E with
      | dict_eq _ _ ?mid = true =>
          apply (dict_eq_trans _ (level n)) with (e := mid); try apply IH; auto
      end.
  - (* equal on the left *)
    intros a b c Ha Hb Hc E. views.
    + f_equal. now apply Qlt_bool_eq_l.
    + apply String.eqb_eq in E. now subst.
    + eapply (list_lt_eq_l _ _ (level n)); try apply IH; eauto.
  - (* equal on the right *)
    intros a b c Ha Hb Hc E. views.
    + f_equal. now apply Qlt_bool_eq_r.
    + apply String.eqb_eq in E. now subst.
    + eapply (list_lt_eq_r _ _ (level n)); try apply IH; eauto.
  - (* smaller is not equal *)
    intros a b Ha Hb L. views.
    + injection L as L. apply Qlt_bool_iff in L. apply Qeq_bool_false. lra.
    + injection L as L. destruct (s =? s0)%string eqn:E; auto.
      apply String.eqb_eq in E. subst. now rewrite string_ltb_irrefl in L.
    + eapply (list_lt_not_eq _ _ (level n)); try apply IH; eauto.
  - (* asymmetric *)
    intros a b Ha Hb L. views.
    + injection L as L. f_equal. apply Qlt_bool_iff in L. apply Qlt_bool_false. lra.
    + injection L as L. f_equal. now apply string_ltb_asym.
    + eapply (list_lt_asym _ _ (level n)); try apply IH; eauto.
  - (* total *)
    intros a b Ha Hb L E. views.
    + injection L as L. f_equal. apply Qlt_bool_false in L.
      apply Qeq_bool_false in E. apply Qlt_bool_iff.
      apply Qnot_le_lt. intros H. apply E. lra.
    + injection L as L. f_equal. now apply string_ltb_total.
    + eapply (list_lt_total _ _ (level n)); try apply IH; eauto.
  - (* transitive *)
    intros a b c Ha Hb Hc L G. views.
    + injection L as L. injection G as G. f_equal.
      rewrite Qlt_bool_iff in *. lra.
    + injection L as L. injection G as G. f_equal.
      eapply string_ltb_trans; [exact L | exact G].
    + match type of L with
      | list_lt _ _ _ ?mid = Ok true =>
          apply (list_lt_trans _ _ (level n)) with (m := mid); try apply IH; auto
      end.
Qed.

Lemma ordered_level n : ordered_on (level n).
Proof.
  induction n as [|n IH]; [|now apply ordered_step].
  constructor; simpl; intros; contradiction.
Qed.

Lemma level_le n m x : (n <= m)%nat -> level n x -> level m x.
Proof.
  revert m x. induction n as [|n IH]; intros m x Hle; [simpl; tauto|].
  destruct m as [|m]; [lia|]. assert (Hnm : (n <= m)%nat) by lia.
  destruct x; simpl; auto.
  - intros H. eapply Forall_impl; [|exact H]. intros a. now apply IH.
  - intros [Hnd H]. split; auto.
    eapply Forall_impl; [|exact H]. intros a. now apply IH.
Qed.

Lemma pyobj_nested_ind (P : pyobj -> Prop) :
  P VNone -> (forall b, P (VBool b)) -> (forall z, P (VInt z)) ->
  (forall q, P (VFloat q)) -> (forall s, P (VStr s)) ->
  (forall l, Forall P l -> P (VList l)) ->
  (forall d, Forall (fun kv => P (snd kv)) d -> P (VDict d)) ->
  forall x, P x.
Proof.
  intros HN HB HI HF HS HL HD. fix IH 1. intros [ |b|z|q|s|l|d].
  - exact HN.
  - apply HB.
  - apply HI.
  - apply HF.
  - apply HS.
  - apply HL. induction l as [|a l IHl]; constructor; [apply IH|exact IHl].
  - apply HD. induction d as [|kv d IHd]; constructor; [apply IH|exact IHd].
Qed.

Lemma well_formed_list l : well_formed (VList l) <-> Forall well_formed l.
Proof.
  simpl. induction l as [|a l IH]; simpl.
  - split; auto.
  - rewrite IH. split; [intros []; now constructor | now inversion 1].
Qed.

Lemma well_formed_dict d :
  well_formed (VDict d) <->
  NoDup (map fst d) /\ Forall (fun kv => well_formed (snd kv)) d.
Proof.
  simpl. apply and_iff_compat_l. induction d as [|a l IH]; simpl.
  - split; auto.
  - rewrite IH. split; [intros []; now constructor | now inversion 1].
Qed.

Lemma Forall_level (A : Type) (f : A -> pyobj) (l : list A) :
  Forall (fun a => exists n, level n (f a)) l ->
  exists n, Forall (fun a => level n (f a)) l.
Proof.
  induction 1 as [|a l [n Hn] _ [m Hm]].
  - exists 0%nat. constructor.
  - exists (Nat.max n m). constructor.
    + apply (level_le n); auto. lia.
    + eapply Forall_impl; [|exact Hm]. intros b. apply level_le. lia.
Qed.

Lemma well_formed_level x : well_formed x -> exists n, level n x.
Proof.
  induction x as [ |b|z|q|s|l IH|d IH] using pyobj_nested_ind;
    try (exists 1%nat; exact I).
  - intros H. apply well_formed_list in H.
    destruct (Forall_level _ (fun a => a) l) as [n Hn].
    { rewrite Forall_forall in *. intros a Ha. apply IH; auto. }
    exists (S n). exact Hn.
  - intros H. apply well_formed_dict in H as [Hnd H].
    destruct (Forall_level _ snd d) as [n Hn].
    { rewrite Forall_forall in *. intros a Ha. apply IH; auto. }
    exists (S n). split; auto.
Qed.

(** The well-formed values are ordered. *)
Lemma ordered_well_formed : ordered_on well_formed.
Proof.
  assert (H2 : forall a b, well_formed a -> well_formed b ->
                           exists n, level n a /\ level n b).
  { intros a b Ha Hb.
    destruct (well_formed_level a Ha) as [n Hn].
    destruct (well_formed_level b Hb) as [m Hm].
    exists (Nat.max n m). split; [apply (level_le n)|apply (level_le m)]; auto; lia. }
  assert (H3 : forall a b c, well_formed a -> well_formed b -> well_formed c ->
                             exists n, level n a /\ level n b /\ level n c).
  { intros a b c Ha Hb Hc.
    destruct (H2 a b Ha Hb) as (n & Hn1 & Hn2).
    destruct (well_formed_level c Hc) as [m Hm].
    exists (Nat.max n m).
    repeat split; [apply (level_le n)|apply (level_le n)|apply (level_le m)];
      auto; lia. }
  constructor.
  - intros a Ha. destruct (well_formed_level a Ha) as [n Hn].
    now apply (oo_refl _ (ordered_level n)).
  - intros a b Ha Hb. destruct (H2 a b Ha Hb) as (n & ? & ?).
    now apply (oo_sym _ (ordered_level n)).
  - intros a b c Ha Hb Hc. destruct (H3 a b c Ha Hb Hc) as (n & ? & ? & ?).
    now apply (oo_trans _ (ordered_level n)).
  - intros a b c Ha Hb Hc. destruct (H3 a b c Ha Hb Hc) as (n & ? & ? & ?).
    now apply (oo_lt_eq_l _ (ordered_level n)).
  - intros a b c Ha Hb Hc. destruct (H3 a b c Ha Hb Hc) as (n & ? & ? & ?).
    now apply (oo_lt_eq_r _ (ordered_level n)).
  - intros a b Ha Hb. destruct (H2 a b Ha Hb) as (n & ? & ?).
    now apply (oo_lt_not_eq _ (ordered_level n)).
  - intros a b Ha Hb. destruct (H2 a b Ha Hb) as (n & ? & ?).
    now apply (oo_lt_asym _ (ordered_level n)).
  - intros a b Ha Hb. destruct (H2 a b Ha Hb) as (n & ? & ?).
    now apply (oo_lt_total _ (ordered_level n)).
  - intros a b c Ha Hb Hc. destruct (H3 a b c Ha Hb Hc) as (n & ? & ? & ?).
    now apply (oo_lt_trans _ (ordered_level n)).
Qed.

(** ** Sorting with keys that may not be comparable *)

Section SortOn.

Context {A : Type} (lt : A -> A -> bool) (S : A -> Prop).

Let ge (x y : A) : Prop := lt x y = false.

Hypothesis lt_asym_on :
  forall x y, S x -> S y -> lt x y = true -> lt y x = false.
Hypothesis ge_trans_on :
  forall x y z, S x -> S y -> S z -> ge x y -> ge y z -> ge x z.

Lemma insert_reverse_sorted_on x l :
  S x -> Forall S l -> StronglySorted ge l ->
  StronglySorted ge (insert_reverse lt x l).
Proof.
  intros Hx Hl Hs. induction Hs as [|y l Hs IH Hy]; simpl.
  - repeat constructor.
  - inversion Hl as [|? ? Sy Sl]; subst.
    destruct (lt x y) eqn:E.
    + constructor; auto.
      apply (Permutation_Forall (Permutation_sym (insert_reverse_perm lt x l))).
      constructor; auto. now apply lt_asym_on.
    + constructor; [now constructor|]. constructor; auto.
      rewrite Forall_forall in *. intros z Hz.
      apply (ge_trans_on x y z); auto.
Qed.

Lemma sort_reverse_sorted_on l :
  Forall S l -> StronglySorted ge (sort_reverse lt l).
Proof.
  induction 1 as [|x l Hx Hl IH]; [constructor|].
  unfold sort_reverse in *. simpl. apply insert_reverse_sorted_on; auto.
  apply (Permutation_Forall (Permutation_sym (sort_reverse_perm lt l))). exact Hl.
Qed.

End SortOn.

Lemma ForallOrdPairs_perm {A : Type} (R : A -> A -> Prop) (l l' : list A) :
  (forall x y, R x y -> R y x) ->
  Permutation l l' -> ForallOrdPairs R l -> ForallOrdPairs R l'.
Proof.
  intros Hsym Hperm. induction Hperm as [|x l l' Hp IH|x y l|l l' l'' H1 IH1 H2 IH2];
    intros H; auto.
  - inversion H as [|? ? Hx Hl]; subst. constructor; auto.
    now apply (Permutation_Forall Hp).
  - inversion H as [|? ? Hy Hl]; subst. inversion Hl as [|? ? Hx Hl']; subst.
    inversion Hy as [|? ? Ryx Hy']; subst.
    constructor; [constructor; auto|]. now constructor.
Qed.

Lemma StronglySorted_pairs {A : Type} (R R' : A -> A -> Prop) (l : list A) :
  StronglySorted R l -> ForallOrdPairs R' l ->
  StronglySorted (fun x y => R x y /\ R' x y) l.
Proof.
  induction 1 as [|x l Hs IH Hx]; intros H; constructor;
    inversion H as [|? ? Hx' Hl]; subst; auto.
  rewrite Forall_forall in *. auto.
Qed.

(** The two keys can be compared, in both directions. *)
Lemma comparable_pairs (keys : list pyobj) (u : unit) :
  comparable keys = Ok u ->
  ForallOrdPairs (fun a b => exists r r', rich_lt a b = Ok r /\ rich_lt b a = Ok r')
                 keys.
Proof.
  revert u. induction keys as [|k keys IH]; simpl; intros u H; [constructor|].
  apply bind_ok in H as (checked & Hk & H). constructor; [|eauto].
  clear H IH. revert checked Hk.
  generalize tt. induction keys as [|k' keys IH]; simpl; intros u0 checked H;
    [constructor|].
  apply bind_ok in H as (u1 & Hk' & H).
  apply bind_ok in Hk' as (below & Hbelow & Hk').
  apply bind_ok in Hk' as (above & Habove & _).
  constructor; eauto.
Qed.

Lemma lt_bool_irrefl (k : pyobj) : well_formed k -> lt_bool k k = false.
Proof.
  intros Hk. unfold lt_bool. destruct (rich_lt k k) as [[|]|] eqn:E; auto.
  pose proof (oo_lt_not_eq _ ordered_well_formed k k Hk Hk E) as H.
  rewrite (oo_refl _ ordered_well_formed k Hk) in H. discriminate.
Qed.

Lemma lt_bool_asym (a b : pyobj) :
  well_formed a -> well_formed b -> lt_bool a b = true -> lt_bool b a = false.
Proof.
  intros Ha Hb. unfold lt_bool.
  destruct (rich_lt a b) as [[|]|] eqn:E; try discriminate. intros _.
  now rewrite (oo_lt_asym _ ordered_well_formed a b Ha Hb E).
Qed.

(** Among keys that can be compared, not being smaller is transitive. *)
Lemma lt_bool_ge_trans (a b c : pyobj) :
  well_formed a -> well_formed b -> well_formed c ->
  (a = b \/ exists r r', rich_lt a b = Ok r /\ rich_lt b a = Ok r') ->
  (b = c \/ exists r r', rich_lt b c = Ok r /\ rich_lt c b = Ok r') ->
  lt_bool a b = false -> lt_bool b c = false -> lt_bool a c = false.
Proof.
  intros Ha Hb Hc [->|(r1 & r1' & D1 & D1')]; auto.
  intros [->|(r2 & r2' & D2 & D2')]; auto.
  unfold lt_bool. rewrite D1, D2. intros -> ->.
  destruct (rich_lt a c) as [[|]|] eqn:E; auto. exfalso.
  destruct r1'.
  - pose proof (oo_lt_trans _ ordered_well_formed b a c Hb Ha Hc D1' E).
    congruence.
  - destruct (rich_eq a b) eqn:Eab.
    + rewrite (oo_lt_eq_l _ ordered_well_formed a b c Ha Hb Hc Eab) in E.
      congruence.
    + pose proof (oo_lt_total _ ordered_well_formed a b Ha Hb D1 Eab).
      congruence.
Qed.

(** What [sort(key=..., reverse=True)] guarantees when it returns: a
    rearrangement in which, for well-formed keys, no item has a smaller key
    than a later one, and which keeps the order of the items of any class
    whose keys are not smaller than each other. *)
Lemma py_sort_reverse_spec {A : Type} (key : A -> pyobj) (l sorted : list A) :
  py_sort_reverse key l = Ok sorted ->
  Permutation sorted l /\
  (Forall (fun a => well_formed (key a)) l ->
   StronglySorted (fun a b => rich_lt (key a) (key b) = Ok false) sorted) /\
  (forall f : A -> bool,
      (forall x y, In x l -> In y l -> f x = true -> f y = true ->
                   lt_bool (key x) (key y) = false) ->
      filter f sorted = filter f l).
Proof.
  unfold py_sort_reverse. intros H.
  apply bind_ok in H as (checked & Hcmp & [= <-]).
  set (lt := fun a b : A => lt_bool (key a) (key b)).
  pose proof (sort_reverse_perm lt l) as Hperm.
  split; [exact Hperm|]. split.
  - intros Hwf.
    apply comparable_pairs in Hcmp.
    set (D := fun a b : A => exists r r', rich_lt (key a) (key b) = Ok r
                                          /\ rich_lt (key b) (key a) = Ok r').
    assert (HD : ForallOrdPairs D l).
    { clear - Hcmp. subst D. induction l as [|a l IH]; [constructor|].
      simpl in Hcmp. inversion Hcmp as [|? ? Ha Hl]; subst.
      constructor; auto. rewrite Forall_map in Ha. exact Ha. }
    assert (Dsym : forall x y, D x y -> D y x).
    { intros x y (r & r' & H1 & H2). exists r', r. auto. }
    assert (HD' : ForallOrdPairs D (sort_reverse lt l))
      by (apply (ForallOrdPairs_perm D l); auto; now apply Permutation_sym).
    assert (Hs : StronglySorted (fun x y => lt x y = false) (sort_reverse lt l)).
    { apply (sort_reverse_sorted_on lt (fun a => In a l)).
      - intros x y Hx Hy. rewrite Forall_forall in Hwf.
        apply lt_bool_asym; auto.
      - intros x y z Hx Hy Hz. rewrite Forall_forall in Hwf. unfold lt.
        apply lt_bool_ge_trans; auto.
        + destruct (ForallOrdPairs_In HD _ _ Hx Hy) as [->|[H|H]];
            [now left | right; exact H | right; exact (Dsym _ _ H)].
        + destruct (ForallOrdPairs_In HD _ _ Hy Hz) as [->|[H|H]];
            [now left | right; exact H | right; exact (Dsym _ _ H)].
      - rewrite Forall_forall. auto. }
    pose proof (StronglySorted_pairs _ _ _ Hs HD') as Hboth.
    clear - Hboth. induction Hboth as [|x l0 Hs IH Hx]; constructor; auto.
    eapply Forall_impl; [|exact Hx]. intros y [Hlt (r & r' & H1 & H2)].
    subst lt. unfold lt_bool in Hlt. rewrite H1 in Hlt. congruence.
  - intros f Hf. now apply filter_sort_reverse.
Qed.

(** ** Next actions *)

Lemma foldM_app {A B : Type} (f : A -> B -> result A) (l1 l2 : list B) (a : A) :
  foldM f (l1 ++ l2) a = bind (foldM f l1 a) (foldM f l2).
Proof.
  revert a. induction l1 as [|b l1 IH]; intros a; simpl; auto.
  destruct (f a b); simpl; auto.
Qed.

(** A loop that appends what its body yields keeps a property of all the
    actions it gathers. *)
Lemma foldM_collect_Forall {A B : Type} (P : A -> Prop) (g : B -> result (list A))
  (l : list B) :
  (forall x ys, In x l -> g x = Ok ys -> Forall P ys) ->
  forall acc r,
    foldM (fun acc x => ys <- g x ;; Ok (acc ++ ys)%list) l acc = Ok r ->
    Forall P acc -> Forall P r.
Proof.
  induction l as [|x l IH]; simpl; intros Hg acc r H Hacc.
  - now injection H as <-.
  - apply bind_ok in H as (acc' & Hx & H).
    apply bind_ok in Hx as (ys & Hys & [= <-]).
    apply (IH (fun x ys Hin => Hg x ys (or_intror Hin)) _ _ H).
    apply Forall_app. split; auto. apply (Hg x); auto.
Qed.

Lemma pair_lt (x y x' y' : pyobj) :
  rich_lt (VList [x; y]) (VList [x'; y']) =
  if rich_eq x x' then (if rich_eq y y' then Ok false else rich_lt y y')
  else rich_lt x x'.
Proof. reflexivity. Qed.

Lemma rich_eq_int (a b : Z) : rich_eq (VInt a) (VInt b) = (a =? b).
Proof.
  change (rich_eq (VInt a) (VInt b)) with (Qeq_bool (inject_Z a) (inject_Z b)).
  destruct (Z.eqb_spec a b) as [->|Hne].
  - apply Qeq_bool_iff. reflexivity.
  - apply Qeq_bool_false. intros E. apply Hne. now apply inject_Z_injective.
Qed.

Lemma rich_lt_int (a b : Z) : rich_lt (VInt a) (VInt b) = Ok (a <? b).
Proof.
  change (rich_lt (VInt a) (VInt b)) with (Ok (Qlt_bool (inject_Z a) (inject_Z b))).
  f_equal. destruct (Z.ltb_spec a b) as [H|H].
  - apply Qlt_bool_iff. now rewrite <- Zlt_Qlt.
  - apply Qlt_bool_false. now rewrite <- Zle_Qle.
Qed.

Lemma well_formed_get (d : dict) (k : string) (default : pyobj) :
  well_formed (VDict d) -> well_formed default ->
  well_formed (get_default d k default).
Proof.
  intros Hd Hdef. unfold get_default. destruct (dict_get d k) as [v|] eqn:E; auto.
  apply well_formed_dict in Hd as [_ Hd]. apply dict_get_In in E.
  rewrite Forall_forall in Hd. exact (Hd _ E).
Qed.

Lemma well_formed_iter (x : pyobj) (l : list pyobj) :
  well_formed x -> py_iter x = Ok l -> Forall well_formed l.
Proof.
  destruct x; simpl; try discriminate; intros H [= <-].
  - apply Forall_map. apply Forall_forall. intros c _. exact I.
  - now apply well_formed_list.
  - apply Forall_map. apply Forall_forall. intros c _. exact I.
Qed.

Section NextActionFacts.

Import Tracker.

Lemma sort_key_lt (a b : Action) :
  rich_lt (sort_key a) (sort_key b) =
  if priority_order (priority a) =? priority_order (priority b)
  then (if rich_eq (due_date a) (due_date b) then Ok false
        else rich_lt (due_date a) (due_date b))
  else Ok (priority_order (priority a) <? priority_order (priority b)).
Proof. unfold sort_key. now rewrite pair_lt, rich_eq_int, rich_lt_int. Qed.

Lemma sort_key_well_formed (a : Action) :
  well_formed (due_date a) -> well_formed (sort_key a).
Proof. simpl. tauto. Qed.

(** An action that the sort leaves before another precedes it. *)
Lemma sort_key_precedes (a b : Action) :
  sortable a -> sortable b ->
  rich_lt (sort_key a) (sort_key b) = Ok false -> precedes a b.
Proof.
  intros [Pa Wa] [Pb Wb]. rewrite sort_key_lt. unfold precedes, outranks.
  destruct Pa as [Pa|Pa], Pb as [Pb|Pb]; rewrite Pa, Pb; simpl;
    try discriminate; auto.
  - intros H. right. split; auto. unfold not_earlier.
    destruct (rich_eq (due_date a) (due_date b)) eqn:E; auto. right.
    exact (oo_lt_total _ ordered_well_formed _ _ Wa Wb H E).
  - intros H. right. split; auto. unfold not_earlier.
    destruct (rich_eq (due_date a) (due_date b)) eqn:E; auto. right.
    exact (oo_lt_total _ ordered_well_formed _ _ Wa Wb H E).
Qed.

(** Two actions of one class are not ordered by their keys. *)
Lemma with_key_lt (p : string) (d : pyobj) (a b : Action) :
  well_formed d -> well_formed (due_date a) -> well_formed (due_date b) ->
  with_key p d a = true -> with_key p d b = true ->
  lt_bool (sort_key a) (sort_key b) = false.
Proof.
  intros Wd Wa Wb Ha Hb. unfold with_key in Ha, Hb.
  apply andb_true_iff in Ha as [Pa Da]. apply andb_true_iff in Hb as [Pb Db].
  apply String.eqb_eq in Pa. apply String.eqb_eq in Pb.
  unfold lt_bool. rewrite sort_key_lt, Pa, Pb, Z.eqb_refl.
  assert (E : rich_eq (due_date a) (due_date b) = true).
  { apply (oo_trans _ ordered_well_formed _ d _); auto.
    apply (oo_sym _ ordered_well_formed); auto. }
  now rewrite E.
Qed.

(** What the sort of the actions guarantees. *)
Lemma sort_actions_spec l sorted :
  sort_actions l = Ok sorted ->
  Permutation sorted l /\
  (Forall sortable l -> StronglySorted precedes sorted) /\
  (Forall sortable l ->
   forall p d, well_formed d ->
               filter (with_key p d) sorted = filter (with_key p d) l).
Proof.
  unfold sort_actions. intros H.
  apply py_sort_reverse_spec in H as (Hperm & Hsorted & Hstable).
  split; [exact Hperm|]. split.
  - intros Hl.
    assert (Hs : Forall sortable sorted)
      by (apply (Permutation_Forall (Permutation_sym Hperm)); exact Hl).
    assert (Hkeys : Forall (fun a => well_formed (sort_key a)) l).
    { eapply Forall_impl; [|exact Hl]. intros a [_ Wa].
      now apply sort_key_well_formed. }
    specialize (Hsorted Hkeys). clear - Hsorted Hs.
    induction Hsorted as [|a l0 Hsorted IH Ha]; constructor;
      inversion Hs as [|? ? Sa Sl]; subst; auto.
    rewrite Forall_forall in *. intros b Hb.
    apply sort_key_precedes; auto.
  - intros Hl p d Wd. apply Hstable. intros x y Hx Hy Fx Fy.
    rewrite Forall_forall in Hl.
    apply (with_key_lt p d); auto; [apply (Hl x Hx) | apply (Hl y Hy)].
Qed.

Variable fromisoformat : string -> option datetime.
Variable isoformat : datetime -> string.
Variable clock : Z.

Lemma email_follow_up_sortable name email acts :
  well_formed email ->
  email_follow_up fromisoformat clock name email = Ok acts ->
  Forall sortable acts.
Proof.
  unfold email_follow_up. intros We H.
  apply bind_ok in H as (e & He & H).
  destruct email; try discriminate. injection He as <-.
  destruct (truthy _ && negb _); [|injection H as <-; constructor].
  apply bind_ok in H as (sent & Hsent & H).
  apply bind_ok in H as (delta & _ & H).
  destruct (_ && _); injection H as <-; constructor; [|constructor].
  split; simpl; auto. now apply well_formed_get.
Qed.

Lemma interview_follow_up_sortable name interview acts :
  well_formed interview ->
  interview_follow_up name interview = Ok acts ->
  Forall sortable acts.
Proof.
  unfold interview_follow_up. intros Wi H.
  apply bind_ok in H as (i & Hi & H).
  destruct interview; try discriminate. injection Hi as <-.
  destruct (eq_str _ _); [|injection H as <-; constructor].
  destruct (truthy _); injection H as <-; constructor; [|constructor].
  split; simpl; auto. now apply well_formed_get.
Qed.

Lemma company_actions_sortable (kv : string * dict) acts :
  well_formed (VDict (snd kv)) ->
  company_actions fromisoformat isoformat clock kv = Ok acts ->
  Forall sortable acts.
Proof.
  unfold company_actions. cbv zeta. intros Wd H.
  apply bind_ok in H as (emails_sent & Hiter & H).
  apply bind_ok in H as (emails & Hemails & H).
  apply bind_ok in H as (interviews & Hiter' & H).
  apply bind_ok in H as (follow_ups & Hinterviews & [= <-]).
  apply well_formed_iter in Hiter; [|now apply well_formed_get].
  apply well_formed_iter in Hiter'; [|now apply well_formed_get].
  rewrite Forall_forall in Hiter, Hiter'.
  apply Forall_app. split; [|apply Forall_app; split].
  - destruct (eq_str _ _ && negb _); repeat constructor.
  - eapply foldM_collect_Forall; [|exact Hemails|constructor].
    intros x ys Hx. apply email_follow_up_sortable. auto.
  - eapply foldM_collect_Forall; [|exact Hinterviews|constructor].
    intros x ys Hx. apply interview_follow_up_sortable. auto.
Qed.

Lemma collect_actions_sortable self collected :
  well_formed_pipeline (pipeline_data self) ->
  collect_actions fromisoformat isoformat clock self = Ok collected ->
  Forall sortable collected.
Proof.
  unfold collect_actions, well_formed_pipeline. intros Wp H.
  rewrite Forall_forall in Wp.
  eapply foldM_collect_Forall; [|exact H|constructor].
  intros kv ys Hin. apply company_actions_sortable. auto.
Qed.

End NextActionFacts.

(** C5 (next-action ordering).  Whenever the next-action list is derived
    from a pipeline (none of whose JSON objects has a key twice), it is the
    first 20 items of a rearrangement of the actions collected while the
    companies are visited, in which a higher priority comes first (high
    before medium before low), an equal or later due date comes first among
    equal priorities, and the actions of equal priority and equal due date
    stand in the order in which they were collected; so the list itself is
    sorted that way, holds at most 20 items, and lists actions of equal
    priority and due date in the order of collection.  Due dates are
    compared as Python compares them, whatever they are: strings by their
    characters, numbers by value. *)
Theorem next_actions_sorted_stable_and_bounded :
  forall (fromisoformat : string -> option datetime)
         (isoformat : datetime -> string) (clock : Z)
         (self : Tracker.PipelineTracker) (l : list Tracker.Action),
    well_formed_pipeline (Tracker.pipeline_data self) ->
    Tracker._generate_next_actions fromisoformat isoformat clock self = Ok l ->
    exists collected sorted : list Tracker.Action,
      Tracker.collect_actions fromisoformat isoformat clock self = Ok collected /\
      Permutation sorted collected /\
      StronglySorted precedes sorted /\
      (forall p d, well_formed d ->
                   filter (with_key p d) sorted = filter (with_key p d) collected) /\
      l = firstn 20 sorted /\
      (List.length l <= 20)%nat /\
      StronglySorted precedes l /\
      (forall p d, well_formed d -> exists rest,
          filter (with_key p d) collected = (filter (with_key p d) l ++ rest)%list).
Proof.
  intros fromisoformat isoformat clock self l Wp H.
  unfold Tracker._generate_next_actions in H.
  apply bind_ok in H as (collected & Hcollect & H).
  apply bind_ok in H as (sorted & Hsort & [= <-]).
  pose proof (collect_actions_sortable _ _ _ _ _ Wp Hcollect) as Hok.
  destruct (sort_actions_spec _ _ Hsort) as (Hperm & Hsorted & Hstable).
  specialize (Hsorted Hok). specialize (Hstable Hok).
  exists collected, sorted.
  split; [exact Hcollect|]. split; [exact Hperm|]. split; [exact Hsorted|].
  split; [exact Hstable|]. split; [reflexivity|].
  split; [exact (firstn_le_length 20 sorted)|].
  split; [exact (StronglySorted_firstn precedes 20 sorted Hsorted)|].
  intros p d Wd. rewrite <- (Hstable p d Wd).
  exact (filter_firstn_prefix (with_key p d) 20 sorted).
Qed.

Ltac well_formed_example :=
  repeat first [ split
               | exact I
               | apply Forall_nil
               | apply Forall_cons
               | apply NoDup_nil
               | apply NoDup_cons; [simpl; intuition discriminate|] ].

Lemma next_actions_sorted_witness :
  let self := tracker_of MoreExamples.numeric_dates_pipeline in
  exists l,
    Tracker._generate_next_actions Reference.fromisoformat Reference.isoformat
      Examples.clock self = Ok l /\
    map (fun a => (Tracker.priority a, Tracker.company a, Tracker.due_date a)) l
    = [("high", VStr "Acme", VInt 20240120);
       ("high", VStr "Globex", VFloat 20240115.5);
       ("high", VStr "Acme", VInt 20240112);
       ("medium", VStr "Globex", VStr "2024-01-03T09:00:00")] /\
    (List.length l <= 20)%nat /\
    StronglySorted precedes l.
Proof.
  intros self. eexists.
  assert (H : Tracker._generate_next_actions Reference.fromisoformat
                Reference.isoformat Examples.clock self = Ok _)
    by (vm_compute; reflexivity).
  split; [exact H|]. split; [reflexivity|].
  assert (Wp : well_formed_pipeline (Tracker.pipeline_data self))
    by (unfold well_formed_pipeline; simpl; well_formed_example).
  destruct (next_actions_sorted_stable_and_bounded _ _ _ _ _ Wp H)
    as (collected & sorted & _ & _ & _ & _ & _ & Hlen & Hsorted & _).
  split; [exact Hlen | exact Hsorted].
Defined.

(** ** Disqualification *)


Section DisqualifiedFacts.

Import Tracker.

Variable fromisoformat : string -> option datetime.
Variable isoformat : datetime -> string.
Variable clock : Z.

Lemma company_actions_disqualified (kv : string * dict) :
  dict_get (snd kv) "status" = Some (VStr "disqualified") ->
  get_default (snd kv) "emails_sent" (VList []) = VList [] ->
  get_default (snd kv) "interviews" (VList []) = VList [] ->
  company_actions fromisoformat isoformat clock kv = Ok [].
Proof.
  intros Hstatus Hemails Hinterviews. unfold company_actions. cbv zeta.
  rewrite Hemails, Hinterviews.
  replace (get_default (snd kv) "status" (VStr "unknown"))
    with (VStr "disqualified") by (unfold get_default; now rewrite Hstatus).
  reflexivity.
Qed.

Lemma collect_actions_skip self before (kv : string * dict) after :
  companies (pipeline_data self) = (before ++ kv :: after)%list ->
  company_actions fromisoformat isoformat clock kv = Ok [] ->
  collect_actions fromisoformat isoformat clock self
  = collect_actions fromisoformat isoformat clock (without_record self before after).
Proof.
  intros Hsplit Hkv. unfold collect_actions, without_record. simpl.
  rewrite Hsplit, !foldM_app.
  destruct (foldM _ before []) as [acc|e]; simpl; auto.
  rewrite Hkv. simpl. now rewrite app_nil_r.
Qed.

Lemma email_follow_up_company name email acts :
  email_follow_up fromisoformat clock name email = Ok acts ->
  Forall (fun a => company a = name) acts.
Proof.
  unfold email_follow_up. intros H.
  apply bind_ok in H as (e & _ & H).
  destruct (truthy _ && negb _); [|injection H as <-; constructor].
  apply bind_ok in H as (d & _ & H).
  apply bind_ok in H as (delta & _ & H).
  destruct ((_ >=? 7) && _); injection H as <-; repeat constructor.
Qed.

Lemma interview_follow_up_company name interview acts :
  interview_follow_up name interview = Ok acts ->
  Forall (fun a => company a = name) acts.
Proof.
  unfold interview_follow_up. intros H.
  apply bind_ok in H as (i & _ & H).
  destruct (eq_str _ _); [|injection H as <-; constructor].
  destruct (truthy _); injection H as <-; repeat constructor.
Qed.

(** Every action of a record is listed under its display name. *)
Lemma company_actions_company (kv : string * dict) acts :
  company_actions fromisoformat isoformat clock kv = Ok acts ->
  Forall (fun a => company a = display_name kv) acts.
Proof.
  unfold company_actions. cbv zeta. intros H.
  apply bind_ok in H as (emails_sent & _ & H).
  apply bind_ok in H as (emails & Hemails & H).
  apply bind_ok in H as (interviews & _ & H).
  apply bind_ok in H as (follow_ups & Hinterviews & [= <-]).
  apply Forall_app. split; [|apply Forall_app; split].
  - destruct (eq_str _ _ && negb _); repeat constructor.
  - eapply foldM_collect_Forall; [|exact Hemails|constructor].
    intros x ys _. apply email_follow_up_company.
  - eapply foldM_collect_Forall; [|exact Hinterviews|constructor].
    intros x ys _. apply interview_follow_up_company.
Qed.

Lemma collect_actions_company self collected :
  collect_actions fromisoformat isoformat clock self = Ok collected ->
  Forall (fun a => exists kv, In kv (companies (pipeline_data self))
                              /\ company a = display_name kv) collected.
Proof.
  unfold collect_actions. intros H.
  eapply foldM_collect_Forall; [|exact H|constructor].
  intros kv ys Hin Hys. apply company_actions_company in Hys.
  eapply Forall_impl; [|exact Hys]. intros a Ha. eauto.
Qed.

Lemma next_actions_company self l :
  _generate_next_actions fromisoformat isoformat clock self = Ok l ->
  Forall (fun a => exists kv, In kv (companies (pipeline_data self))
                              /\ company a = display_name kv) l.
Proof.
  unfold _generate_next_actions. intros H.
  apply bind_ok in H as (collected & Hcollect & H).
  apply bind_ok in H as (sorted & Hsort & Hl).
  assert (El : l = firstn 20 sorted) by (injection Hl; auto). clear Hl.
  apply collect_actions_company in Hcollect.
  apply sort_actions_spec in Hsort as [Hperm _].
  rewrite Forall_forall in *. intros a Ha. apply Hcollect.
  eapply Permutation_in; [exact Hperm|].
  rewrite <- (firstn_skipn 20 sorted). apply in_or_app. left. now rewrite <- El.
Qed.

End DisqualifiedFacts.

Lemma research_not_from_store self company_name force_refresh :
  answered_from_store self company_name force_refresh = false ->
  (if negb force_refresh then
     match dict_get (companies (pipeline self))
                    (replace " " "_" (lower company_name)) with
     | Some existing =>
         if truthy (get_none existing "research_completed")
         then Some existing else None
     | None => None
     end
   else None) = None.
Proof.
  unfold answered_from_store.
  destruct (negb force_refresh); simpl; auto.
  destruct (dict_get _ _) as [existing|]; auto.
  now intros ->.
Qed.

(** C4 (as stated): every research call whose sub-scores sum below the
    threshold stores the company as [disqualified].  A call for a company
    whose research is already completed, made without [force_refresh], is
    answered from the stored record whatever the scores: the sub-scores
    below sum to 20 < 28 and the record stays [researched]. *)
Lemma researched_company_is_not_disqualified :
  let self := orchestrator_of Examples.researched_pipeline in
  let outcome :=
    Orchestrator.research_company self "Acme" VNone false Examples.low_scores
      Examples.collaborators in
  (exists priority_scores,
      Orchestrator.priority_scores_of Examples.low_scores Examples.collaborators
        = Ok priority_scores /\
      py_sum (map snd priority_scores) = Ok (NInt 20) /\
      py_lt (VInt 20) (min_priority_score (config self)) = Ok true) /\
  outcome = (Ok Examples.acme_researched, self) /\
  status_of (snd outcome) "acme" = VStr "researched".
Proof.
  intros self outcome. split; [|split; reflexivity].
  eexists. repeat split; reflexivity.
Qed.

(** C4 (amended).  For every research call that is not answered from a
    stored, already completed record (the company is new, or its research
    is not completed, or [force_refresh] is set) and whose four sub-scores
    sum strictly below [min_priority_score], the record is stored and saved
    with status [disqualified], the computed score, research not completed,
    no emails and no interviews; the deep research is skipped (the
    statistics and the research notes are untouched).  And for every
    pipeline holding a [disqualified] record with no emails and no
    interviews, that record contributes no action: the derived next-action
    list is the one of the pipeline without the record, and when no other
    record bears the same display name the list holds no action, of any
    priority, for that company. *)
Theorem low_score_disqualifies_and_yields_no_action :
  (forall (self : JobSearchOrchestrator) (company_name : string)
          (role_title : pyobj) (force_refresh : bool) (scores : pyobj)
          (w : Collaborators) (priority_scores : dict) (total : number),
      answered_from_store self company_name force_refresh = false ->
      Orchestrator.priority_scores_of scores w = Ok priority_scores ->
      py_sum (map snd priority_scores) = Ok total ->
      py_lt (of_number total) (min_priority_score (config self)) = Ok true ->
      let outcome :=
        Orchestrator.research_company self company_name role_title
          force_refresh scores w in
      let company_key := replace " " "_" (lower company_name) in
      exists company_data : dict,
        fst outcome = Ok company_data /\
        dict_get (companies (pipeline (snd outcome))) company_key
          = Some company_data /\
        pipeline_file (snd outcome) = Some (pipeline (snd outcome)) /\
        dict_get company_data "status" = Some (VStr "disqualified") /\
        dict_get company_data "priority_score" = Some (of_number total) /\
        dict_get company_data "research_completed" = Some (VBool false) /\
        dict_get company_data "emails_sent" = Some (VList []) /\
        dict_get company_data "interviews" = Some (VList []) /\
        stats (pipeline (snd outcome)) = stats (pipeline self) /\
        research_notes (snd outcome) = research_notes self)
  /\
  (forall (fromisoformat : string -> option datetime)
          (isoformat : datetime -> string) (clock : Z)
          (self : Tracker.PipelineTracker)
          (before : list (string * dict)) (kv : string * dict)
          (after : list (string * dict)),
      companies (Tracker.pipeline_data self) = (before ++ kv :: after)%list ->
      dict_get (snd kv) "status" = Some (VStr "disqualified") ->
      get_default (snd kv) "emails_sent" (VList []) = VList [] ->
      get_default (snd kv) "interviews" (VList []) = VList [] ->
      Tracker.company_actions fromisoformat isoformat clock kv = Ok [] /\
      Tracker._generate_next_actions fromisoformat isoformat clock self
      = Tracker._generate_next_actions fromisoformat isoformat clock
          (without_record self before after) /\
      (forall l,
          Tracker._generate_next_actions fromisoformat isoformat clock self = Ok l ->
          Forall (fun kv' => display_name kv' <> display_name kv)
                 (before ++ after)%list ->
          Forall (fun a => Tracker.company a <> display_name kv) l)).
Proof.
  split.
  - intros self company_name role_title force_refresh scores w priority_scores
           total Hstore Hscores Hsum Hlow outcome company_key.
    subst outcome. unfold Orchestrator.research_company.
    rewrite (research_not_from_store _ _ _ Hstore), Hscores, Hsum.
    cbv zeta. rewrite Hlow.
    eexists. split; [reflexivity|]. simpl.
    split; [apply dict_get_set_same|].
    repeat split; reflexivity.
  - intros fromisoformat isoformat clock self before kv after
           Hsplit Hstatus Hemails Hinterviews.
    pose proof (company_actions_disqualified fromisoformat isoformat clock kv
                  Hstatus Hemails Hinterviews) as Hkv.
    assert (Hsame :
      Tracker._generate_next_actions fromisoformat isoformat clock self
      = Tracker._generate_next_actions fromisoformat isoformat clock
          (without_record self before after)).
    { unfold Tracker._generate_next_actions.
      now rewrite (collect_actions_skip _ _ _ self before kv after Hsplit Hkv). }
    split; [exact Hkv|]. split; [exact Hsame|].
    intros l Hl Hnames. rewrite Hsame in Hl.
    apply next_actions_company in Hl. simpl in Hl.
    rewrite Forall_forall in *. intros a Ha.
    destruct (Hl a Ha) as (kv' & Hin & ->). now apply Hnames.
Qed.

Lemma low_score_disqualifies_witness :
  (fst Examples.hooli_outcome = Ok Examples.hooli_record /\
   dict_get (companies (pipeline (snd Examples.hooli_outcome))) "hooli_labs"
     = Some Examples.hooli_record) /\
  (let self := tracker_of (pipeline (snd Examples.hooli_outcome)) in
   exists l,
     Tracker._generate_next_actions Reference.fromisoformat Reference.isoformat
       Examples.clock self = Ok l /\
     Forall (fun a => Tracker.company a <> VStr "Hooli Labs") l).
Proof.
  pose proof low_score_disqualifies_and_yields_no_action as [Hresearch Htrack].
  split.
  - pose proof (Hresearch (orchestrator_of Examples.busy_pipeline) "Hooli Labs"
                  (VStr "Senior Product Manager") false Examples.low_scores
                  Examples.collaborators
                  [("role_appeal", VInt 5); ("company_fit", VInt 5);
                   ("growth_potential", VInt 5); ("likelihood", VInt 5)]
                  (NInt 20) eq_refl eq_refl eq_refl eq_refl) as H.
    cbv zeta in H. destruct H as (company_data & Hfst & Hget & _).
    split; [reflexivity|]. reflexivity.
  - intros self.
    assert (Hl : exists l,
      Tracker._generate_next_actions Reference.fromisoformat Reference.isoformat
        Examples.clock self = Ok l) by (eexists; vm_compute; reflexivity).
    destruct Hl as [l Hl]. exists l. split; [exact Hl|].
    destruct (Htrack Reference.fromisoformat Reference.isoformat Examples.clock
                self (companies Examples.busy_pipeline)
                ("hooli_labs", Examples.hooli_record) []
                eq_refl eq_refl eq_refl eq_refl) as (_ & _ & Hnone).
    apply (Hnone l Hl).
    repeat constructor; discriminate.
Defined.

(** * Further properties of the modelled code *)

(** ** Research calls *)

Section ResearchFacts.

Import Orchestrator.

Lemma dict_update_get_none {V : Type} (d e : list (string * V)) (k : string) :
  dict_get e k = None -> dict_get (dict_update d e) k = dict_get d k.
Proof.
  unfold dict_update. revert d.
  induction e as [|[k0 v0] e IH]; intros d H; simpl in *; auto.
  destruct (k0 =? k)%string eqn:E; [discriminate|].
  rewrite IH by assumption. apply dict_get_set_other.
  now apply String.eqb_neq.
Qed.

Lemma dict_set_keys {V : Type} (d : list (string * V)) (k : string) (v v0 : V) :
  dict_get d k = Some v0 -> map fst (dict_set d k v) = map fst d.
Proof.
  induction d as [|[k' v'] d IH]; simpl; [discriminate|].
  destruct (k' =? k)%string eqn:E; simpl; auto.
  intros H. now rewrite IH.
Qed.

(** What a research call does once the company passes the qualification
    check. *)
Lemma research_qualified self company_name role_title force_refresh scores w
      priority_scores total n k :
  answered_from_store self company_name force_refresh = false ->
  priority_scores_of scores w = Ok priority_scores ->
  py_sum (map snd priority_scores) = Ok total ->
  py_lt (of_number total) (min_priority_score (config self)) = Ok false ->
  dict_get (stats (pipeline self)) "total_researched" = Some n ->
  to_number n = Ok k ->
  let company_data :=
    researched_record company_name role_title w priority_scores total in
  let p :=
    {| companies := dict_set (companies (pipeline self))
                             (research_key company_name) company_data;
       stats := dict_set (stats (pipeline self)) "total_researched"
                         (of_number (number_add k (NInt 1)));
       next_actions := next_actions (pipeline self) |} in
  let saved :=
    {| config := config self; pipeline := p; pipeline_file := Some p;
       research_notes := research_notes self |} in
  research_company self company_name role_title force_refresh scores w
  = match _generate_research_summary saved company_data with
    | Ok self' => (Ok company_data, self')
    | Raise e => (Raise e, saved)
    end.
Proof.
  intros Hstore Hscores Hsum Hpass Hn Hk company_data p saved.
  unfold research_company.
  rewrite (research_not_from_store _ _ _ Hstore), Hscores, Hsum.
  cbv zeta. rewrite Hpass.
  unfold bump_total_researched. simpl.
  rewrite Hn. simpl. rewrite Hk. simpl.
  reflexivity.
Qed.

Lemma researched_record_fields company_name role_title w priority_scores total :
  let company_data :=
    researched_record company_name role_title w priority_scores total in
  dict_get company_data "status" = Some (VStr "researched") /\
  dict_get company_data "research_completed" = Some (VBool true) /\
  dict_get company_data "qualification_passed" = Some (VBool true) /\
  dict_get company_data "network_opportunities" = Some network_data.
Proof.
  unfold researched_record. cbv zeta.
  repeat split;
    repeat (first [ apply dict_get_set_same
                  | rewrite dict_get_set_other by discriminate ]).
Qed.

(** A field that the research data does not mention keeps the value given
    to it before the data is merged. *)
Lemma researched_record_name company_name role_title w priority_scores total :
  dict_get (ai_research w) "name" = None ->
  dict_get (researched_record company_name role_title w priority_scores total)
           "name" = Some (VStr company_name).
Proof.
  intros H. unfold researched_record. cbv zeta.
  rewrite !dict_get_set_other by discriminate.
  rewrite dict_update_get_none by assumption.
  reflexivity.
Qed.

(** A research call only touches the record under its own key. *)
Lemma research_frame self company_name role_title force_refresh scores w k :
  k <> research_key company_name ->
  dict_get (companies (pipeline (snd (research_company self company_name
              role_title force_refresh scores w)))) k
  = dict_get (companies (pipeline self)) k.
Proof.
  intros Hk. unfold research_company.
  destruct (if negb force_refresh then _ else _); [reflexivity|].
  destruct (priority_scores_of scores w); [|reflexivity].
  destruct (py_sum _); [|reflexivity].
  cbv zeta.
  destruct (py_lt _ _) as [[|]|]; [| |reflexivity].
  - simpl. apply dict_get_set_other. now apply not_eq_sym.
  - unfold bump_total_researched. simpl.
    destruct (dict_get (stats (pipeline self)) "total_researched") as [n|]; simpl.
    + destruct (to_number n); simpl.
      * match goal with
        | |- context [_generate_research_summary ?s ?d] =>
            unfold _generate_research_summary;
            destruct (dict_get d "name") as [[]|]
        end; simpl; apply dict_get_set_other; now apply not_eq_sym.
      * apply dict_get_set_other. now apply not_eq_sym.
    + apply dict_get_set_other. now apply not_eq_sym.
Qed.

End ResearchFacts.

Section KeyFacts.

Lemma lower_ascii_space (c : ascii) : lower_ascii c = " "%char <-> c = " "%char.
Proof.
  split; [|now intros ->].
  destruct c as [[] [] [] [] [] [] [] []]; vm_compute; congruence.
Qed.

Lemma in_lower_space (s : string) :
  In " "%char (list_ascii_of_string (lower s)) <-> In " "%char (list_ascii_of_string s).
Proof.
  induction s as [|c s IH]; simpl; [tauto|].
  rewrite IH. split; intros [H|H]; auto; left; now apply lower_ascii_space.
Qed.

Lemma replace_space_none (s : string) :
  ~ In " "%char (list_ascii_of_string s) -> replace " " "_" s = s.
Proof.
  induction s as [|c s IH]; simpl; auto.
  intros H. destruct (Ascii.eqb_spec c " "%char) as [->|Hc].
  - exfalso. apply H. now left.
  - rewrite IH; auto.
Qed.

Lemma replace_space_gone (s : string) :
  ~ In " "%char (list_ascii_of_string (replace " " "_" s)).
Proof.
  induction s as [|c s IH]; simpl; auto.
  destruct (Ascii.eqb_spec c " "%char) as [->|Hc]; simpl.
  - intros [H|H]; [discriminate | auto].
  - intros [H|H]; [congruence | auto].
Qed.

(** The two normalisations of a company name agree exactly on the names
    without a space. *)
Lemma research_key_lower (company_name : string) :
  ~ has_space company_name -> research_key company_name = lower company_name.
Proof.
  intros H. unfold research_key. apply replace_space_none.
  now rewrite in_lower_space.
Qed.

Lemma research_key_not_lower (company_name : string) :
  has_space company_name -> lower company_name <> research_key company_name.
Proof.
  intros H E. apply (replace_space_gone (lower company_name)).
  unfold research_key in E. rewrite <- E. now apply in_lower_space.
Qed.

End KeyFacts.

(** X1.  A research call that is not answered from the store and whose
    scores reach the threshold stores the record under the normalised key
    with status [researched], research completed and qualification passed,
    whatever the research data holds; it adds 1 to [total_researched] and
    saves the pipeline.  When the research data does not overwrite the name,
    the call returns the record and writes the research notes. *)
Theorem qualified_research_stores_researched_record :
  forall (self : JobSearchOrchestrator) (company_name : string)
         (role_title : pyobj) (force_refresh : bool) (scores : pyobj)
         (w : Collaborators) (priority_scores : dict) (total : number)
         (n : pyobj) (k : number),
    answered_from_store self company_name force_refresh = false ->
    Orchestrator.priority_scores_of scores w = Ok priority_scores ->
    py_sum (map snd priority_scores) = Ok total ->
    py_lt (of_number total) (min_priority_score (config self)) = Ok false ->
    dict_get (stats (pipeline self)) "total_researched" = Some n ->
    to_number n = Ok k ->
    let outcome :=
      Orchestrator.research_company self company_name role_title
        force_refresh scores w in
    exists company_data : dict,
      dict_get (companies (pipeline (snd outcome))) (research_key company_name)
        = Some company_data /\
      dict_get company_data "status" = Some (VStr "researched") /\
      dict_get company_data "research_completed" = Some (VBool true) /\
      dict_get company_data "qualification_passed" = Some (VBool true) /\
      dict_get (stats (pipeline (snd outcome))) "total_researched"
        = Some (of_number (number_add k (NInt 1))) /\
      pipeline_file (snd outcome) = Some (pipeline (snd outcome)) /\
      (dict_get (ai_research w) "name" = None ->
       fst outcome = Ok company_data /\
       research_notes (snd outcome)
       = research_key company_name :: research_notes self).
Proof.
  intros self company_name role_title force_refresh scores w priority_scores
         total n k Hstore Hscores Hsum Hpass Hn Hk outcome.
  subst outcome.
  rewrite (research_qualified _ _ _ _ _ _ _ _ _ _ Hstore Hscores Hsum Hpass Hn Hk).
  destruct (researched_record_fields company_name role_title w priority_scores total)
    as (Hstatus & Hdone & Hpassed & _).
  exists (researched_record company_name role_title w priority_scores total).
  unfold Orchestrator._generate_research_summary.
  destruct (dict_get (researched_record _ _ _ _ _) "name") as [name|] eqn:Hname.
  - destruct name; simpl;
      (split; [apply dict_get_set_same|]);
      (split; [exact Hstatus|]); (split; [exact Hdone|]);
      (split; [exact Hpassed|]); (split; [apply dict_get_set_same|]);
      (split; [reflexivity|]);
      intros Hai;
      rewrite (researched_record_name _ _ _ _ _ Hai) in Hname;
      try discriminate.
    injection Hname as <-. split; reflexivity.
  - simpl.
    (split; [apply dict_get_set_same|]);
      (split; [exact Hstatus|]); (split; [exact Hdone|]);
      (split; [exact Hpassed|]); (split; [apply dict_get_set_same|]);
      (split; [reflexivity|]).
    intros Hai. rewrite (researched_record_name _ _ _ _ _ Hai) in Hname.
    discriminate.
Qed.

Lemma qualified_research_witness :
  let outcome :=
    Orchestrator.research_company MoreExamples.fresh "Acme Corp"
      (VStr "Growth Product Manager") false MoreExamples.high_scores
      Examples.collaborators in
  exists company_data : dict,
    fst outcome = Ok company_data /\
    dict_get (companies (pipeline (snd outcome))) "acme_corp" = Some company_data /\
    dict_get company_data "status" = Some (VStr "researched") /\
    dict_get (stats (pipeline (snd outcome))) "total_researched" = Some (VInt 1) /\
    research_notes (snd outcome) = ["acme_corp"].
Proof.
  intros outcome.
  destruct (qualified_research_stores_researched_record MoreExamples.fresh
              "Acme Corp" (VStr "Growth Product Manager") false
              MoreExamples.high_scores Examples.collaborators
              MoreExamples.high_scores_dict (NInt 34) (VInt 0) (NInt 0)
              eq_refl eq_refl eq_refl eq_refl eq_refl eq_refl)
    as (company_data & Hget & Hstatus & _ & _ & Hstats & _ & Hname).
  destruct (Hname eq_refl) as [Hfst Hnotes].
  exists company_data.
  split; [exact Hfst|]. split; [exact Hget|]. split; [exact Hstatus|].
  split; [exact Hstats | exact Hnotes].
Defined.

(** X2.  Once a company has passed the qualification check, a later research
    call without [force_refresh] is answered from the store: it returns the
    stored record and leaves the orchestrator as it is, whatever role,
    scores and collaborators it is given. *)
Theorem research_is_answered_from_store_after_success :
  forall (self : JobSearchOrchestrator) (company_name : string)
         (role_title : pyobj) (force_refresh : bool) (scores : pyobj)
         (w : Collaborators) (priority_scores : dict) (total : number)
         (n : pyobj) (k : number),
    answered_from_store self company_name force_refresh = false ->
    Orchestrator.priority_scores_of scores w = Ok priority_scores ->
    py_sum (map snd priority_scores) = Ok total ->
    py_lt (of_number total) (min_priority_score (config self)) = Ok false ->
    dict_get (stats (pipeline self)) "total_researched" = Some n ->
    to_number n = Ok k ->
    let self' :=
      snd (Orchestrator.research_company self company_name role_title
             force_refresh scores w) in
    forall (role_title' : pyobj) (scores' : pyobj) (w' : Collaborators),
      Orchestrator.research_company self' company_name role_title' false scores' w'
      = (Ok (researched_record company_name role_title w priority_scores total),
         self').
Proof.
  intros self company_name role_title force_refresh scores w priority_scores
         total n k Hstore Hscores Hsum Hpass Hn Hk self' role_title' scores' w'.
  assert (Hget : dict_get (companies (pipeline self')) (research_key company_name)
                 = Some (researched_record company_name role_title w
                           priority_scores total)).
  { subst self'.
    rewrite (research_qualified _ _ _ _ _ _ _ _ _ _ Hstore Hscores Hsum Hpass Hn Hk).
    unfold Orchestrator._generate_research_summary.
    destruct (dict_get (researched_record _ _ _ _ _) "name") as [[]|];
      simpl; apply dict_get_set_same. }
  unfold Orchestrator.research_company. fold (research_key company_name).
  simpl negb. cbv iota. rewrite Hget.
  destruct (researched_record_fields company_name role_title w priority_scores total)
    as (_ & Hdone & _).
  unfold get_none, get_default. rewrite Hdone. reflexivity.
Qed.

Lemma research_is_answered_from_store_witness :
  let self' :=
    snd (Orchestrator.research_company MoreExamples.fresh "Acme Corp"
           (VStr "Growth Product Manager") false MoreExamples.high_scores
           Examples.collaborators) in
  exists company_data,
    Orchestrator.research_company self' "Acme Corp" VNone false
      Examples.low_scores Examples.collaborators = (Ok company_data, self') /\
    dict_get company_data "status" = Some (VStr "researched").
Proof.
  intros self'. eexists. split.
  - apply (research_is_answered_from_store_after_success MoreExamples.fresh
             "Acme Corp" (VStr "Growth Product Manager") false
             MoreExamples.high_scores Examples.collaborators
             MoreExamples.high_scores_dict (NInt 34) (VInt 0) (NInt 0)
             eq_refl eq_refl eq_refl eq_refl eq_refl eq_refl).
  - reflexivity.
Defined.

(** What a research call does when the company fails the qualification
    check. *)
Lemma research_disqualified self company_name role_title force_refresh scores w
      priority_scores total :
  answered_from_store self company_name force_refresh = false ->
  Orchestrator.priority_scores_of scores w = Ok priority_scores ->
  py_sum (map snd priority_scores) = Ok total ->
  py_lt (of_number total) (min_priority_score (config self)) = Ok true ->
  exists company_data,
    Orchestrator.research_company self company_name role_title force_refresh scores w
    = (Ok company_data,
       Orchestrator.save_pipeline
         (Orchestrator.set_company self (research_key company_name) company_data))
    /\ dict_get company_data "research_completed" = Some (VBool false)
    /\ dict_get company_data "status" = Some (VStr "disqualified").
Proof.
  intros Hstore Hscores Hsum Hlow.
  unfold Orchestrator.research_company.
  rewrite (research_not_from_store _ _ _ Hstore), Hscores, Hsum.
  cbv zeta. rewrite Hlow.
  eexists. split; [reflexivity|]. split; reflexivity.
Qed.

(** X3.  A disqualified company is not answered from the store: its record
    has research not completed, so a later research call evaluates the
    scores again even without [force_refresh], and when these reach the
    threshold the company becomes [researched]. *)
Theorem disqualified_company_is_researched_again :
  forall (self : JobSearchOrchestrator) (company_name : string)
         (role_title : pyobj) (force_refresh : bool) (scores : pyobj)
         (w : Collaborators) (priority_scores : dict) (total : number),
    answered_from_store self company_name force_refresh = false ->
    Orchestrator.priority_scores_of scores w = Ok priority_scores ->
    py_sum (map snd priority_scores) = Ok total ->
    py_lt (of_number total) (min_priority_score (config self)) = Ok true ->
    let self' :=
      snd (Orchestrator.research_company self company_name role_title
             force_refresh scores w) in
    status_of self' (research_key company_name) = VStr "disqualified" /\
    answered_from_store self' company_name false = false /\
    forall (role_title' : pyobj) (scores' : pyobj) (w' : Collaborators)
           (priority_scores' : dict) (total' : number) (n : pyobj) (k : number),
      Orchestrator.priority_scores_of scores' w' = Ok priority_scores' ->
      py_sum (map snd priority_scores') = Ok total' ->
      py_lt (of_number total') (min_priority_score (config self)) = Ok false ->
      dict_get (stats (pipeline self)) "total_researched" = Some n ->
      to_number n = Ok k ->
      status_of
        (snd (Orchestrator.research_company self' company_name role_title'
                false scores' w'))
        (research_key company_name)
      = VStr "researched".
Proof.
  intros self company_name role_title force_refresh scores w priority_scores
         total Hstore Hscores Hsum Hlow self'.
  destruct (research_disqualified self company_name role_title force_refresh
              scores w priority_scores total Hstore Hscores Hsum Hlow)
    as (company_data & Hcall & Hdone & Hstatus).
  assert (Hget : dict_get (companies (pipeline self')) (research_key company_name)
                 = Some company_data).
  { subst self'. rewrite Hcall. simpl. apply dict_get_set_same. }
  assert (Hstore' : answered_from_store self' company_name false = false).
  { unfold answered_from_store. fold (research_key company_name).
    rewrite Hget. unfold get_none, get_default. now rewrite Hdone. }
  split; [|split; [exact Hstore'|]].
  - unfold status_of. rewrite Hget. unfold get_none, get_default.
    now rewrite Hstatus.
  - intros role_title' scores' w' priority_scores' total' n k
           Hscores' Hsum' Hpass' Hn Hk.
    assert (Hconfig : config self' = config self)
      by (subst self'; now rewrite Hcall).
    assert (Hstats : stats (pipeline self') = stats (pipeline self))
      by (subst self'; now rewrite Hcall).
    rewrite <- Hconfig in Hpass'. rewrite <- Hstats in Hn.
    rewrite (research_qualified _ _ _ _ _ _ _ _ _ _
               Hstore' Hscores' Hsum' Hpass' Hn Hk).
    destruct (researched_record_fields company_name role_title' w'
                priority_scores' total') as (Hresearched & _).
    unfold Orchestrator._generate_research_summary.
    destruct (dict_get (researched_record _ _ _ _ _) "name") as [[]|];
      unfold status_of; simpl; rewrite dict_get_set_same;
      unfold get_none, get_default; now rewrite Hresearched.
Qed.

Lemma disqualified_company_is_researched_again_witness :
  let self' :=
    snd (Orchestrator.research_company MoreExamples.fresh "Acme Corp" VNone
           false Examples.low_scores Examples.collaborators) in
  status_of self' "acme_corp" = VStr "disqualified" /\
  status_of
    (snd (Orchestrator.research_company self' "Acme Corp" VNone false
            MoreExamples.high_scores Examples.collaborators))
    "acme_corp" = VStr "researched".
Proof.
  intros self'.
  destruct (disqualified_company_is_researched_again MoreExamples.fresh
              "Acme Corp" VNone false Examples.low_scores Examples.collaborators
              MoreExamples.low_scores_dict (NInt 20)
              eq_refl eq_refl eq_refl eq_refl) as (Hfirst & _ & Hagain).
  split; [exact Hfirst|].
  apply (Hagain VNone MoreExamples.high_scores Examples.collaborators
           MoreExamples.high_scores_dict (NInt 34) (VInt 0) (NInt 0)
           eq_refl eq_refl eq_refl eq_refl eq_refl).
Defined.

(** X4.  The two normalisations of a company name differ: research stores
    under the lower-cased name with spaces turned into underscores, while
    [_update_pipeline_status] and [_load_company_data] look the company up
    under the lower-cased name alone.  So for a name that holds a space (and
    a pipeline without a record under the spaced key), after any research
    call the update does nothing at all and the load returns the empty
    record. *)
Theorem update_misses_company_researched_under_spaced_name :
  forall (self : JobSearchOrchestrator) (company_name : string)
         (role_title : pyobj) (force_refresh : bool) (scores : pyobj)
         (w : Collaborators) (field : string) (value : pyobj),
    has_space company_name ->
    dict_get (companies (pipeline self)) (lower company_name) = None ->
    let self' :=
      snd (Orchestrator.research_company self company_name role_title
             force_refresh scores w) in
    Orchestrator._update_pipeline_status self' company_name field value = self' /\
    Orchestrator._load_company_data self' company_name = [].
Proof.
  intros self company_name role_title force_refresh scores w field value
         Hspace Hnone self'.
  assert (Hget : dict_get (companies (pipeline self')) (lower company_name) = None).
  { subst self'. rewrite research_frame; auto.
    now apply research_key_not_lower. }
  split.
  - now apply update_absent.
  - unfold Orchestrator._load_company_data. now rewrite Hget.
Qed.

Lemma update_misses_spaced_name_witness :
  let self' :=
    snd (Orchestrator.research_company MoreExamples.fresh "Acme Corp"
           (VStr "Growth Product Manager") false MoreExamples.high_scores
           Examples.collaborators) in
  status_of self' "acme_corp" = VStr "researched" /\
  Orchestrator._update_pipeline_status self' "Acme Corp" "application_generated"
    (VBool true) = self' /\
  Orchestrator._load_company_data self' "Acme Corp" = [].
Proof.
  intros self'. split; [reflexivity|].
  apply (update_misses_company_researched_under_spaced_name MoreExamples.fresh
           "Acme Corp" (VStr "Growth Product Manager") false
           MoreExamples.high_scores Examples.collaborators
           "application_generated" (VBool true)).
  - unfold has_space. simpl. tauto.
  - reflexivity.
Defined.

(** X5.  For a name without a space the two normalisations agree, and the
    workflow composes: after a research call that passes the qualification
    check, recording the generated application moves the company to
    [applied] with [application_generated] set, recording a non-empty list
    of emails moves it on to [outreach_sent], and the load returns the
    stored record. *)
Theorem research_then_apply_then_email :
  forall (self : JobSearchOrchestrator) (company_name : string)
         (role_title : pyobj) (force_refresh : bool) (scores : pyobj)
         (w : Collaborators) (priority_scores : dict) (total : number)
         (n : pyobj) (k : number) (emails : pyobj),
    ~ has_space company_name ->
    answered_from_store self company_name force_refresh = false ->
    Orchestrator.priority_scores_of scores w = Ok priority_scores ->
    py_sum (map snd priority_scores) = Ok total ->
    py_lt (of_number total) (min_priority_score (config self)) = Ok false ->
    dict_get (stats (pipeline self)) "total_researched" = Some n ->
    to_number n = Ok k ->
    truthy emails = true ->
    let researched :=
      snd (Orchestrator.research_company self company_name role_title
             force_refresh scores w) in
    let applied :=
      Orchestrator._update_pipeline_status researched company_name
        "application_generated" (VBool true) in
    let emailed :=
      Orchestrator._update_pipeline_status applied company_name
        "emails_sent" emails in
    status_of researched (lower company_name) = VStr "researched" /\
    status_of applied (lower company_name) = VStr "applied" /\
    dict_get (Orchestrator._load_company_data applied company_name)
             "application_generated" = Some (VBool true) /\
    status_of emailed (lower company_name) = VStr "outreach_sent" /\
    dict_get (Orchestrator._load_company_data emailed company_name)
             "emails_sent" = Some emails /\
    dict_get (Orchestrator._load_company_data emailed company_name)
             "application_generated" = Some (VBool true).
Proof.
  intros self company_name role_title force_refresh scores w priority_scores
         total n k emails Hspace Hstore Hscores Hsum Hpass Hn Hk Hemails
         researched applied emailed.
  set (r := researched_record company_name role_title w priority_scores total).
  assert (Hget : dict_get (companies (pipeline researched)) (lower company_name)
                 = Some r).
  { subst researched.
    rewrite (research_qualified _ _ _ _ _ _ _ _ _ _ Hstore Hscores Hsum Hpass Hn Hk).
    rewrite <- (research_key_lower _ Hspace).
    unfold Orchestrator._generate_research_summary.
    destruct (dict_get (researched_record _ _ _ _ _) "name") as [[]|];
      simpl; apply dict_get_set_same. }
  destruct (researched_record_fields company_name role_title w priority_scores total)
    as (Hresearched & _).
  assert (Happlied : dict_get (companies (pipeline applied)) (lower company_name)
                     = Some (updated_record r "application_generated" (VBool true))).
  { subst applied. rewrite (update_present _ _ _ _ _ Hget). simpl.
    apply dict_get_set_same. }
  assert (Hemailed :
    dict_get (companies (pipeline emailed)) (lower company_name)
    = Some (updated_record (updated_record r "application_generated" (VBool true))
              "emails_sent" emails)).
  { subst emailed. rewrite (update_present _ _ _ _ _ Happlied). simpl.
    apply dict_get_set_same. }
  unfold status_of, Orchestrator._load_company_data.
  rewrite Hget, Happlied, Hemailed. subst r.
  split; [unfold get_none, get_default; now rewrite Hresearched|].
  split; [now rewrite updated_record_status by discriminate|].
  split; [apply updated_record_field|].
  split.
  { rewrite updated_record_status by discriminate. simpl. now rewrite Hemails. }
  split; [apply updated_record_field|].
  unfold updated_record at 1. simpl. rewrite Hemails.
  rewrite !dict_get_set_other by discriminate.
  apply updated_record_field.
Qed.

Lemma research_then_apply_then_email_witness :
  let researched :=
    snd (Orchestrator.research_company MoreExamples.fresh "Acme"
           (VStr "Growth Product Manager") false MoreExamples.high_scores
           Examples.collaborators) in
  let applied :=
    Orchestrator._update_pipeline_status researched "Acme"
      "application_generated" (VBool true) in
  let emailed :=
    Orchestrator._update_pipeline_status applied "Acme" "emails_sent"
      (VList [VDict [("send_date", VStr "2024-01-16T09:00:00")]]) in
  status_of researched "acme" = VStr "researched" /\
  status_of applied "acme" = VStr "applied" /\
  status_of emailed "acme" = VStr "outreach_sent".
Proof.
  intros researched applied emailed.
  assert (Hspace : ~ has_space "Acme").
  { unfold has_space. simpl. intros [H|[H|[H|[H|[]]]]]; discriminate. }
  destruct (research_then_apply_then_email MoreExamples.fresh "Acme"
              (VStr "Growth Product Manager") false MoreExamples.high_scores
              Examples.collaborators MoreExamples.high_scores_dict (NInt 34)
              (VInt 0) (NInt 0)
              (VList [VDict [("send_date", VStr "2024-01-16T09:00:00")]])
              Hspace eq_refl eq_refl eq_refl eq_refl eq_refl eq_refl eq_refl)
    as (H1 & H2 & _ & H3 & _).
  split; [exact H1|]. split; [exact H2 | exact H3].
Defined.

(** X6.  [_update_pipeline_status] never adds, removes or reorders a company
    and never touches the configuration, the statistics, the research notes
    or the record of any other company. *)
Theorem update_pipeline_status_frame :
  forall (self : JobSearchOrchestrator) (company_name field : string)
         (value : pyobj),
    let self' := Orchestrator._update_pipeline_status self company_name field value in
    map fst (companies (pipeline self')) = map fst (companies (pipeline self)) /\
    stats (pipeline self') = stats (pipeline self) /\
    next_actions (pipeline self') = next_actions (pipeline self) /\
    config self' = config self /\
    research_notes self' = research_notes self /\
    forall k, k <> lower company_name ->
              dict_get (companies (pipeline self')) k
              = dict_get (companies (pipeline self)) k.
Proof.
  intros self company_name field value self'. subst self'.
  destruct (dict_get (companies (pipeline self)) (lower company_name))
    as [company|] eqn:Hget.
  - rewrite (update_present _ _ _ _ _ Hget). simpl.
    split; [eapply dict_set_keys; eauto|].
    repeat split. intros k Hk. apply dict_get_set_other. now apply not_eq_sym.
  - rewrite (update_absent _ _ _ _ Hget). repeat split.
Qed.

Lemma update_pipeline_status_frame_witness :
  let self := orchestrator_of Examples.busy_pipeline in
  let self' :=
    Orchestrator._update_pipeline_status self "Acme" "application_generated"
      (VBool true) in
  map fst (companies (pipeline self')) = ["acme"; "globex"; "initech"; "umbrella"] /\
  dict_get (companies (pipeline self')) "globex"
  = dict_get (companies (pipeline self)) "globex".
Proof.
  intros self self'.
  pose proof (update_pipeline_status_frame self "Acme" "application_generated"
                (VBool true)) as H.
  cbv zeta in H. destruct H as (Hkeys & _ & _ & _ & _ & Hother).
  split; [exact Hkeys|]. apply Hother. discriminate.
Defined.

(** X7.  A research call, whatever its outcome, leaves the configuration and
    the record of every company but the researched one as they were. *)
Theorem research_company_frame :
  forall (self : JobSearchOrchestrator) (company_name : string)
         (role_title : pyobj) (force_refresh : bool) (scores : pyobj)
         (w : Collaborators),
    let self' :=
      snd (Orchestrator.research_company self company_name role_title
             force_refresh scores w) in
    config self' = config self /\
    forall k, k <> research_key company_name ->
              dict_get (companies (pipeline self')) k
              = dict_get (companies (pipeline self)) k.
Proof.
  intros self company_name role_title force_refresh scores w self'. split.
  - subst self'. unfold Orchestrator.research_company.
    destruct (if negb force_refresh then _ else _); [reflexivity|].
    destruct (Orchestrator.priority_scores_of scores w); [|reflexivity].
    destruct (py_sum _); [|reflexivity].
    cbv zeta.
    destruct (py_lt _ _) as [[|]|]; [reflexivity| |reflexivity].
    unfold Orchestrator.bump_total_researched. simpl.
    destruct (dict_get (stats (pipeline self)) "total_researched") as [n|];
      [|reflexivity].
    simpl. destruct (to_number n); [|reflexivity]. simpl.
    match goal with
    | |- context [Orchestrator._generate_research_summary ?s ?d] =>
        unfold Orchestrator._generate_research_summary;
        destruct (dict_get d "name") as [[]|]
    end; reflexivity.
  - intros k Hk. now apply research_frame.
Qed.

Lemma research_company_frame_witness :
  let self := orchestrator_of Examples.busy_pipeline in
  let self' :=
    snd (Orchestrator.research_company self "Hooli Labs" VNone false
           Examples.low_scores Examples.collaborators) in
  dict_get (companies (pipeline self')) "acme"
  = dict_get (companies (pipeline self)) "acme".
Proof.
  intros self self'.
  pose proof (research_company_frame self "Hooli Labs" VNone false
                Examples.low_scores Examples.collaborators) as H.
  cbv zeta in H. destruct H as [_ H]. apply H. discriminate.
Defined.

(** ** Loops with an invariant *)

Lemma foldM_preserves {A B : Type} (I : A -> Prop) (f : A -> B -> result A)
  (l : list B) :
  (forall a b a', In b l -> f a b = Ok a' -> I a -> I a') ->
  forall a r, foldM f l a = Ok r -> I a -> I r.
Proof.
  induction l as [|b l IH]; simpl; intros Hf a r H Ha.
  - now injection H as <-.
  - apply bind_ok in H as (a' & Hb & H).
    apply (IH (fun a b a' Hin => Hf a b a' (or_intror Hin)) a' r H).
    eapply Hf; eauto.
Qed.

(** The invariant may count the iterations. *)
Lemma foldM_counts {A B : Type} (I : nat -> A -> Prop) (f : A -> B -> result A)
  (l : list B) :
  (forall n a b a', f a b = Ok a' -> I n a -> I (S n) a') ->
  forall n a r, foldM f l a = Ok r -> I n a -> I (n + List.length l)%nat r.
Proof.
  intros Hf. induction l as [|b l IH]; simpl; intros n a r H Ha.
  - injection H as <-. now rewrite Nat.add_0_r.
  - apply bind_ok in H as (a' & Hb & H).
    rewrite <- plus_n_Sm. apply (IH (S n) a' r H). eapply Hf; eauto.
Qed.

(** Two loops over the same list keep a relation between their states. *)
Lemma foldM_related {A A' B : Type} (R : A -> A' -> Prop)
  (f : A -> B -> result A) (g : A' -> B -> result A') (l : list B) :
  (forall a a' b a1 a1', R a a' -> f a b = Ok a1 -> g a' b = Ok a1' -> R a1 a1') ->
  forall a a' r r',
    R a a' -> foldM f l a = Ok r -> foldM g l a' = Ok r' -> R r r'.
Proof.
  intros Hstep. induction l as [|b l IH]; simpl; intros a a' r r' HR Hf Hg.
  - injection Hf as <-. now injection Hg as <-.
  - apply bind_ok in Hf as (a1 & Hf1 & Hf).
    apply bind_ok in Hg as (a1' & Hg1 & Hg).
    apply (IH a1 a1' r r'); auto.
    exact (Hstep a a' b a1 a1' HR Hf1 Hg1).
Qed.

(** ** Counting dictionaries *)

Lemma incr_total counts k : count_total (incr counts k) = count_total counts + 1.
Proof.
  induction counts as [|[k' n] counts IH]; simpl; [lia|].
  destruct (key_eqb k' k); simpl; lia.
Qed.

Lemma incr_positive counts k :
  Forall (fun kv => 0 < snd kv) counts ->
  Forall (fun kv => 0 < snd kv) (incr counts k).
Proof.
  induction 1 as [|[k' n] counts Hn Hc IH]; simpl.
  - repeat constructor.
  - destruct (key_eqb k' k); constructor; simpl in *; auto; lia.
Qed.

Lemma count_key_ok counts k counts' :
  count_key counts k = Ok counts' -> counts' = incr counts k.
Proof. unfold count_key. destruct (hashable k); congruence. Qed.

Lemma count_of_nonneg counts k :
  Forall (fun kv => 0 < snd kv) counts -> 0 <= count_of counts k.
Proof.
  induction 1 as [|[k' n] counts Hn Hc IH]; simpl; [lia|].
  destruct (key_eqb k' k); simpl in *; lia.
Qed.

(** Three different statuses are counted in different entries. *)
Lemma active_counts_bounded counts :
  Forall (fun kv => 0 < snd kv) counts ->
  count_of counts (VStr "researched") + count_of counts (VStr "applied")
  + count_of counts (VStr "interviewing") <= count_total counts.
Proof.
  induction 1 as [|[k' n] counts Hn Hc IH]; simpl; [lia|].
  pose proof (count_of_nonneg counts (VStr "researched") Hc).
  pose proof (count_of_nonneg counts (VStr "applied") Hc).
  pose proof (count_of_nonneg counts (VStr "interviewing") Hc).
  simpl in Hn.
  destruct k' as [| | | |s| |]; simpl; try lia.
  destruct (String.eqb_spec s "researched") as [->|]; simpl; [lia|].
  destruct (String.eqb_spec s "applied") as [->|]; simpl; [lia|].
  destruct (String.eqb_spec s "interviewing") as [->|]; simpl; lia.
Qed.

(** X8.  In the pipeline summary every company is counted once in the
    status breakdown and once in the priority breakdown: the counts of each
    breakdown add up to the number of companies, every listed count is
    positive, and the active opportunities lie between 0 and that number. *)
Theorem pipeline_summary_counts_every_company_once :
  forall (round : Q -> Z -> Q) (self : Tracker.PipelineTracker)
         (summary : Tracker.PipelineSummary),
    Tracker._generate_pipeline_summary round self = Ok summary ->
    let n := Z.of_nat (List.length (companies (Tracker.pipeline_data self))) in
    Tracker.total_companies summary = n /\
    count_total (Tracker.status_breakdown summary) = n /\
    count_total (Tracker.priority_breakdown summary) = n /\
    Forall (fun kv => 0 < snd kv) (Tracker.status_breakdown summary) /\
    Forall (fun kv => 0 < snd kv) (Tracker.priority_breakdown summary) /\
    0 <= Tracker.active_opportunities summary <= n.
Proof.
  intros round self summary H n.
  unfold Tracker._generate_pipeline_summary in H.
  apply bind_ok in H as ([status_counts priority_breakdown] & Hloop & H).
  injection H as <-. simpl.
  apply (foldM_counts
           (fun n (st : list (pyobj * Z) * list (pyobj * Z)) =>
              count_total (fst st) = Z.of_nat n /\
              count_total (snd st) = Z.of_nat n /\
              Forall (fun kv => 0 < snd kv) (fst st) /\
              Forall (fun kv => 0 < snd kv) (snd st))) with (n := 0%nat)
    in Hloop.
  - simpl in Hloop. destruct Hloop as (Hs & Hp & Ps & Pp). fold n in Hs, Hp.
    repeat split; auto.
    + pose proof (count_of_nonneg status_counts (VStr "researched") Ps).
      pose proof (count_of_nonneg status_counts (VStr "applied") Ps).
      pose proof (count_of_nonneg status_counts (VStr "interviewing") Ps).
      lia.
    + rewrite <- Hs. now apply active_counts_bounded.
  - clear. intros n [sc pb] kv [sc' pb'] Hstep (Hs & Hp & Ps & Pp). simpl in *.
    apply bind_ok in Hstep as (sc1 & Hsc & Hstep).
    apply count_key_ok in Hsc. subst sc1.
    apply bind_ok in Hstep as (high & _ & Hstep).
    assert (Hres : sc' = incr sc (get_default (snd kv) "status" (VStr "unknown"))
                   /\ exists k, pb' = incr pb k).
    { destruct high.
      - injection Hstep as <- <-. eauto.
      - apply bind_ok in Hstep as (medium & _ & Hstep).
        destruct medium; injection Hstep as <- <-; eauto. }
    destruct Hres as [-> [k ->]].
    rewrite !incr_total, Hs, Hp.
    repeat split; try lia; now apply incr_positive.
  - simpl. repeat split; constructor.
Qed.

Lemma pipeline_summary_counts_witness :
  exists summary,
    Tracker._generate_pipeline_summary Reference.round
      (tracker_of Examples.busy_pipeline) = Ok summary /\
    Tracker.total_companies summary = 4 /\
    count_total (Tracker.status_breakdown summary) = 4 /\
    count_total (Tracker.priority_breakdown summary) = 4.
Proof.
  eexists.
  assert (H : Tracker._generate_pipeline_summary Reference.round
                (tracker_of Examples.busy_pipeline) = Ok _)
    by (vm_compute; reflexivity).
  split; [exact H|].
  destruct (pipeline_summary_counts_every_company_once _ _ _ H)
    as (H1 & H2 & H3 & _).
  split; [exact H1|]. split; [exact H2 | exact H3].
Defined.

(** ** Counters of the success metrics *)

Section CounterFacts.

Import Tracker.

Lemma py_len_nonneg x n : py_len x = Ok n -> 0 <= n.
Proof. destruct x; simpl; intros [= <-]; lia. Qed.

Lemma length_list_ascii (s : string) :
  List.length (list_ascii_of_string s) = String.length s.
Proof. induction s; simpl; auto. Qed.

(** [len] counts what the iteration yields. *)
Lemma py_len_iter x n l :
  py_len x = Ok n -> py_iter x = Ok l -> n = Z.of_nat (List.length l).
Proof.
  destruct x; simpl; try discriminate; intros [= <-] [= <-];
    rewrite ?length_map, ?length_list_ascii; reflexivity.
Qed.

Lemma any_response_true emails :
  any_response emails = Ok true -> emails <> [].
Proof. destruct emails; simpl; [discriminate | congruence]. Qed.

(** A company with a response has at least one email. *)
Lemma response_needs_email company_data n :
  py_len (get_default company_data "emails_sent" (VList [])) = Ok n ->
  _has_received_response company_data = Ok true -> 1 <= n.
Proof.
  unfold _has_received_response. intros Hlen H.
  apply bind_ok in H as (l & Hiter & H).
  rewrite (py_len_iter _ _ _ Hlen Hiter).
  apply any_response_true in H. destruct l; [congruence | simpl; lia].
Qed.

Lemma count_company_step c company_data c' :
  count_company c company_data = Ok c' ->
  exists n responded,
    py_len (get_default company_data "emails_sent" (VList [])) = Ok n /\
    _has_received_response company_data = Ok responded /\
    total_emails c' = total_emails c + n /\
    responses_received c'
    = (if responded then responses_received c + 1 else responses_received c) /\
    interviews_scheduled c <= interviews_scheduled c' <= interviews_scheduled c + 1 /\
    total_applications c <= total_applications c' <= total_applications c + 1 /\
    offers_received c <= offers_received c' <= offers_received c + 1.
Proof.
  unfold count_company. intros H.
  apply bind_ok in H as (n & Hn & H).
  apply bind_ok in H as (responded & Hr & H).
  injection H as <-. exists n, responded. simpl.
  repeat split; auto;
    repeat match goal with |- context [if ?b then _ else _] => destruct b end; lia.
Qed.

Lemma counters_bounded_step n c company_data c' :
  count_company c company_data = Ok c' ->
  counters_bounded n c -> counters_bounded (S n) c'.
Proof.
  intros H (Hr & Hrn & Hi & Ha & Ho).
  apply count_company_step in H
    as (m & responded & Hm & Hresp & Ht & Hr' & Hi' & Ha' & Ho').
  pose proof (py_len_nonneg _ _ Hm).
  unfold counters_bounded. rewrite Ht, Hr'.
  destruct responded.
  - pose proof (response_needs_email _ _ Hm Hresp). lia.
  - lia.
Qed.

End CounterFacts.

(** X9.  Whenever the counters of the success metrics are computed, the
    companies with a response are at most the emails sent (a company with a
    response has at least one email), every per-company counter lies between
    0 and the number of companies, and the email response rate lies between
    0 and 1. *)
Theorem success_counters_are_bounded :
  forall (self : Tracker.PipelineTracker) (c : Tracker.Counters),
    Tracker.success_counters self = Ok c ->
    counters_bounded (List.length (companies (Tracker.pipeline_data self))) c /\
    forall r : Q, Tracker.email_response_rate c = Ok r -> (0 <= r <= 1)%Q.
Proof.
  intros self c H.
  assert (Hb : counters_bounded
                 (List.length (companies (Tracker.pipeline_data self))) c).
  { unfold Tracker.success_counters in H.
    apply (foldM_counts counters_bounded) with (n := 0%nat) in H; auto.
    - intros n a kv a'. apply counters_bounded_step.
    - unfold counters_bounded. simpl. lia. }
  split; [exact Hb|].
  destruct Hb as ((Hr0 & Hrt) & _).
  unfold Tracker.email_response_rate. intros r.
  destruct (Tracker.total_emails c >? 0) eqn:E.
  - rewrite truediv_positive by assumption. intros [= <-].
    assert (Hpos : (0 < inject_Z (Tracker.total_emails c))%Q)
      by (rewrite <- (Zlt_Qlt 0); lia).
    split.
    + apply Qle_shift_div_l; auto. rewrite Qmult_0_l.
      rewrite <- (Zle_Qle 0). lia.
    + apply Qle_shift_div_r; auto. rewrite Qmult_1_l.
      rewrite <- Zle_Qle. lia.
  - intros [= <-]. split; [apply Qle_refl | discriminate].
Qed.

Lemma success_counters_are_bounded_witness :
  exists c r,
    Tracker.success_counters (tracker_of Examples.busy_pipeline) = Ok c /\
    Tracker.total_emails c = 2 /\
    Tracker.email_response_rate c = Ok r /\ (0 <= r <= 1)%Q.
Proof.
  do 2 eexists.
  assert (H : Tracker.success_counters (tracker_of Examples.busy_pipeline) = Ok _)
    by (vm_compute; reflexivity).
  split; [exact H|]. split; [reflexivity|].
  assert (Hr : Tracker.email_response_rate
                 {| Tracker.total_emails := 2; Tracker.responses_received := 0;
                    Tracker.interviews_scheduled := 2;
                    Tracker.total_applications := 0;
                    Tracker.offers_received := 0 |} = Ok _)
    by (vm_compute; reflexivity).
  split; [exact Hr|].
  destruct (success_counters_are_bounded _ _ H) as [_ Hrate].
  exact (Hrate _ Hr).
Defined.

(** ** Email performance and interview tracking *)

Section CampaignFacts.

Import Tracker.

Variable fromisoformat : string -> option datetime.
Variable round : Q -> Z -> Q.
Variable clock : Z.

Lemma track_email_step company_data st email st' :
  track_email fromisoformat clock company_data st email = Ok st' ->
  List.length (fst (fst (fst st'))) = S (List.length (fst (fst (fst st)))) /\
  count_total (snd (fst (fst st'))) = count_total (snd (fst (fst st))) + 1.
Proof.
  destruct st as [[[campaigns sent] responses] daily]. unfold track_email.
  intros H.
  apply bind_ok in H as (e & _ & H).
  apply bind_ok in H as (sent' & Hsent & H).
  apply count_key_ok in Hsent. subst sent'.
  apply bind_ok in H as (send_date & _ & H).
  apply bind_ok in H as (daily' & _ & H).
  injection H as <-. simpl. split.
  - rewrite length_app. simpl. lia.
  - apply incr_total.
Qed.

Lemma track_emails_loop company_data emails st st' :
  foldM (track_email fromisoformat clock company_data) emails st = Ok st' ->
  List.length (fst (fst (fst st')))
  = (List.length (fst (fst (fst st))) + List.length emails)%nat /\
  count_total (snd (fst (fst st')))
  = count_total (snd (fst (fst st))) + Z.of_nat (List.length emails).
Proof.
  intros H.
  apply (foldM_counts
           (fun n s =>
              List.length (fst (fst (fst s)))
              = (List.length (fst (fst (fst st))) + n)%nat /\
              count_total (snd (fst (fst s)))
              = count_total (snd (fst (fst st))) + Z.of_nat n))
    with (n := 0%nat) in H.
  - exact H.
  - intros n a email a' Hstep [Hl Hc].
    apply track_email_step in Hstep as [Hl' Hc']. rewrite Hl', Hc', Hl, Hc.
    split; lia.
  - simpl. split; lia.
Qed.

End CampaignFacts.

(** X10.  The email performance report lists one campaign per email: its
    total is the number of campaign details and the sum of the emails sent
    per template; and whenever the success metrics are computed as well,
    their total of emails sent is that same number. *)
Theorem email_performance_counts_every_email_once :
  forall (fromisoformat : string -> option datetime) (round : Q -> Z -> Q)
         (clock : Z) (self : Tracker.PipelineTracker)
         (p : Tracker.EmailPerformance),
    Tracker._generate_email_performance fromisoformat round clock self = Ok p ->
    Tracker.total_campaigns p
    = Z.of_nat (List.length (Tracker.campaign_details p)) /\
    count_total (map (fun kv => (fst kv, Tracker.ts_emails_sent (snd kv)))
                     (Tracker.template_performance p))
    = Tracker.total_campaigns p /\
    0 <= Tracker.pending_responses p <= Tracker.total_campaigns p /\
    forall m : Tracker.SuccessMetrics,
      Tracker._generate_success_metrics round self = Ok m ->
      Tracker.em_total_sent m = Tracker.total_campaigns p.
Proof.
  intros fromisoformat round clock self p H.
  unfold Tracker._generate_email_performance in H.
  apply bind_ok in H as ([[[campaigns sent] responses] daily] & Hloop & H).
  injection H as <-. simpl.
  split; [reflexivity|].
  assert (Hsent : count_total sent = Z.of_nat (List.length campaigns)).
  { apply (foldM_preserves
             (fun s : Tracker.email_loop_state =>
                count_total (snd (fst (fst s)))
                = Z.of_nat (List.length (fst (fst (fst s)))))) in Hloop; auto.
    intros st kv st' _ Hstep Hinv.
    apply bind_ok in Hstep as (emails & _ & Hstep).
    apply track_emails_loop in Hstep as [Hl Hc]. rewrite Hc, Hl, Hinv. lia. }
  split; [|split].
  - rewrite <- Hsent. unfold Tracker.template_stats_of. rewrite map_map. simpl.
    clear. induction sent as [|[k n] sent IH]; simpl; auto. now rewrite IH.
  - split; [lia|]. apply inj_le. apply filter_length_le.
  - intros m Hm. unfold Tracker._generate_success_metrics in Hm.
    apply bind_ok in Hm as (c & Hc & Hm).
    apply bind_ok in Hm as (r1 & _ & Hm). apply bind_ok in Hm as (r2 & _ & Hm).
    apply bind_ok in Hm as (r3 & _ & Hm). apply bind_ok in Hm as (v1 & _ & Hm).
    apply bind_ok in Hm as (v2 & _ & Hm). injection Hm as <-. simpl.
    unfold Tracker.success_counters in Hc.
    change (Tracker.total_emails c
            = Z.of_nat (List.length
                (fst (fst (fst (campaigns, sent, responses, daily)))))).
    refine (foldM_related
              (fun (c : Tracker.Counters) (s : Tracker.email_loop_state) =>
                 Tracker.total_emails c
                 = Z.of_nat (List.length (fst (fst (fst s)))))
              _ _ _ _ _ _ _ _ _ Hc Hloop).
    + intros c0 st kv c1 st1 HR Hcount Hemail. simpl in *.
      apply count_company_step in Hcount as (n & responded & Hn & _ & Ht & _).
      apply bind_ok in Hemail as (emails & Hiter & Hemail).
      apply track_emails_loop in Hemail as [Hl _].
      rewrite Ht, Hl, HR, (py_len_iter _ _ _ Hn Hiter). lia.
    + reflexivity.
Qed.

Lemma email_performance_counts_witness :
  exists p m,
    Tracker._generate_email_performance Reference.fromisoformat Reference.round
      Examples.clock (tracker_of Examples.busy_pipeline) = Ok p /\
    Tracker._generate_success_metrics Reference.round
      (tracker_of Examples.busy_pipeline) = Ok m /\
    Tracker.total_campaigns p = 2 /\
    Tracker.em_total_sent m = Tracker.total_campaigns p.
Proof.
  do 2 eexists.
  assert (Hp : Tracker._generate_email_performance Reference.fromisoformat
                 Reference.round Examples.clock
                 (tracker_of Examples.busy_pipeline) = Ok _)
    by (vm_compute; reflexivity).
  assert (Hm : Tracker._generate_success_metrics Reference.round
                 (tracker_of Examples.busy_pipeline) = Ok _)
    by (vm_compute; reflexivity).
  split; [exact Hp|]. split; [exact Hm|]. split; [reflexivity|].
  destruct (email_performance_counts_every_email_once _ _ _ _ _ Hp)
    as (_ & _ & _ & Hcross).
  exact (Hcross _ Hm).
Defined.

Section InterviewFacts.

Import Tracker.

Lemma track_interview_step company_data st interview st' :
  track_interview company_data st interview = Ok st' ->
  List.length (fst (fst st')) = S (List.length (fst (fst st))) /\
  count_total (snd (fst st')) = count_total (snd (fst st)) + 1 /\
  count_total (snd st') = count_total (snd st) + 1.
Proof.
  destruct st as [[interviews stages] outcomes]. unfold track_interview.
  intros H.
  apply bind_ok in H as (i & _ & H).
  apply bind_ok in H as (stages' & Hs & H). apply count_key_ok in Hs. subst.
  apply bind_ok in H as (outcomes' & Ho & H). apply count_key_ok in Ho. subst.
  injection H as <-. simpl. rewrite length_app, !incr_total. simpl.
  repeat split; lia.
Qed.

End InterviewFacts.

(** X11.  The interview tracking report counts every interview once by
    stage and once by outcome: both breakdowns add up to the number of
    scheduled interviews, which is the number of interview details, and the
    pending and the upcoming interviews are at most that many. *)
Theorem interview_tracking_counts_every_interview_once :
  forall (fromisoformat : string -> option datetime) (round : Q -> Z -> Q)
         (clock : Z) (self : Tracker.PipelineTracker)
         (t : Tracker.InterviewTracking),
    Tracker._generate_interview_tracking fromisoformat round clock self = Ok t ->
    Tracker.scheduled_interviews t
    = Z.of_nat (List.length (Tracker.interview_details t)) /\
    count_total (Tracker.stage_breakdown t) = Tracker.scheduled_interviews t /\
    count_total (Tracker.outcome_breakdown t) = Tracker.scheduled_interviews t /\
    0 <= Tracker.pending_feedback t <= Tracker.scheduled_interviews t /\
    Z.of_nat (List.length (Tracker.upcoming_interviews t))
    <= Tracker.scheduled_interviews t.
Proof.
  intros fromisoformat round clock self t H.
  unfold Tracker._generate_interview_tracking in H.
  apply bind_ok in H as ([[interviews stages] outcomes] & Hloop & H).
  injection H as <-. simpl.
  set (I := fun s : Tracker.interview_loop_state =>
              count_total (snd (fst s)) = Z.of_nat (List.length (fst (fst s))) /\
              count_total (snd s) = Z.of_nat (List.length (fst (fst s)))).
  assert (HI : I (interviews, stages, outcomes)).
  { refine (foldM_preserves I _ _ _ _ _ Hloop _).
    - intros st kv st' _ Hstep Hinv.
      apply bind_ok in Hstep as (company_interviews & _ & Hstep).
      refine (foldM_preserves I _ _ _ _ _ Hstep Hinv).
      intros a interview a' _ Hone [Hs Ho].
      apply track_interview_step in Hone as (Hl & Hs' & Ho').
      unfold I. rewrite Hs', Ho', Hl, Hs, Ho. split; lia.
    - unfold I. simpl. split; reflexivity. }
  destruct HI as [Hs Ho]. simpl in Hs, Ho.
  split; [reflexivity|]. split; [exact Hs|]. split; [exact Ho|].
  split; [split; [lia|]|]; apply inj_le; apply filter_length_le.
Qed.

Lemma interview_tracking_counts_witness :
  exists t,
    Tracker._generate_interview_tracking Reference.fromisoformat Reference.round
      Examples.clock (tracker_of Examples.busy_pipeline) = Ok t /\
    Tracker.scheduled_interviews t = 2 /\
    count_total (Tracker.outcome_breakdown t) = Tracker.scheduled_interviews t.
Proof.
  eexists.
  assert (H : Tracker._generate_interview_tracking Reference.fromisoformat
                Reference.round Examples.clock
                (tracker_of Examples.busy_pipeline) = Ok _)
    by (vm_compute; reflexivity).
  split; [exact H|]. split; [reflexivity|].
  destruct (interview_tracking_counts_every_interview_once _ _ _ _ _ H)
    as (_ & _ & Ho & _).
  exact Ho.
Defined.

(** ** Weekly progress *)

Section WeeklyFacts.

Import Tracker.

Variable fromisoformat : string -> option datetime.
Variable isoformat : datetime -> string.
Variable round : Q -> Z -> Q.
Variable clock : Z.

Lemma count_week_keeps_applications week_start week_end ws company_data ws' :
  count_week fromisoformat week_start week_end ws company_data = Ok ws' ->
  ws_applications_submitted ws' = ws_applications_submitted ws /\
  ws_target_applications ws' = ws_target_applications ws.
Proof.
  unfold count_week. intros H.
  apply bind_ok in H as (researched & _ & H).
  apply bind_ok in H as (emails & _ & H).
  apply bind_ok in H as ([n_emails n_responses] & _ & H).
  apply bind_ok in H as (interviews & _ & H).
  apply bind_ok in H as (n_interviews & _ & H).
  injection H as <-. simpl. split; reflexivity.
Qed.

(** The weekly progress, when it is computed. *)
Lemma weekly_progress_inv self wp :
  _generate_weekly_progress fromisoformat isoformat round clock self = Ok wp ->
  ws_applications_submitted (weekly_stats wp) = 0 /\
  ws_target_applications (weekly_stats wp) = 5 /\
  on_track wp = false /\
  week_start wp
  = isoformat (dt_plus (now clock) (- timedelta (weekday (now clock)))) /\
  week_end wp
  = isoformat (dt_plus (dt_plus (now clock) (- timedelta (weekday (now clock))))
                       (timedelta 6)).
Proof.
  unfold _generate_weekly_progress.
  cbv zeta. intros H.
  apply bind_ok in H as (ws & Hloop & H).
  assert (Hinv : ws_applications_submitted ws = 0 /\ ws_target_applications ws = 5).
  { refine (foldM_preserves
              (fun ws => ws_applications_submitted ws = 0
                         /\ ws_target_applications ws = 5)
              _ _ _ _ _ Hloop _).
    - intros a kv a' _ Hstep [Ha Ht].
      apply count_week_keeps_applications in Hstep as [-> ->]. auto.
    - split; reflexivity. }
  destruct Hinv as [Ha Ht]. rewrite Ha, Ht in H.
  apply bind_ok in H as (progress & Hdiv & H).
  injection Hdiv as <-. injection H as <-. simpl.
  repeat split; auto.
Qed.

End WeeklyFacts.

(** X12.  No application is ever counted in the weekly progress: whenever it
    is computed, the applications submitted are 0 against the target of 5
    and the week is not on track; so the recommendations, whenever they are
    computed, always advise to increase the application volume. *)
Theorem weekly_progress_is_never_on_track :
  forall (fromisoformat : string -> option datetime)
         (isoformat : datetime -> string) (round : Q -> Z -> Q) (clock : Z)
         (self : Tracker.PipelineTracker),
    (forall wp,
        Tracker._generate_weekly_progress fromisoformat isoformat round clock self
        = Ok wp ->
        Tracker.ws_applications_submitted (Tracker.weekly_stats wp) = 0 /\
        Tracker.ws_target_applications (Tracker.weekly_stats wp) = 5 /\
        Tracker.on_track wp = false) /\
    (forall recommendations,
        Tracker._generate_recommendations fromisoformat isoformat round clock self
        = Ok recommendations ->
        In (Tracker.IncreaseApplicationVolume 0 5) recommendations).
Proof.
  intros fromisoformat isoformat round clock self. split.
  - intros wp H.
    destruct (weekly_progress_inv fromisoformat isoformat round clock self wp H)
      as (Ha & Ht & Hon & _). auto.
  - intros recommendations H.
    unfold Tracker._generate_recommendations in H.
    apply bind_ok in H as (success_metrics & _ & H).
    apply bind_ok in H as (email_performance & _ & H).
    cbv zeta in H.
    apply bind_ok in H as (wp & Hwp & H).
    apply bind_ok in H as (pipeline_summary & _ & H).
    injection H as <-.
    destruct (weekly_progress_inv fromisoformat isoformat round clock self wp Hwp)
      as (Ha & Ht & Hon & _). simpl in Ha, Ht, Hon.
    rewrite Hon, Ha, Ht. simpl.
    apply in_or_app. right. now left.
Qed.

Lemma weekly_progress_is_never_on_track_witness :
  exists recommendations,
    Tracker._generate_recommendations Reference.fromisoformat Reference.isoformat
      Reference.round Examples.clock (tracker_of Examples.busy_pipeline)
    = Ok recommendations /\
    In (Tracker.IncreaseApplicationVolume 0 5) recommendations.
Proof.
  eexists.
  assert (H : Tracker._generate_recommendations Reference.fromisoformat
                Reference.isoformat Reference.round Examples.clock
                (tracker_of Examples.busy_pipeline) = Ok _)
    by (vm_compute; reflexivity).
  split; [exact H|].
  destruct (weekly_progress_is_never_on_track Reference.fromisoformat
              Reference.isoformat Reference.round Examples.clock
              (tracker_of Examples.busy_pipeline)) as [_ Hrec].
  exact (Hrec _ H).
Defined.

(** The week that starts on the Monday of [clock]. *)
Lemma weekday_of_week_start (clock : Z) :
  let today := Tracker.now clock in
  let start := dt_plus today (- timedelta (weekday today)) in
  weekday start = 0 /\
  wall start <= clock <= wall start + timedelta 6 /\
  wall start mod day_us = clock mod day_us /\
  utcoffset start = None.
Proof.
  unfold Tracker.now, dt_plus, weekday, timedelta, day_us. simpl.
  set (D := 86400000000). set (x := clock / D + 3).
  assert (HD : 0 < D) by (unfold D; lia).
  pose proof (Z.mod_pos_bound x 7 ltac:(lia)) as Hk.
  assert (Hdiv : (clock + - (x mod 7 * D)) / D = clock / D - x mod 7).
  { replace (clock + - (x mod 7 * D)) with (clock + (- (x mod 7)) * D) by lia.
    rewrite Z.div_add by lia. lia. }
  split; [|split; [|split]].
  - rewrite Hdiv.
    replace (clock / D - x mod 7 + 3) with (x - x mod 7) by (unfold x; lia).
    rewrite (Z.mod_eq x 7) by lia.
    replace (x - (x - 7 * (x / 7))) with (x / 7 * 7) by lia.
    apply Z.mod_mul. lia.
  - nia.
  - replace (clock + - (x mod 7 * D)) with (clock + (- (x mod 7)) * D) by lia.
    apply Z.mod_add. lia.
  - reflexivity.
Qed.

(** X13.  The week of the weekly progress starts on the Monday of the
    current week at the current time of day (not at midnight) and ends six
    days later to the microsecond: the reported bounds are the ISO forms of
    a naive Monday [start] with the time of day of the clock and of
    [start + 6 days], and the clock lies between them. *)
Theorem weekly_window_is_monday_plus_six_days :
  forall (fromisoformat : string -> option datetime)
         (isoformat : datetime -> string) (round : Q -> Z -> Q) (clock : Z)
         (self : Tracker.PipelineTracker) (wp : Tracker.WeeklyProgress),
    Tracker._generate_weekly_progress fromisoformat isoformat round clock self
    = Ok wp ->
    exists start : datetime,
      Tracker.week_start wp = isoformat start /\
      Tracker.week_end wp = isoformat (dt_plus start (timedelta 6)) /\
      weekday start = 0 /\
      utcoffset start = None /\
      wall start mod day_us = clock mod day_us /\
      wall start <= clock <= wall start + timedelta 6.
Proof.
  intros fromisoformat isoformat round clock self wp H.
  destruct (weekly_progress_inv fromisoformat isoformat round clock self wp H)
    as (_ & _ & _ & Hs & He). simpl in Hs, He.
  destruct (weekday_of_week_start clock) as (Hmon & Hin & Htime & Hnaive).
  eexists. split; [exact Hs|]. split; [exact He|].
  repeat split; auto; apply Hin.
Qed.

Lemma weekly_window_witness :
  exists wp,
    Tracker._generate_weekly_progress Reference.fromisoformat Reference.isoformat
      Reference.round
      (Examples.clock + 2 * day_us) (tracker_of Examples.busy_pipeline) = Ok wp /\
    Tracker.week_start wp = "2024-01-15T10:30:00" /\
    Tracker.week_end wp = "2024-01-21T10:30:00".
Proof.
  eexists.
  assert (H : Tracker._generate_weekly_progress Reference.fromisoformat
                Reference.isoformat Reference.round
                (Examples.clock + 2 * day_us)
                (tracker_of Examples.busy_pipeline) = Ok _)
    by (vm_compute; reflexivity).
  split; [exact H|].
  destruct (weekly_window_is_monday_plus_six_days _ _ _ _ _ _ H)
    as (start & Hs & He & _).
  split; reflexivity.
Defined.

(** ** The next actions and the records they stem from *)

Section ActionOriginFacts.

Import Tracker.

Variable fromisoformat : string -> option datetime.
Variable isoformat : datetime -> string.
Variable clock : Z.

Lemma email_follow_up_origin (kv : string * dict) emails email acts :
  py_iter (get_default (snd kv) "emails_sent" (VList [])) = Ok emails ->
  In email emails ->
  email_follow_up fromisoformat clock (display_name kv) email = Ok acts ->
  Forall (follow_up_action fromisoformat clock kv) acts.
Proof.
  unfold email_follow_up. intros Hiter Hin H.
  apply bind_ok in H as (e & He & H).
  destruct email as [| | | | | |d0]; try discriminate. injection He as <-.
  destruct (truthy (get_default d0 "send_date" (VStr ""))) eqn:Hdate;
    [|injection H as <-; constructor].
  destruct (truthy (get_none d0 "response_received")) eqn:Hresp;
    [injection H as <-; constructor|]. simpl in H.
  apply bind_ok in H as (sent & Hsent & H).
  apply bind_ok in H as (delta & Hdelta & H).
  destruct (days delta >=? 7) eqn:Hdays; [|injection H as <-; constructor].
  destruct (truthy (get_none d0 "follow_up_sent")) eqn:Hfollow;
    injection H as <-; constructor; [|constructor].
  destruct (get_default d0 "send_date" (VStr "")) as [| | | |s| |] eqn:Hs;
    try discriminate.
  exists emails, d0, s, sent, delta. repeat split; auto. lia.
Qed.

Lemma interview_follow_up_origin (kv : string * dict) interviews interview acts :
  py_iter (get_default (snd kv) "interviews" (VList [])) = Ok interviews ->
  In interview interviews ->
  interview_follow_up (display_name kv) interview = Ok acts ->
  Forall (interview_action kv) acts.
Proof.
  unfold interview_follow_up. intros Hiter Hin H.
  apply bind_ok in H as (i & Hi & H).
  destruct interview as [| | | | | |d0]; try discriminate. injection Hi as <-.
  destruct (eq_str (get_none d0 "outcome") "pending") eqn:Hout;
    [|injection H as <-; constructor].
  destruct (truthy (get_default d0 "date" (VStr ""))) eqn:Hdate;
    injection H as <-; constructor; [|constructor].
  exists interviews, d0. repeat split; auto.
Qed.

Lemma company_actions_origin (kv : string * dict) acts :
  company_actions fromisoformat isoformat clock kv = Ok acts ->
  Forall (fun a => application_action fromisoformat isoformat clock kv a
                   \/ follow_up_action fromisoformat clock kv a
                   \/ interview_action kv a) acts.
Proof.
  unfold company_actions. cbv zeta. intros H.
  apply bind_ok in H as (emails_sent & Hiter & H).
  apply bind_ok in H as (emails & Hemails & H).
  apply bind_ok in H as (interviews & Hiter' & H).
  apply bind_ok in H as (follow_ups & Hinterviews & [= <-]).
  apply Forall_app. split; [|apply Forall_app; split].
  - destruct (eq_str (get_default (snd kv) "status" (VStr "unknown")) "researched")
      eqn:Hstatus; [|constructor].
    destruct (truthy (get_none (snd kv) "application_generated")) eqn:Happ;
      constructor; [|constructor].
    left. repeat split; auto.
  - eapply foldM_collect_Forall; [|exact Hemails|constructor].
    intros x ys Hin Hx.
    apply (email_follow_up_origin kv emails_sent) in Hx; auto.
    eapply Forall_impl; [|exact Hx]. auto.
  - eapply foldM_collect_Forall; [|exact Hinterviews|constructor].
    intros x ys Hin Hx.
    apply (interview_follow_up_origin kv interviews) in Hx; auto.
    eapply Forall_impl; [|exact Hx]. auto.
Qed.

End ActionOriginFacts.



(** ** The last activity *)

Lemma last_activity_unfold company_data :
  Tracker._get_last_activity_date company_data =
  (dates <- activity_dates company_data ;;
   match dates with
   | [] => Ok (VStr "")
   | _ => Tracker.py_max dates
   end)%py.
Proof.
  unfold Tracker._get_last_activity_date, activity_dates. cbv zeta.
  destruct (py_iter _) as [emails|]; simpl; auto.
  destruct (Tracker.collect_dates "send_date" emails); simpl; auto.
  destruct (py_iter _) as [interviews|]; simpl; auto.
  destruct (Tracker.collect_dates "date" interviews); simpl; auto.
Qed.

Lemma collect_dates_well_formed k items dates :
  Forall well_formed items -> Tracker.collect_dates k items = Ok dates ->
  Forall well_formed dates.
Proof.
  intros Hitems. revert dates.
  induction Hitems as [|item items Hitem _ IH]; simpl; intros dates H.
  - injection H as <-. constructor.
  - apply bind_ok in H as (d & Hd & H). apply bind_ok in H as (ds & Hds & [= <-]).
    specialize (IH _ Hds).
    destruct item; try discriminate. injection Hd as <-.
    destruct (truthy _); auto. constructor; auto.
    now apply well_formed_get.
Qed.

Lemma activity_dates_well_formed company_data dates :
  well_formed (VDict company_data) -> activity_dates company_data = Ok dates ->
  Forall well_formed dates.
Proof.
  unfold activity_dates. cbv zeta. intros Wd H.
  apply bind_ok in H as (emails & Hemails & H).
  apply bind_ok in H as (send_dates & Hsend & H).
  apply bind_ok in H as (interviews & Hinterviews & H).
  apply bind_ok in H as (interview_dates & Hdates & [= <-]).
  apply well_formed_iter in Hemails; [|now apply well_formed_get].
  apply well_formed_iter in Hinterviews; [|now apply well_formed_get].
  apply Forall_app. split; [|apply Forall_app; split].
  - destruct (truthy _); constructor; auto.
    unfold get_none. now apply well_formed_get.
  - exact (collect_dates_well_formed _ _ _ Hemails Hsend).
  - exact (collect_dates_well_formed _ _ _ Hinterviews Hdates).
Qed.

(** The running maximum is one of the dates, and none of the well-formed
    dates met so far is greater. *)
Lemma py_max_loop (rest : list pyobj) (d last : pyobj) :
  foldM (fun maxitem item =>
           greater <- rich_gt item maxitem ;;
           Ok (if greater then item else maxitem))%py rest d = Ok last ->
  In last (d :: rest) /\
  (Forall well_formed (d :: rest) ->
   forall seen, Forall well_formed seen ->
                Forall (fun x => lt_bool d x = false) seen ->
                Forall (fun x => lt_bool last x = false) (seen ++ d :: rest)).
Proof.
  revert d. induction rest as [|x rest IH]; intros d H.
  - injection H as <-. split; [now left|]. intros Wd seen Wseen Hseen.
    apply Forall_app. split; auto. constructor; [|constructor].
    inversion Wd; subst. now apply lt_bool_irrefl.
  - cbn [foldM] in H. apply bind_ok in H as (m & Hm & H).
    apply bind_ok in Hm as (greater & Hgreater & [= <-]).
    unfold rich_gt in Hgreater.
    destruct (IH _ H) as [Hin Hmax]. split.
    + destruct greater; simpl in *; tauto.
    + intros Wall seen Wseen Hseen.
      inversion Wall as [|? ? Wd Wrest]; subst.
      inversion Wrest as [|? ? Wx Wrest']; subst.
      replace (seen ++ d :: x :: rest)%list with ((seen ++ [d]) ++ x :: rest)%list
        by (now rewrite <- app_assoc).
      destruct greater.
      * apply Hmax; auto.
        -- apply Forall_app. split; auto.
        -- apply Forall_app. split.
           ++ rewrite Forall_forall in *. intros y Hy.
              specialize (Hseen y Hy). specialize (Wseen y Hy).
              unfold lt_bool in *.
              destruct (rich_lt x y) as [[|]|] eqn:E; auto.
              rewrite (oo_lt_trans _ ordered_well_formed d x y Wd Wx Wseen
                         Hgreater E) in Hseen. discriminate.
           ++ constructor; [|constructor]. unfold lt_bool.
              now rewrite (oo_lt_asym _ ordered_well_formed d x Wd Wx Hgreater).
      * assert (Hmax' : Forall (fun y => lt_bool last y = false)
                               ((seen ++ [x]) ++ d :: rest)).
        { apply Hmax; auto.
          - apply Forall_app. split; auto.
          - apply Forall_app. split; auto. constructor; [|constructor].
            unfold lt_bool. now rewrite Hgreater. }
        rewrite Forall_forall in *. intros y Hy. apply Hmax'.
        rewrite !in_app_iff in *. simpl in *. tauto.
Qed.

(** X15.  The last activity of a company is the empty string when it has no
    research date, send date or interview date.  Otherwise it is one of
    these dates, whatever their types; and in a well-formed record none of
    them is greater than it, as Python compares them: dates that are all
    strings give the greatest string, dates that are all numbers the
    greatest number. *)
Theorem last_activity_is_the_greatest_date :
  forall (company_data : dict) (dates : list pyobj),
    activity_dates company_data = Ok dates ->
    (dates = [] -> Tracker._get_last_activity_date company_data = Ok (VStr "")) /\
    (forall last,
        Tracker._get_last_activity_date company_data = Ok last ->
        dates <> [] ->
        In last dates /\
        (well_formed (VDict company_data) ->
         Forall (fun d => rich_lt last d <> Ok true) dates)).
Proof.
  intros company_data dates Hdates.
  rewrite last_activity_unfold, Hdates. simpl. split.
  - now intros ->.
  - intros last H Hne.
    destruct dates as [|d rest]; [congruence|].
    unfold Tracker.py_max in H.
    destruct (py_max_loop rest d last H) as [Hin Hmax]. split; auto.
    intros Wd. pose proof (activity_dates_well_formed _ _ Wd Hdates) as Wdates.
    specialize (Hmax Wdates [] (Forall_nil _) (Forall_nil _)). simpl in Hmax.
    eapply Forall_impl; [|exact Hmax].
    intros x Hx E. unfold lt_bool in Hx. rewrite E in Hx. discriminate.
Qed.

Lemma last_activity_witness :
  let company_data : dict :=
    [("research_date", VInt 20240102);
     ("emails_sent", VList [VDict [("send_date", VFloat 20240112.5)];
                            VDict [("send_date", VInt 20240105)]])] in
  Tracker._get_last_activity_date company_data = Ok (VFloat 20240112.5) /\
  Forall (fun d => rich_lt (VFloat 20240112.5) d <> Ok true)
         [VInt 20240102; VFloat 20240112.5; VInt 20240105].
Proof.
  intros company_data.
  destruct (last_activity_is_the_greatest_date company_data
              [VInt 20240102; VFloat 20240112.5; VInt 20240105] eq_refl)
    as [_ H].
  split; [reflexivity|].
  destruct (H (VFloat 20240112.5) eq_refl) as [_ Hmax]; [discriminate|].
  apply Hmax. simpl. well_formed_example.
Defined.

(** ** The best template *)

Lemma Qltb_true (a b : Q) : Qltb a b = true <-> (a < b)%Q.
Proof.
  unfold Qltb. rewrite negb_true_iff. split.
  - intros H. apply Qnot_le_lt. intros Hle. apply Qle_bool_iff in Hle. congruence.
  - intros H. destruct (Qle_bool b a) eqn:E; auto.
    apply Qle_bool_iff in E. apply Qlt_not_le in H. contradiction.
Qed.

Lemma Qltb_false (a b : Q) : Qltb a b = false <-> (b <= a)%Q.
Proof.
  unfold Qltb. rewrite negb_false_iff. apply Qle_bool_iff.
Qed.

Lemma best_fold (rest : list (pyobj * Tracker.TemplateStats))
  (first : pyobj * Tracker.TemplateStats) :
  let best :=
    fold_left
      (fun best x =>
         if Qltb (Tracker.ts_response_rate (snd best))
                 (Tracker.ts_response_rate (snd x))
         then x else best) rest first in
  In best (first :: rest) /\
  Forall (fun x => (Tracker.ts_response_rate (snd x)
                    <= Tracker.ts_response_rate (snd best))%Q) (first :: rest).
Proof.
  revert first. induction rest as [|x rest IH]; intros first; simpl.
  - split; auto. repeat constructor. apply Qle_refl.
  - match goal with |- context [fold_left ?f rest ?a] =>
      destruct (IH a) as [Hin Hall] end.
    cbv zeta in Hin, Hall. simpl in Hin.
    inversion Hall as [|? ? Hhead Htail]; subst.
    destruct (Qltb _ _) eqn:E.
    + split; [destruct Hin; auto|].
      constructor; [|constructor; auto].
      apply Qltb_true in E. eapply Qle_trans; [apply Qlt_le_weak, E|exact Hhead].
    + split; [destruct Hin; auto|].
      constructor; auto. constructor; auto.
      apply Qltb_false in E. eapply Qle_trans; [exact E|exact Hhead].
Qed.

(** X16.  The best performing template of the email performance report is
    the string "None" when no template was used; otherwise it is one of the
    templates of the report, and no template of the report has a greater
    response rate. *)
Theorem best_template_has_the_highest_response_rate :
  forall (fromisoformat : string -> option datetime) (round : Q -> Z -> Q)
         (clock : Z) (self : Tracker.PipelineTracker)
         (p : Tracker.EmailPerformance),
    Tracker._generate_email_performance fromisoformat round clock self = Ok p ->
    (Tracker.template_performance p = [] ->
     Tracker.best_performing_template p = VStr "None") /\
    (Tracker.template_performance p <> [] ->
     exists stats : Tracker.TemplateStats,
       In (Tracker.best_performing_template p, stats)
          (Tracker.template_performance p) /\
       Forall (fun kv => (Tracker.ts_response_rate (snd kv)
                          <= Tracker.ts_response_rate stats)%Q)
              (Tracker.template_performance p)).
Proof.
  intros fromisoformat round clock self p H.
  unfold Tracker._generate_email_performance in H. cbv zeta in H.
  apply bind_ok in H as ([[[email_campaigns sent] responses] daily] & _ & H).
  injection H as <-. simpl.
  set (template_stats := Tracker.template_stats_of round sent responses).
  split.
  - now intros ->.
  - intros Hne. destruct template_stats as [|first rest]; [congruence|].
    unfold Tracker.best_template.
    destruct (best_fold rest first) as [Hin Hall]. cbv zeta in Hin, Hall.
    eexists. split; [|exact Hall].
    now rewrite <- surjective_pairing.
Qed.

Lemma best_template_witness :
  exists p,
    Tracker._generate_email_performance Reference.fromisoformat Reference.round
      Examples.clock (tracker_of MoreExamples.template_pipeline) = Ok p /\
    map (fun kv => (fst kv, Tracker.ts_emails_sent (snd kv),
                    Tracker.ts_responses (snd kv)))
        (Tracker.template_performance p)
    = [(VStr "intro", 2, 0); (VStr "referral", 1, 1)] /\
    Tracker.best_performing_template p = VStr "referral" /\
    exists stats : Tracker.TemplateStats,
      In (Tracker.best_performing_template p, stats)
         (Tracker.template_performance p) /\
      Forall (fun kv => (Tracker.ts_response_rate (snd kv)
                         <= Tracker.ts_response_rate stats)%Q)
             (Tracker.template_performance p).
Proof.
  eexists.
  assert (H : Tracker._generate_email_performance Reference.fromisoformat
                Reference.round Examples.clock
                (tracker_of MoreExamples.template_pipeline) = Ok _)
    by (vm_compute; reflexivity).
  split; [exact H|]. split; [reflexivity|]. split; [reflexivity|].
  match type of H with
  | _ = Ok ?p =>
      assert (Hne : Tracker.template_performance p <> [])
        by (intros Hc; vm_compute in Hc; discriminate Hc)
  end.
  exact (proj2 (best_template_has_the_highest_response_rate _ _ _ _ _ H) Hne).
Defined.

(** ** The completion rate *)

Lemma completed_stages_table (company_data : dict) :
  Tracker.completed_stages_of company_data
  = stages_completed (get_default company_data "status" (VStr "unknown")).
Proof.
  unfold Tracker.completed_stages_of, stages_completed, Tracker.status_in. cbv zeta.
  destruct (get_default company_data "status" (VStr "unknown")) as [| | | |s| |];
    try reflexivity.
  unfold eq_str. cbn [existsb].
  destruct (String.eqb_spec s "hired") as [->|H1]; [reflexivity|].
  destruct (String.eqb_spec s "offered") as [->|H2]; [reflexivity|].
  destruct (String.eqb_spec s "interviewing") as [->|H3]; [reflexivity|].
  destruct (String.eqb_spec s "applied") as [->|H4]; [reflexivity|].
  destruct (String.eqb_spec s "researched") as [->|H5]; reflexivity.
Qed.

Lemma stages_completed_bounds (status : pyobj) : 0 <= stages_completed status <= 5.
Proof.
  unfold stages_completed.
  repeat match goal with |- context [if ?b then _ else _] => destruct b end; lia.
Qed.

Lemma completed_stages_sum (companies : list (string * dict)) (acc : Z) :
  fold_left (fun acc (kv : string * dict) =>
               acc + Tracker.completed_stages_of (snd kv)) companies acc
  = acc + completed_total companies.
Proof.
  revert acc. induction companies as [|kv companies IH]; intros acc; simpl.
  - lia.
  - rewrite IH, completed_stages_table. lia.
Qed.

Lemma completed_total_bounds (companies : list (string * dict)) :
  0 <= completed_total companies <= Z.of_nat (List.length companies) * 5.
Proof.
  induction companies as [|kv companies IH].
  - simpl. lia.
  - change (completed_total (kv :: companies))
      with (stages_completed (get_default (snd kv) "status" (VStr "unknown"))
            + completed_total companies).
    pose proof (stages_completed_bounds
                  (get_default (snd kv) "status" (VStr "unknown"))).
    simpl List.length. lia.
Qed.

(** X17.  The completion rate of a pipeline without companies is 0;
    otherwise it is the rounding to 3 places of the completed stages of the
    companies (researched 1, applied 2, interviewing 3, offered 4, hired 5,
    any other status 0) over five stages per company, a ratio between 0
    and 1. *)
Theorem completion_rate_is_a_rounded_fraction :
  forall (round : Q -> Z -> Q) (self : Tracker.PipelineTracker),
    (companies (Tracker.pipeline_data self) = [] ->
     Tracker._calculate_completion_rate round self = 0%Q) /\
    (companies (Tracker.pipeline_data self) <> [] ->
     let ratio :=
       (inject_Z (completed_total (companies (Tracker.pipeline_data self)))
        / inject_Z (Z.of_nat (List.length (companies (Tracker.pipeline_data self)))
                    * 5))%Q in
     Tracker._calculate_completion_rate round self = round ratio 3 /\
     (0 <= ratio <= 1)%Q).
Proof.
  intros round self. unfold Tracker._calculate_completion_rate. cbv zeta.
  destruct (companies (Tracker.pipeline_data self)) as [|kv rest] eqn:E.
  - split; [reflexivity|congruence].
  - split; [discriminate|]. intros _.
    set (l := kv :: rest).
    rewrite completed_stages_sum, Z.add_0_l.
    pose proof (completed_total_bounds l) as Hsum.
    assert (Hlen : 0 < Z.of_nat (List.length l) * 5) by (simpl List.length; lia).
    destruct (Z.of_nat (List.length l) * 5 >? 0) eqn:Hpos; [|lia].
    split; [reflexivity|].
    assert (Hq : (0 < inject_Z (Z.of_nat (List.length l) * 5))%Q).
    { rewrite <- (Zlt_Qlt 0). exact Hlen. }
    split.
    + apply Qle_shift_div_l; auto. rewrite Qmult_0_l.
      rewrite <- (Zle_Qle 0). lia.
    + apply Qle_shift_div_r; auto. rewrite Qmult_1_l.
      rewrite <- Zle_Qle. lia.
Qed.

Lemma completion_rate_witness :
  Tracker._calculate_completion_rate Reference.round
    (tracker_of Examples.busy_pipeline)
  = Reference.round (7 / 20) 3.
Proof.
  destruct (proj2 (completion_rate_is_a_rounded_fraction Reference.round
                     (tracker_of Examples.busy_pipeline))) as [H _].
  - simpl. discriminate.
  - exact H.
Defined.

(** ** The status written on outreach *)

Lemma updated_record_emails company emails :
  truthy emails = true ->
  dict_get (updated_record company "emails_sent" emails) "status"
  = Some (VStr "outreach_sent").
Proof.
  intros H. unfold updated_record. simpl. rewrite H. apply dict_get_set_same.
Qed.

Lemma updated_record_application company :
  dict_get (updated_record company "application_generated" (VBool true)) "status"
  = Some (VStr "applied").
Proof. unfold updated_record. simpl. apply dict_get_set_same. Qed.

(** X18.  The tracker does not know the status that the orchestrator writes
    when emails are recorded: once a non-empty list of emails is recorded
    for a stored company, its record counts no completed stage in the
    completion rate and its next action is the fallback text; whereas after
    recording the generated application it counts two stages and the next
    action is the cold email campaign. *)
Theorem outreach_status_is_unknown_to_the_tracker :
  forall (self : JobSearchOrchestrator) (company_name : string)
         (emails : pyobj) (company : dict),
    dict_get (companies (pipeline self)) (lower company_name) = Some company ->
    truthy emails = true ->
    let applied :=
      Orchestrator._update_pipeline_status self company_name
        "application_generated" (VBool true) in
    let emailed :=
      Orchestrator._update_pipeline_status applied company_name
        "emails_sent" emails in
    (exists record,
        dict_get (companies (pipeline applied)) (lower company_name) = Some record /\
        Tracker._determine_next_action record = Ok "Send cold email campaign" /\
        Tracker.completed_stages_of record = 2) /\
    (exists record,
        dict_get (companies (pipeline emailed)) (lower company_name) = Some record /\
        Tracker._determine_next_action record
        = Ok "Determine status and next steps" /\
        Tracker.completed_stages_of record = 0).
Proof.
  intros self company_name emails company Hget Htruthy applied emailed.
  assert (Happlied :
            dict_get (companies (pipeline applied)) (lower company_name)
            = Some (updated_record company "application_generated" (VBool true))).
  { subst applied. rewrite (update_present _ _ _ _ _ Hget). simpl.
    apply dict_get_set_same. }
  split.
  - eexists. split; [exact Happlied|].
    unfold Tracker._determine_next_action, Tracker.completed_stages_of, get_default.
    rewrite updated_record_application. split; reflexivity.
  - subst emailed. rewrite (update_present _ _ _ _ _ Happlied). simpl.
    eexists. split; [apply dict_get_set_same|].
    unfold Tracker._determine_next_action, Tracker.completed_stages_of, get_default.
    rewrite (updated_record_emails _ _ Htruthy). split; reflexivity.
Qed.

Lemma outreach_status_witness :
  let self := orchestrator_of Examples.researched_pipeline in
  let emailed :=
    Orchestrator._update_pipeline_status
      (Orchestrator._update_pipeline_status self "Acme" "application_generated"
         (VBool true))
      "Acme" "emails_sent" (VList [VDict [("send_date", VStr "2024-01-10T09:00:00")]]) in
  exists record,
    dict_get (companies (pipeline emailed)) "acme" = Some record /\
    Tracker._determine_next_action record = Ok "Determine status and next steps" /\
    Tracker.completed_stages_of record = 0.
Proof.
  intros self emailed.
  pose proof (outreach_status_is_unknown_to_the_tracker self "Acme"
                (VList [VDict [("send_date", VStr "2024-01-10T09:00:00")]])
                Examples.acme_researched eq_refl eq_refl) as H.
  cbv zeta in H. destruct H as [_ H]. exact H.
Defined.

(** ** The company list *)

Lemma mapM_Forall2 {A B : Type} (f : A -> result B) (l : list A) (l' : list B) :
  mapM f l = Ok l' -> Forall2 (fun x y => f x = Ok y) l l'.
Proof.
  revert l'. induction l as [|x l IH]; simpl; intros l' H.
  - injection H as <-. constructor.
  - apply bind_ok in H as (y & Hy & H). apply bind_ok in H as (ys & Hys & H).
    injection H as <-. constructor; auto.
Qed.

(** An entry that the sort leaves before another is listed before it. *)
Lemma status_key_precedes (a b : Tracker.CompanyStatus) :
  well_formed (Tracker.cs_priority_score a) ->
  well_formed (Tracker.cs_priority_score b) ->
  rich_lt (Tracker.status_key a) (Tracker.status_key b) = Ok false ->
  listed_before a b.
Proof.
  intros Wa Wb. unfold Tracker.status_key, listed_before.
  rewrite pair_lt, rich_eq_int, rich_lt_int.
  destruct (rich_eq _ _) eqn:E.
  - intros H. right. split; auto.
    destruct (Z.eqb_spec (- Tracker.cs_days_since_activity a)
                         (- Tracker.cs_days_since_activity b)); [lia|].
    injection H as H. apply Z.ltb_ge in H. lia.
  - intros H. left. exact (oo_lt_total _ ordered_well_formed _ _ Wa Wb H E).
Qed.

Lemma sort_company_status_spec (l sorted : list Tracker.CompanyStatus) :
  Tracker.sort_company_status l = Ok sorted ->
  Permutation sorted l /\
  (Forall (fun x => well_formed (Tracker.cs_priority_score x)) l ->
   StronglySorted listed_before sorted).
Proof.
  unfold Tracker.sort_company_status. intros H.
  apply py_sort_reverse_spec in H as (Hperm & Hsorted & _).
  split; [exact Hperm|]. intros Hl.
  assert (Hs : Forall (fun x => well_formed (Tracker.cs_priority_score x)) sorted)
    by (apply (Permutation_Forall (Permutation_sym Hperm)); exact Hl).
  assert (Hkeys : Forall (fun x => well_formed (Tracker.status_key x)) l).
  { eapply Forall_impl; [|exact Hl]. intros x Wx. simpl. tauto. }
  specialize (Hsorted Hkeys). clear - Hsorted Hs.
  induction Hsorted as [|a l0 Hsorted IH Ha]; constructor;
    inversion Hs as [|? ? Sa Sl]; subst; auto.
  rewrite Forall_forall in *. intros b Hb.
  apply status_key_precedes; auto.
Qed.

(** X19.  The company list of the dashboard names every company of the
    pipeline exactly once; and in a well-formed pipeline its entries are in
    descending order of priority score, as Python compares the scores
    whatever their types, the entry with fewer days since its last activity
    first among equal scores. *)
Theorem company_status_lists_every_company_by_priority :
  forall (fromisoformat : string -> option datetime) (clock : Z)
         (self : Tracker.PipelineTracker) (l : list Tracker.CompanyStatus),
    Tracker._generate_company_status fromisoformat clock self = Ok l ->
    Permutation (map Tracker.cs_company_name l)
                (map listed_name (companies (Tracker.pipeline_data self))) /\
    (well_formed_pipeline (Tracker.pipeline_data self) ->
     StronglySorted listed_before l).
Proof.
  intros fromisoformat clock self l H.
  unfold Tracker._generate_company_status in H. cbv zeta in H.
  apply bind_ok in H as (company_status & Hmap & Hsort).
  apply mapM_Forall2 in Hmap.
  apply sort_company_status_spec in Hsort as [Hperm Hsorted].
  unfold well_formed_pipeline.
  revert Hmap. generalize (companies (Tracker.pipeline_data self)).
  intros records Hmap.
  assert (Hnames : map Tracker.cs_company_name company_status
                   = map listed_name records /\
                   (Forall (fun kv : string * dict => well_formed (VDict (snd kv)))
                           records ->
                    Forall (fun x => well_formed (Tracker.cs_priority_score x))
                           company_status)).
  { clear Hperm Hsorted.
    induction Hmap as [|kv cs kvs css Hkv _ [IH1 IH2]]; simpl.
    { split; auto. }
    apply bind_ok in Hkv as (? & _ & Hkv). apply bind_ok in Hkv as (? & _ & Hkv).
    apply bind_ok in Hkv as (? & _ & Hkv). apply bind_ok in Hkv as (? & _ & Hkv).
    apply bind_ok in Hkv as (? & _ & Hkv). apply bind_ok in Hkv as (? & _ & Hkv).
    injection Hkv as <-. simpl. split.
    - now rewrite IH1.
    - intros Hw. inversion Hw as [|? ? Wkv Wkvs]; subst.
      constructor; auto. simpl. now apply well_formed_get. }
  destruct Hnames as [Hnames Hscores]. split.
  - rewrite <- Hnames. now apply Permutation_map.
  - intros Wp. auto.
Qed.

Lemma company_status_witness :
  exists l,
    Tracker._generate_company_status Reference.fromisoformat Examples.clock
      (tracker_of MoreExamples.scored_pipeline) = Ok l /\
    map (fun x => (Tracker.cs_company_name x, Tracker.cs_priority_score x,
                   Tracker.cs_days_since_activity x)) l
    = [(VStr "Globex", VFloat 34.5, 10); (VStr "Initech", VInt 30, 5);
       (VStr "Acme", VInt 30, 13)] /\
    StronglySorted listed_before l.
Proof.
  eexists.
  assert (H : Tracker._generate_company_status Reference.fromisoformat
                Examples.clock (tracker_of MoreExamples.scored_pipeline) = Ok _)
    by (vm_compute; reflexivity).
  split; [exact H|]. split; [reflexivity|].
  apply (proj2 (company_status_lists_every_company_by_priority _ _ _ _ H)).
  unfold well_formed_pipeline. simpl. well_formed_example.
Defined.

(** ** The relevance score of a case story *)

Section ScoreFacts.

Import ApplicationGenerator.

Variable json_dumps : dict -> string.

Lemma occurrences_cons k keywords text :
  occurrences (k :: keywords) text
  = (if contains k text then 1 else 0) + occurrences keywords text.
Proof.
  unfold occurrences. simpl. destruct (contains k text); simpl List.length; lia.
Qed.

Lemma occurrences_app ks ks' text :
  occurrences (ks ++ ks') text = occurrences ks text + occurrences ks' text.
Proof.
  unfold occurrences. rewrite filter_app, length_app. lia.
Qed.

Lemma occurrences_nil text : occurrences [] text = 0.
Proof. reflexivity. Qed.

Lemma occurrences_nonneg ks text : 0 <= occurrences ks text.
Proof. unfold occurrences. lia. Qed.

Lemma keyword_loop text keywords (s0 s : Q) :
  foldM (fun score keyword =>
           found <- keyword_in keyword text ;;
           Ok (if found then score + 1.0 else score)%Q)%py keywords s0 = Ok s ->
  (s == s0 + inject_Z (occurrences (strings_of keywords) text))%Q.
Proof.
  revert s0. induction keywords as [|x keywords IH]; simpl; intros s0 H.
  - injection H as <-.
    change (strings_of []) with (@nil string). rewrite occurrences_nil. change (inject_Z 0) with 0%Q. lra.
  - apply bind_ok in H as (s1 & Hs1 & H).
    apply bind_ok in Hs1 as (found & Hfound & [= <-]).
    destruct x; simpl in Hfound; try discriminate. injection Hfound as <-.
    apply IH in H. rewrite H.
    change ([s1] ++ strings_of keywords)%list with (s1 :: strings_of keywords).
    rewrite occurrences_cons, inject_Z_plus.
    destruct (contains s1 text); cbv iota;
      change (inject_Z 0) with 0%Q; change (inject_Z 1) with 1%Q; lra.
Qed.

Lemma category_loop text (keywords : dict) (s0 s : Q) :
  foldM (fun score (kv : string * pyobj) =>
           score_keyword_list text score (snd kv)) keywords s0 = Ok s ->
  (s == s0 + inject_Z
             (occurrences
                (flat_map (fun kv : string * pyobj =>
                             match py_iter (snd kv) with
                             | Ok l => strings_of l
                             | Raise _ => []
                             end) keywords) text))%Q.
Proof.
  revert s0. induction keywords as [|kv keywords IH]; intros s0 H.
  - injection H as <-. cbn [flat_map]. rewrite occurrences_nil. change (inject_Z 0) with 0%Q. lra.
  - cbn [foldM] in H. apply bind_ok in H as (s1 & Hs1 & H).
    unfold score_keyword_list in Hs1.
    apply bind_ok in Hs1 as (l & Hl & Hs1). cbn [flat_map]. rewrite Hl.
    apply keyword_loop in Hs1. apply IH in H.
    rewrite H, Hs1, occurrences_app, inject_Z_plus. lra.
Qed.

Lemma role_loop text (role_keywords : list string) (s0 : Q) :
  (fold_left (fun score keyword =>
                if contains keyword text then score + 2.0 else score)%Q
             role_keywords s0
   == s0 + 2 * inject_Z (occurrences role_keywords text))%Q.
Proof.
  revert s0. induction role_keywords as [|k ks IH]; intros s0.
  - cbn [fold_left]. rewrite occurrences_nil. change (inject_Z 0) with 0%Q. lra.
  - cbn [fold_left]. rewrite IH, occurrences_cons, inject_Z_plus.
    destruct (contains k text); cbv iota;
      change (inject_Z 0) with 0%Q; change (inject_Z 1) with 1%Q; lra.
Qed.

Lemma keyword_score_closed text role_title job_analysis s :
  keyword_score text role_title job_analysis = Ok s ->
  (s == inject_Z (occurrences (listed_keywords job_analysis) text)
        + 2 * inject_Z (occurrences (_get_role_specific_keywords role_title) text))%Q.
Proof.
  unfold keyword_score, listed_keywords. intros H.
  apply bind_ok in H as (keywords & Hk & H).
  apply bind_ok in H as (s1 & Hs1 & [= <-]).
  destruct (get_default job_analysis "keywords" (VDict [])); try discriminate.
  injection Hk as ->.
  apply category_loop in Hs1. rewrite role_loop, Hs1. unfold strings_of. lra.
Qed.

End ScoreFacts.

(** X20.  The relevance score of a case story is a count: one for each
    listed keyword of the job analysis that occurs in the lower-cased
    serialized story (a keyword listed twice counts twice), two for each
    role keyword that occurs in it, and 1.5 more when the result text holds
    a digit.  In particular it is never negative. *)
Theorem relevance_score_counts_keyword_occurrences :
  forall (json_dumps : dict -> string) (story : dict) (role_title : string)
         (job_analysis : dict) (score : Q),
    ApplicationGenerator._score_case_story_relevance json_dumps story role_title
      job_analysis = Ok score ->
    exists (chars : list pyobj) (quantified : bool),
      py_iter (get_default story "results" (VStr "")) = Ok chars /\
      ApplicationGenerator.any_isdigit chars = Ok quantified /\
      let text := lower (json_dumps story) in
      (score ==
       inject_Z (occurrences (listed_keywords job_analysis) text)
       + 2 * inject_Z (occurrences
                         (ApplicationGenerator._get_role_specific_keywords role_title)
                         text)
       + (if quantified then 1.5 else 0))%Q /\
      (0 <= score)%Q.
Proof.
  intros json_dumps story role_title job_analysis score H.
  rewrite score_unfold in H.
  apply bind_ok in H as (s & Hs & H).
  apply bind_ok in H as (chars & Hchars & H).
  apply bind_ok in H as (quantified & Hq & [= <-]).
  exists chars, quantified. split; auto. split; auto.
  apply keyword_score_closed in Hs. cbv zeta.
  pose proof (occurrences_nonneg (listed_keywords job_analysis)
                (lower (json_dumps story))) as H1.
  pose proof (occurrences_nonneg
                (ApplicationGenerator._get_role_specific_keywords role_title)
                (lower (json_dumps story))) as H2.
  rewrite (Zle_Qle 0) in H1, H2. change (inject_Z 0) with 0%Q in H1, H2.
  split.
  - destruct quantified; rewrite Hs; lra.
  - destruct quantified; rewrite Hs; lra.
Qed.

Lemma relevance_score_witness :
  exists score : Q,
    ApplicationGenerator._score_case_story_relevance Examples.dumps
      Examples.conversion_story "Growth Product Manager"
      Examples.conversion_analysis = Ok score /\
    (score == 4.5)%Q.
Proof.
  eexists.
  assert (H : ApplicationGenerator._score_case_story_relevance Examples.dumps
                Examples.conversion_story "Growth Product Manager"
                Examples.conversion_analysis = Ok _)
    by (vm_compute; reflexivity).
  split; [exact H|].
  destruct (relevance_score_counts_keyword_occurrences _ _ _ _ _ H)
    as (chars & quantified & Hchars & Hq & Heq & _).
  vm_compute in Hchars. injection Hchars as <-.
  vm_compute in Hq. injection Hq as <-.
  reflexivity.
Defined.

(** ** The selection of case stories *)

Lemma Qltb_asym (a b : Q) : Qltb a b = true -> Qltb b a = false.
Proof. rewrite Qltb_true, Qltb_false. apply Qlt_le_weak. Qed.

Lemma Qltb_nlt_trans (a b c : Q) :
  Qltb a b = false -> Qltb b c = false -> Qltb a c = false.
Proof. rewrite !Qltb_false. intros H G. now apply Qle_trans with b. Qed.

(** X21.  The selected case stories are at most [limit] of the given
    stories, each one a given story, in descending order of relevance
    score; and when the limit is not below the number of stories, all of
    them are selected, each exactly once. *)
Theorem selected_stories_are_the_best_scored :
  forall (json_dumps : dict -> string) (case_stories : list dict)
         (role_title : string) (job_analysis : dict) (limit : nat)
         (selected : list dict),
    ApplicationGenerator._select_relevant_case_stories json_dumps case_stories
      role_title job_analysis limit = Ok selected ->
    (List.length selected <= limit)%nat /\
    (List.length selected <= List.length case_stories)%nat /\
    incl selected case_stories /\
    StronglySorted (ranked_before json_dumps role_title job_analysis) selected /\
    ((List.length case_stories <= limit)%nat -> Permutation selected case_stories).
Proof.
  intros json_dumps case_stories role_title job_analysis limit selected H.
  unfold ApplicationGenerator._select_relevant_case_stories in H.
  destruct case_stories as [|story stories].
  { injection H as <-. repeat split; simpl; auto; try lia.
    - intros x [].
    - constructor. }
  set (l0 := story :: stories) in *.
  apply bind_ok in H as (scored & Hscored & H). cbv zeta in H.
  injection H as <-.
  apply mapM_Forall2 in Hscored.
  set (P := fun p : Q * dict =>
              ApplicationGenerator._score_case_story_relevance json_dumps (snd p)
                role_title job_analysis = Ok (fst p)).
  assert (Hmap : map snd scored = l0 /\ Forall P scored).
  { clearbody l0. induction Hscored as [|x y xs ys Hxy _ IH]; simpl.
    - split; auto.
    - destruct IH as [IH1 IH2].
      apply bind_ok in Hxy as (s & Hs & [= <-]). simpl. split.
      + now rewrite IH1.
      + constructor; auto. }
  destruct Hmap as [Hmap Hall].
  set (lt := fun a b : Q * dict => Qltb (fst a) (fst b)).
  assert (Hperm : Permutation (sort_reverse lt scored) scored)
    by apply sort_reverse_perm.
  assert (Hlen : List.length (sort_reverse lt scored) = List.length l0).
  { rewrite (Permutation_length Hperm), <- Hmap. now rewrite length_map. }
  assert (Hin : incl (firstn limit (sort_reverse lt scored)) scored).
  { intros x Hx. eapply Permutation_in; [exact Hperm|].
    rewrite <- (firstn_skipn limit (sort_reverse lt scored)).
    apply in_or_app. now left. }
  split; [|split; [|split; [|split]]].
  - rewrite length_map. apply firstn_le_length.
  - rewrite length_map, <- Hlen, length_firstn. lia.
  - intros x Hx. apply in_map_iff in Hx as (p & <- & Hp).
    rewrite <- Hmap. apply in_map. now apply Hin.
  - apply (StronglySorted_map (fun x y => lt x y = false)
             (ranked_before json_dumps role_title job_analysis) P).
    + intros x y Hx Hy Hxy. exists (fst x), (fst y). repeat split; auto.
      now apply Qltb_false.
    + rewrite Forall_forall in *. intros x Hx. apply Hall. now apply Hin.
    + apply StronglySorted_firstn. apply sort_reverse_sorted.
      * intros x y. apply Qltb_asym.
      * intros x y z. apply Qltb_nlt_trans.
  - intros Hlimit. rewrite firstn_all2 by lia.
    rewrite <- Hmap. now apply Permutation_map.
Qed.

Lemma selected_stories_witness :
  exists selected,
    ApplicationGenerator._select_relevant_case_stories Examples.dumps
      [Examples.split_keyword_story; Examples.conversion_story; Examples.b2b_story]
      "Growth Product Manager" Examples.conversion_analysis 2 = Ok selected /\
    List.hd_error selected = Some Examples.conversion_story /\
    (List.length selected <= 2)%nat.
Proof.
  eexists.
  assert (H : ApplicationGenerator._select_relevant_case_stories Examples.dumps
                [Examples.split_keyword_story; Examples.conversion_story;
                 Examples.b2b_story]
                "Growth Product Manager" Examples.conversion_analysis 2 = Ok _)
    by (vm_compute; reflexivity).
  split; [exact H|]. split; [reflexivity|].
  exact (proj1 (selected_stories_are_the_best_scored _ _ _ _ _ _ H)).
Defined.

(** ** The skills section *)

Section SkillFacts.

Import ApplicationGenerator.

Lemma place_skill_mentioned keywords st skill st' :
  place_skill (get_default keywords "technical_skills" (VList []))
              (get_default keywords "tools_platforms" (VList [])) st skill
  = Ok st' ->
  st' = if mentioned keywords skill
        then ((fst st ++ [skill])%list, snd st)
        else (fst st, (snd st ++ [skill])%list).
Proof.
  unfold place_skill, mentioned. destruct st as [relevant other]. intros H.
  apply bind_ok in H as (in_tech & Htech & H).
  apply bind_ok in H as (b & Hb & [= <-]).
  rewrite Htech. destruct in_tech.
  - now injection Hb as <-.
  - now rewrite Hb.
Qed.

Lemma place_skills_loop keywords skills st st' :
  foldM (place_skill (get_default keywords "technical_skills" (VList []))
                     (get_default keywords "tools_platforms" (VList [])))
        skills st = Ok st' ->
  fst st' = (fst st ++ filter (mentioned keywords) skills)%list /\
  snd st' = (snd st ++ filter (fun skill => negb (mentioned keywords skill)) skills)%list.
Proof.
  revert st. induction skills as [|skill skills IH]; simpl; intros st H.
  - injection H as <-. now rewrite !app_nil_r.
  - apply bind_ok in H as (st1 & Hst1 & H).
    apply place_skill_mentioned in Hst1. apply IH in H as [H1 H2].
    rewrite H1, H2, Hst1.
    destruct (mentioned keywords skill); simpl; now rewrite <- ?app_assoc.
Qed.

Lemma optimize_category_spec keywords skills optimized :
  optimize_category keywords skills = Ok optimized ->
  optimized = relevant_first keywords skills.
Proof.
  unfold optimize_category. cbv zeta. intros H.
  apply bind_ok in H as ([relevant other] & Hloop & [= <-]).
  apply place_skills_loop in Hloop as [H1 H2]. simpl in H1, H2.
  now rewrite H1, H2.
Qed.

Lemma relevant_first_perm keywords skills :
  Permutation (relevant_first keywords skills) skills.
Proof.
  unfold relevant_first. induction skills as [|skill skills IH]; simpl; auto.
  destruct (mentioned keywords skill); simpl.
  - now constructor.
  - apply Permutation_sym, Permutation_cons_app. now apply Permutation_sym.
Qed.

End SkillFacts.

(** X22.  The optimized skills section keeps the categories of the base
    skills in their order, and each category holds exactly its base skills
    (none dropped, none added, none repeated): the skills mentioned among
    the technical or tools keywords of the job analysis first, each group
    in its base order. *)
Theorem skills_are_reordered_never_dropped :
  forall (job_analysis : dict) (optimized : list (string * list string)),
    ApplicationGenerator._optimize_skills_section job_analysis = Ok optimized ->
    exists keywords : dict,
      get_default job_analysis "keywords" (VDict []) = VDict keywords /\
      Forall2 (fun base opt : string * list string =>
                 fst opt = fst base /\
                 snd opt = relevant_first keywords (snd base) /\
                 Permutation (snd opt) (snd base))
              ApplicationGenerator.base_skills optimized.
Proof.
  intros job_analysis optimized H.
  unfold ApplicationGenerator._optimize_skills_section in H.
  apply bind_ok in H as (keywords & Hk & H).
  exists keywords. split.
  { destruct (get_default job_analysis "keywords" (VDict [])); try discriminate.
    now injection Hk as ->. }
  apply mapM_Forall2 in H.
  eapply Forall2_impl; [|exact H].
  intros base opt Hopt. simpl in Hopt.
  apply bind_ok in Hopt as (skills & Hskills & [= <-]). simpl.
  apply optimize_category_spec in Hskills. subst skills.
  repeat split. apply relevant_first_perm.
Qed.

Lemma skills_witness :
  let job_analysis : dict :=
    [("keywords",
      VDict [("technical_skills", VList [VStr "python"; VStr "a/b testing"]);
             ("tools_platforms", VList [VStr "figma"])])] in
  ApplicationGenerator._optimize_skills_section job_analysis
  = Ok [("Product Management",
         ["Product strategy"; "Roadmapping"; "User research"; "Analytics"]);
        ("Technical Skills", ["Python"; "A/B testing"; "SQL"; "Data analysis"]);
        ("Tools & Platforms", ["Figma"; "Amplitude"; "Mixpanel"; "Google Analytics"])].
Proof.
  intros job_analysis.
  destruct (skills_are_reordered_never_dropped job_analysis _ eq_refl)
    as (keywords & _ & _).
  reflexivity.
Defined.

(** ** The optimization report *)

Section ReportFacts.

Import ApplicationGenerator.

Variable json_dumps : dict -> string.
Variable round : Q -> Z -> Q.

Lemma match_keyword_loop text keywords cm tp tm cm' tp' tm' :
  foldM (match_keyword text) keywords (cm, tp, tm) = Ok (cm', tp', tm') ->
  tp' = tp + Z.of_nat (List.length keywords) /\
  tm' - tm = Z.of_nat (List.length cm') - Z.of_nat (List.length cm) /\
  (List.length cm <= List.length cm' <= List.length cm + List.length keywords)%nat /\
  (Forall (fun k => exists s, k = VStr s /\ contains s text = true) cm ->
   Forall (fun k => exists s, k = VStr s /\ contains s text = true) cm').
Proof.
  revert cm tp tm. induction keywords as [|k keywords IH]; intros cm tp tm H.
  - injection H as <- <- <-. simpl. repeat split; auto; lia.
  - cbn [foldM] in H. apply bind_ok in H as ([[cm1 tp1] tm1] & Hstep & H).
    apply IH in H as (Htp & Htm & Hlen & Hall).
    unfold match_keyword in Hstep.
    apply bind_ok in Hstep as (found & Hfound & Hstep).
    destruct k; simpl in Hfound; try discriminate. injection Hfound as <-.
    destruct (contains s text) eqn:E; injection Hstep as <- <- <-.
    + rewrite length_app in *. simpl List.length in *.
      repeat split; try lia.
      intros Hcm. apply Hall. apply Forall_app. split; auto.
      constructor; eauto.
    + simpl List.length. repeat split; auto; lia.
Qed.

Lemma match_category_loop text (keywords : dict) ms tp tm ms' tp' tm' :
  foldM (match_category text) keywords (ms, tp, tm) = Ok (ms', tp', tm') ->
  map fst ms' = (map fst ms ++ map fst keywords)%list /\
  (Forall (fun kv => well_counted text (snd kv)) ms ->
   Forall (fun kv => well_counted text (snd kv)) ms') /\
  tp' - tp = possible_total ms' - possible_total ms /\
  tm' - tm = matched_total ms' - matched_total ms.
Proof.
  revert ms tp tm. induction keywords as [|kv keywords IH]; intros ms tp tm H.
  - injection H as <- <- <-. simpl. rewrite app_nil_r. repeat split; auto; lia.
  - cbn [foldM] in H. apply bind_ok in H as ([[ms1 tp1] tm1] & Hstep & H).
    apply IH in H as (Hkeys & Hall & Htp & Htm).
    unfold match_category in Hstep. cbv zeta in Hstep.
    apply bind_ok in Hstep as (l & Hl & Hstep).
    apply bind_ok in Hstep as ([[cm tp2] tm2] & Hloop & Hstep).
    apply bind_ok in Hstep as (total & Htotal & Hstep).
    injection Hstep as <- <- <-.
    apply match_keyword_loop in Hloop as (Htp2 & Htm2 & Hlen & Hgood).
    rewrite (py_len_iter _ _ _ Htotal Hl) in *.
    assert (Hsum : forall m (l0 : list (string * CategoryMatches)),
               possible_total (l0 ++ [m]) = possible_total l0 + cm_total (snd m) /\
               matched_total (l0 ++ [m]) = matched_total l0 + cm_count (snd m)).
    { intros m l0. unfold possible_total, matched_total.
      induction l0 as [|x l0 [IH1 IH2]]; simpl; [lia|].
      rewrite IH1, IH2. lia. }
    match type of Htp with
    | context [possible_total (ms ++ [?m])] => destruct (Hsum m ms) as [Hp Hm]
    end.
    rewrite Hp in Htp. rewrite Hm in Htm. simpl in Htp, Htm, Htm2, Hlen.
    split; [|split; [|split]].
    + rewrite Hkeys, map_app, <- app_assoc. reflexivity.
    + intros Hms. apply Hall. apply Forall_app. split; auto.
      constructor; [|constructor]. unfold well_counted. simpl.
      split; [reflexivity|]. split; [lia|]. apply Hgood. constructor.
    + lia.
    + lia.
Qed.

Lemma well_counted_totals text ms :
  Forall (fun kv : string * CategoryMatches => well_counted text (snd kv)) ms ->
  0 <= matched_total ms <= possible_total ms.
Proof.
  induction 1 as [|kv ms (_ & Hkv & _) _ IH]; simpl; lia.
Qed.

Lemma half_rate (c t : Z) :
  0 < t -> Qltb (inject_Z c / inject_Z t) 0.5 = (2 * c <? t).
Proof.
  intros Ht.
  assert (Hq : (0 < inject_Z t)%Q) by (now rewrite <- (Zlt_Qlt 0)).
  assert (Hne : ~ (inject_Z t == 0)%Q) by (intros E; rewrite E in Hq; lra).
  assert (E : (inject_Z c / inject_Z t < 0.5)%Q <-> 2 * c < t).
  { rewrite <- (Qmult_lt_r _ _ (inject_Z t)) by exact Hq.
    rewrite (Qmult_comm (inject_Z c / inject_Z t)), Qmult_div_r by exact Hne.
    rewrite Zlt_Qlt, inject_Z_mult. change (inject_Z 2) with 2%Q.
    split; intros; lra. }
  destruct (Qltb _ _) eqn:E1; destruct (2 * c <? t) eqn:E2; auto.
  - apply Qltb_true, E in E1. apply Z.ltb_ge in E2. lia.
  - apply Z.ltb_lt, E, Qltb_true in E2. congruence.
Qed.

Lemma suggestions_loop (matches : list (string * CategoryMatches))
  (suggestions : list string) :
  fold_left
    (fun suggestions (kv : string * CategoryMatches) =>
       let category := fst kv in
       let match_data := snd kv in
       let match_rate :=
         if cm_total match_data >? 0
         then (inject_Z (cm_count match_data) / inject_Z (cm_total match_data))%Q
         else 0%Q in
       if Qltb match_rate 0.5
       then (suggestions
             ++ [("Consider adding more " ++ replace "_" " " category
                  ++ " keywords")%string])%list
       else suggestions)
    matches suggestions
  = (suggestions ++ map suggestion (filter under_matched matches))%list.
Proof.
  revert suggestions. induction matches as [|kv matches IH]; intros suggestions.
  - simpl. now rewrite app_nil_r.
  - cbn [fold_left filter]. rewrite IH. cbv zeta.
    assert (E : Qltb (if cm_total (snd kv) >? 0
                      then (inject_Z (cm_count (snd kv))
                            / inject_Z (cm_total (snd kv)))%Q
                      else 0%Q) 0.5 = under_matched kv).
    { unfold under_matched. destruct (cm_total (snd kv) >? 0) eqn:Hpos.
      - apply Z.gtb_lt in Hpos. rewrite half_rate by lia.
        replace (cm_total (snd kv) <=? 0) with false
          by (symmetry; apply Z.leb_gt; lia).
        now rewrite orb_false_r.
      - replace (cm_total (snd kv) <=? 0) with true.
        + now rewrite orb_true_r.
        + symmetry. apply Z.leb_le.
          destruct (Z.gtb_spec (cm_total (snd kv)) 0); [discriminate|lia]. }
    rewrite E. destruct (under_matched kv); simpl; auto.
    now rewrite <- app_assoc.
Qed.

Lemma report_spec job_analysis resume r :
  _generate_resume_optimization_report json_dumps round job_analysis resume = Ok r ->
  exists keywords : dict,
    get_default job_analysis "keywords" (VDict []) = VDict keywords /\
    map fst (keyword_matches r) = map fst keywords /\
    Forall (fun kv => well_counted (lower (json_dumps resume)) (snd kv))
           (keyword_matches r) /\
    overall_match_percentage r
    = round (if possible_total (keyword_matches r) >? 0
             then (inject_Z (matched_total (keyword_matches r))
                   / inject_Z (possible_total (keyword_matches r)) * 100)%Q
             else 0%Q) 1.
Proof.
  unfold _generate_resume_optimization_report. intros H.
  apply bind_ok in H as (keywords & Hk & H). cbv zeta in H.
  apply bind_ok in H as ([[ms tp] tm] & Hloop & [= <-]). simpl.
  exists keywords. split.
  { destruct (get_default job_analysis "keywords" (VDict [])); try discriminate.
    now injection Hk as ->. }
  apply match_category_loop in Hloop as (Hkeys & Hall & Htp & Htm).
  simpl in Hkeys, Htp, Htm.
  replace tp with (possible_total ms) by lia.
  replace tm with (matched_total ms) by lia.
  repeat split; auto.
Qed.

End ReportFacts.

(** X23.  The resume optimization report has one entry per keyword category
    of the job analysis, in their order; each entry counts its matched
    keywords, which are strings that occur in the lower-cased serialized
    resume, and never more than the keywords of its category; and the
    overall percentage is the rounding of all matched over all listed
    keywords, times 100, a ratio between 0 and 100 that is 0 when no
    keyword is listed (no division by zero). *)
Theorem optimization_report_counts_matched_keywords :
  forall (json_dumps : dict -> string) (round : Q -> Z -> Q)
         (job_analysis resume : dict) (r : ApplicationGenerator.OptimizationReport),
    ApplicationGenerator._generate_resume_optimization_report json_dumps round
      job_analysis resume = Ok r ->
    exists (keywords : dict) (ratio : Q),
      get_default job_analysis "keywords" (VDict []) = VDict keywords /\
      map fst (ApplicationGenerator.keyword_matches r) = map fst keywords /\
      Forall (fun kv => well_counted (lower (json_dumps resume)) (snd kv))
             (ApplicationGenerator.keyword_matches r) /\
      ApplicationGenerator.overall_match_percentage r = round ratio 1 /\
      (0 <= ratio <= 100)%Q /\
      (possible_total (ApplicationGenerator.keyword_matches r) = 0 -> ratio = 0%Q) /\
      (0 < possible_total (ApplicationGenerator.keyword_matches r) ->
       ratio = (inject_Z (matched_total (ApplicationGenerator.keyword_matches r))
                / inject_Z (possible_total (ApplicationGenerator.keyword_matches r))
                * 100)%Q).
Proof.
  intros json_dumps round job_analysis resume r H.
  apply report_spec in H as (keywords & Hk & Hkeys & Hall & Hoverall).
  pose proof (well_counted_totals _ _ Hall) as Htotals.
  set (possible := possible_total (ApplicationGenerator.keyword_matches r)) in *.
  set (matched := matched_total (ApplicationGenerator.keyword_matches r)) in *.
  exists keywords.
  destruct (possible >? 0) eqn:Hpos.
  - apply Z.gtb_lt in Hpos.
    exists (inject_Z matched / inject_Z possible * 100)%Q.
    assert (Hq : (0 < inject_Z possible)%Q) by (now rewrite <- (Zlt_Qlt 0)).
    assert (H0 : (0 <= inject_Z matched / inject_Z possible)%Q).
    { apply Qle_shift_div_l; auto. rewrite Qmult_0_l, <- (Zle_Qle 0). lia. }
    assert (H1 : (inject_Z matched / inject_Z possible <= 1)%Q).
    { apply Qle_shift_div_r; auto. rewrite Qmult_1_l, <- Zle_Qle. lia. }
    repeat split; auto; try lra; lia.
  - exists 0%Q. repeat split; auto; try lra.
    intros Hlt. apply Z.gtb_lt in Hlt. congruence.
Qed.

Lemma optimization_report_witness :
  let job_analysis : dict :=
    [("keywords",
      VDict [("technical_skills", VList [VStr "sql"; VStr "kubernetes"; VStr "rust"]);
             ("soft_skills", VList [])])] in
  let resume : dict := [("skills", VList [VStr "SQL"; VStr "Python"])] in
  exists r,
    ApplicationGenerator._generate_resume_optimization_report Examples.dumps
      Reference.round job_analysis resume = Ok r /\
    map fst (ApplicationGenerator.keyword_matches r)
    = ["technical_skills"; "soft_skills"] /\
    matched_total (ApplicationGenerator.keyword_matches r) = 1 /\
    possible_total (ApplicationGenerator.keyword_matches r) = 3 /\
    ApplicationGenerator.optimization_suggestions r
    = ["Consider adding more technical skills keywords";
       "Consider adding more soft skills keywords"].
Proof.
  intros job_analysis resume. eexists.
  assert (H : ApplicationGenerator._generate_resume_optimization_report
                Examples.dumps Reference.round job_analysis resume = Ok _)
    by (vm_compute; reflexivity).
  split; [exact H|].
  destruct (optimization_report_counts_matched_keywords _ _ _ _ _ H)
    as (keywords & ratio & Hk & Hkeys & _).
  injection Hk as <-.
  split; [exact Hkeys|]. repeat split.
Defined.

(** X24.  A suggestion is made, in the order of the categories, for exactly
    the categories of which less than half of the keywords matched
    (2 * count < total) and for the categories without any keyword, whose
    match rate is taken to be 0; the text names the category with its
    underscores replaced by spaces. *)
Theorem suggestions_are_for_under_matched_categories :
  forall matches : list (string * ApplicationGenerator.CategoryMatches),
    ApplicationGenerator._generate_optimization_suggestions matches
    = map suggestion (filter under_matched matches).
Proof.
  intros matches. unfold ApplicationGenerator._generate_optimization_suggestions.
  now rewrite suggestions_loop.
Qed.
